(** * GovTrackPython: response tracking and curator rating

    A shallow embedding of the response-correlation code of
    [discord_bot.py] (with the legacy variants of [discord_bot_old.py] and
    [utils.py]) and of the scoring code of [rating_system.py], followed by
    the event handlers of [discord_bot.py], the default settings and keyword
    test of [utils.py] and the unanswered-mention query of [scheduler.py].

    Conventions of the embedding.
    - An instant is an integer number of microseconds ([Z]); a
      [timedelta] is a difference of two instants.  A [datetime] is an
      instant that is timezone-aware or naive: the creation time of a
      message is aware (discord.py 2, which the message-content intent needs),
      the values read back from the [DateTime] columns and [utcnow()] are
      naive, and a subtraction that mixes the two raises [TypeError].
    - [int(d.total_seconds())] truncates a double towards zero; it is
      [Z.quot d 1000000] for instants less than 2^33 seconds apart.
    - Discord snowflakes are integers; the code stores [str(id)], which is
      injective, so identifiers are kept as [Z].
    - A table is the list of its rows in the order in which a query without
      [ORDER BY] returns them; [.first()] is the first row of the filtered
      list and [.all()] is the filtered list.
    - Database commits succeed.  An [except] branch is modelled where the
      [try] block can raise on its own: the [TypeError] of a mixed
      subtraction, the [OverflowError] of a period start outside the range
      of [datetime], the [IndexError] of an empty list. *)

From Stdlib Require Import ZArith List Bool String Lia.
From Stdlib Require Import Permutation Sorting.Sorted.
Import ListNotations.
Open Scope string_scope.
Open Scope list_scope.
Open Scope Z_scope.

(** ** Python helpers *)

Definition usec_per_second : Z := 1000000.

(** [timedelta(days=d)], [timedelta(hours=h)] and a number of seconds, in
    microseconds. *)
Definition timedelta_days (d : Z) : Z := d * 86400 * usec_per_second.
Definition timedelta_hours (h : Z) : Z := h * 3600 * usec_per_second.
Definition seconds (s : Z) : Z := s * usec_per_second.

(** [int(delta.total_seconds())].  [total_seconds()] is a double; its
    integer part is the truncated quotient as long as the two instants are
    less than [exact_seconds_range] apart. *)
Definition int_total_seconds (delta : Z) : Z := Z.quot delta usec_per_second.

Definition exact_seconds_range : Z := seconds (2 ^ 33).

(** A [datetime]: an instant, timezone-aware or naive. *)
Record datetime := mkDatetime {
  dt_instant : Z;
  dt_aware : bool
}.

Definition aware (instant : Z) : datetime := mkDatetime instant true.
Definition naive (instant : Z) : datetime := mkDatetime instant false.

(** [a - b] on two [datetime] values; [None] stands for the [TypeError]
    raised when one is aware and the other naive. *)
Definition datetime_sub (a b : datetime) : option Z :=
  if Bool.eqb (dt_aware a) (dt_aware b)
  then Some (dt_instant a - dt_instant b)
  else None.

(** The range of [datetime] (years 1 to 9999) and of [timedelta(days=...)]. *)
Definition datetime_min : Z := seconds (-62135596800).
Definition datetime_max : Z := seconds 253402300800 - 1.
Definition timedelta_max_days : Z := 999999999.

(** [end_date - timedelta(days=days)]; [None] stands for the
    [OverflowError] raised when the number of days or the result is out of
    range. *)
Definition period_start (end_date days : Z) : option Z :=
  if (Z.abs days <=? timedelta_max_days) &&
     (datetime_min <=? end_date - timedelta_days days) &&
     (end_date - timedelta_days days <=? datetime_max)
  then Some (end_date - timedelta_days days)
  else None.

(** [s[:n]]: the first [n] characters of a [str] kept as UTF-8 bytes.  The
    bytes [10xxxxxx] continue a character. *)
Definition is_continuation_byte (c : Ascii.ascii) : bool :=
  let n := Ascii.nat_of_ascii c in (Nat.leb 128 n && Nat.ltb n 192)%bool.

Fixpoint take_chars (n : nat) (s : string) : string :=
  match s with
  | EmptyString => EmptyString
  | String c rest =>
      if is_continuation_byte c then String c (take_chars n rest)
      else match n with
           | O => EmptyString
           | S n' => String c (take_chars n' rest)
           end
  end.

(** [l[:n]] for a Python integer [n]: a negative bound counts from the end. *)
Definition py_slice_to {A : Type} (n : Z) (l : list A) : list A :=
  if n <? 0
  then firstn (Z.to_nat (Z.max 0 (Z.of_nat (List.length l) + n))) l
  else firstn (Z.to_nat n) l.

(** [l[-1]]; [None] stands for the [IndexError] on an empty list. *)
Definition py_last {A : Type} (l : list A) : option A :=
  match rev l with
  | [] => None
  | x :: _ => Some x
  end.

(** A stable sort in descending order of an integer key.  Both
    [list.sort(key=..., reverse=True)] and the rows of an
    [ORDER BY ... DESC] query are modelled with it: elements with equal
    keys keep their relative order. *)
Fixpoint insert_desc {A : Type} (key : A -> Z) (x : A) (l : list A) : list A :=
  match l with
  | [] => [x]
  | y :: r => if key y <=? key x then x :: y :: r else y :: insert_desc key x r
  end.

Fixpoint sort_desc {A : Type} (key : A -> Z) (l : list A) : list A :=
  match l with
  | [] => []
  | x :: r => insert_desc key x (sort_desc key r)
  end.

(** The first row satisfying [p] is replaced by [f] of it: the effect of
    mutating the object returned by [.first()] and committing. *)
Fixpoint update_first {A : Type} (p : A -> bool) (f : A -> A) (l : list A)
  : list A :=
  match l with
  | [] => []
  | x :: r => if p x then f x :: r else x :: update_first p f r
  end.

Definition opt_eqb (o : option Z) (v : Z) : bool :=
  match o with
  | Some x => x =? v
  | None => false
  end.

(** [x or 0] for a nullable integer: [None] and [0] are the falsy values. *)
Definition or_zero (o : option Z) : Z :=
  match o with
  | Some x => x
  | None => 0
  end.

Definition is_none {A : Type} (o : option A) : bool :=
  match o with
  | Some _ => false
  | None => true
  end.

(** ** models: the rows the code reads and writes

    The records have the columns that [discord_bot.py], [utils.py] and
    [rating_system.py] read and write. *)

Record RatingSettings := mkRatingSettings {
  rating_name : string;
  rating_text : string;
  min_score : Z;
  color : string
}.

Record GlobalRatingConfig := mkGlobalRatingConfig {
  activity_points_message : Z;
  activity_points_reaction : Z;
  activity_points_reply : Z;
  activity_points_task_verification : Z;
  response_time_good_seconds : Z;
  response_time_poor_seconds : Z
}.

Record DiscordServers := mkDiscordServers {
  srv_id : Z;                      (* primary key *)
  srv_server_id : Z;               (* Discord guild id *)
  srv_name : string;
  srv_role_tag_id : option string;
  srv_is_active : bool
}.

Record Curators := mkCurators {
  cur_id : Z;                      (* primary key *)
  cur_discord_id : Z;
  cur_name : string;
  cur_is_active : bool
}.

Record Activities := mkActivities {
  act_curator_id : Z;
  act_server_id : Z;
  act_type : string;
  act_timestamp : Z
}.

(** Modelled from the spec: the schema module [models] that the live bot
    imports is not among the sources, only the older [models_old.py] is.
    The row has the columns of [models_old.py] and the fields of the
    specification's MentionEvent that [discord_bot.py] assigns and filters
    on: author identity and name, request text, and the resolution state
    [is_resolved]. *)
Record ResponseTracking := mkResponseTracking {
  rt_id : Z;                       (* primary key *)
  server_id : Z;
  curator_id : option Z;
  mention_message_id : Z;
  mention_timestamp : Z;
  mention_content : string;
  mention_author_id : option Z;
  mention_author_name : string;
  response_message_id : option Z;
  response_timestamp : option Z;
  response_type : option string;
  response_time_seconds : option Z;
  is_resolved : bool
}.

(** ** rating_system.py *)

Module RatingSystem.

(** The configuration created by [_load_rating_config] when the table is
    empty. *)
Definition default_rating_config : GlobalRatingConfig :=
  {| activity_points_message := 3;
     activity_points_reaction := 1;
     activity_points_reply := 2;
     activity_points_task_verification := 5;
     response_time_good_seconds := 60;
     response_time_poor_seconds := 300 |}.

Definition _load_rating_config (rows : list GlobalRatingConfig)
  : GlobalRatingConfig :=
  match rows with
  | config :: _ => config
  | [] => default_rating_config
  end.

Definition default_ratings : list RatingSettings :=
  [ mkRatingSettings "excellent" "Великолепно" 50 "#22c55e";
    mkRatingSettings "good" "Хорошо" 35 "#3b82f6";
    mkRatingSettings "normal" "Нормально" 20 "#f59e0b";
    mkRatingSettings "poor" "Плохо" 10 "#ef4444";
    mkRatingSettings "terrible" "Ужасно" 0 "#991b1b" ].

(** [RatingSettings.query.order_by(RatingSettings.min_score.desc()).all()] *)
Definition query_thresholds (rows : list RatingSettings) : list RatingSettings :=
  sort_desc min_score rows.

(** [_load_rating_thresholds]: the rows in descending order of [min_score];
    an empty table is first filled with the five default bands. *)
Definition _load_rating_thresholds (rows : list RatingSettings)
  : list RatingSettings :=
  match query_thresholds rows with
  | [] => query_thresholds default_ratings
  | thresholds => thresholds
  end.

(** The [activity_counts] dictionary: its four keys are fixed. *)
Record ActivityCounts := mkActivityCounts {
  count_message : Z;
  count_reaction : Z;
  count_reply : Z;
  count_task_verification : Z
}.

Record ScoreData := mkScoreData {
  total_score : Z;
  base_score : Z;
  response_bonus : Z;
  activity_counts : ActivityCounts;
  period_days : Z
}.

Section WithConfig.

Variable rating_config : GlobalRatingConfig.
Variable rating_thresholds : list RatingSettings.

(** The rows selected by the query of [calculate_response_time_bonus]; none
    when the start of the period cannot be computed and the query is not
    reached. *)
Definition responses_in_period (trackings : list ResponseTracking)
    (now curator days : Z) : list ResponseTracking :=
  let end_date := now in
  match period_start end_date days with
  | None => []
  | Some start_date =>
      filter (fun r =>
                opt_eqb (curator_id r) curator &&
                match response_timestamp r with
                | Some ts => (start_date <=? ts) && (ts <=? end_date)
                | None => false
                end) trackings
  end.

(** One iteration of the loop of [calculate_response_time_bonus]. *)
Definition response_time_step (total_bonus : Z) (response : ResponseTracking)
  : Z :=
  let response_time := or_zero (response_time_seconds response) in
  if response_time <=? response_time_good_seconds rating_config
  then total_bonus + 2
  else if response_time <=? response_time_poor_seconds rating_config
  then total_bonus + 0
  else total_bonus - 1.

(** [calculate_response_time_bonus]; its [except] branch returns [0]. *)
Definition calculate_response_time_bonus (trackings : list ResponseTracking)
    (now curator days : Z) : Z :=
  match period_start now days with
  | None => 0
  | Some _ =>
      match responses_in_period trackings now curator days with
      | [] => 0
      | responses => fold_left response_time_step responses 0
      end
  end.

(** The rows selected by the query of [calculate_curator_score]; none when
    the start of the period cannot be computed and the query is not
    reached. *)
Definition activities_in_period (activities : list Activities)
    (now curator days : Z) : list Activities :=
  let end_date := now in
  match period_start end_date days with
  | None => []
  | Some start_date =>
      filter (fun a =>
                (act_curator_id a =? curator) &&
                (start_date <=? act_timestamp a) &&
                (act_timestamp a <=? end_date)) activities
  end.

Definition no_activity : ActivityCounts := mkActivityCounts 0 0 0 0.

(** One iteration of the loop of [calculate_curator_score]. *)
Definition activity_step (acc : Z * ActivityCounts) (activity : Activities)
  : Z * ActivityCounts :=
  let (score, counts) := acc in
  if String.eqb (act_type activity) "message" then
    (score + activity_points_message rating_config,
     mkActivityCounts (count_message counts + 1) (count_reaction counts)
       (count_reply counts) (count_task_verification counts))
  else if String.eqb (act_type activity) "reaction" then
    (score + activity_points_reaction rating_config,
     mkActivityCounts (count_message counts) (count_reaction counts + 1)
       (count_reply counts) (count_task_verification counts))
  else if String.eqb (act_type activity) "reply" then
    (score + activity_points_reply rating_config,
     mkActivityCounts (count_message counts) (count_reaction counts)
       (count_reply counts + 1) (count_task_verification counts))
  else if String.eqb (act_type activity) "task_verification" then
    (score + activity_points_task_verification rating_config,
     mkActivityCounts (count_message counts) (count_reaction counts)
       (count_reply counts) (count_task_verification counts + 1))
  else acc.

(** [calculate_curator_score]; its [except] branch returns the all-zero
    result. *)
Definition calculate_curator_score (activities : list Activities)
    (trackings : list ResponseTracking) (now curator days : Z) : ScoreData :=
  match period_start now days with
  | None =>
      {| total_score := 0;
         base_score := 0;
         response_bonus := 0;
         activity_counts := no_activity;
         period_days := days |}
  | Some _ =>
      let acts := activities_in_period activities now curator days in
      let (base, counts) := fold_left activity_step acts (0, no_activity) in
      let bonus := calculate_response_time_bonus trackings now curator days in
      let total := base + bonus in
      {| total_score := Z.max 0 total;
         base_score := base;
         response_bonus := bonus;
         activity_counts := counts;
         period_days := days |}
  end.

(** The band search of [get_curator_rating]: the first threshold, in the
    order of [rating_thresholds], that the score reaches; otherwise
    [rating_thresholds[-1]]. *)
Definition select_rating (score : Z) : option RatingSettings :=
  match find (fun threshold => min_score threshold <=? score) rating_thresholds with
  | Some rating => Some rating
  | None => py_last rating_thresholds
  end.

Record CuratorRating := mkCuratorRating {
  cr_rating_name : string;
  cr_rating_text : string;
  cr_rating_color : string;
  cr_score : Z;
  cr_score_data : ScoreData
}.

(** [get_curator_rating]; [None] is the [IndexError] of an empty threshold
    list. *)
Definition get_curator_rating (activities : list Activities)
    (trackings : list ResponseTracking) (now curator days : Z)
  : option CuratorRating :=
  let score_data := calculate_curator_score activities trackings now curator days in
  let total := total_score score_data in
  match select_rating total with
  | Some rating =>
      Some {| cr_rating_name := rating_name rating;
              cr_rating_text := rating_text rating;
              cr_rating_color := color rating;
              cr_score := total;
              cr_score_data := score_data |}
  | None => None
  end.

(** [get_average_response_time], without the display string
    [formatted_time].  [int(total_time / len(responses))] truncates a
    double; it is the truncated quotient as long as the sum is below 2^53
    in magnitude.  The [except] branch returns [None]. *)
Record AverageResponse := mkAverageResponse {
  average_seconds : Z;
  response_count : Z
}.

Definition get_average_response_time (trackings : list ResponseTracking)
    (now curator days : Z) : option AverageResponse :=
  let end_date := now in
  match period_start end_date days with
  | None => None
  | Some start_date =>
      let responses :=
        filter (fun r =>
                  opt_eqb (curator_id r) curator &&
                  negb (is_none (response_time_seconds r)) &&
                  match response_timestamp r with
                  | Some ts => (start_date <=? ts) && (ts <=? end_date)
                  | None => false
                  end) trackings in
      match responses with
      | [] => None
      | _ =>
          let total_time :=
            fold_left (fun acc r =>
                         acc + match response_time_seconds r with
                               | Some t => t
                               | None => 0
                               end) responses 0 in
          Some {| average_seconds :=
                    Z.quot total_time (Z.of_nat (List.length responses));
                  response_count := Z.of_nat (List.length responses) |}
      end
  end.

Record LeaderboardEntry := mkLeaderboardEntry {
  le_curator : Curators;
  le_rating : CuratorRating;
  le_average_response_time : option AverageResponse;
  le_score : Z
}.

(** The loop of [get_top_curators] over the active curators; [None] when a
    call of [get_curator_rating] raises. *)
Fixpoint rate_curators (activities : list Activities)
    (trackings : list ResponseTracking) (now days : Z)
    (curators : list Curators) : option (list LeaderboardEntry) :=
  match curators with
  | [] => Some []
  | curator :: rest =>
      match get_curator_rating activities trackings now (cur_id curator) days with
      | None => None
      | Some rating_data =>
          let avg_response :=
            get_average_response_time trackings now (cur_id curator) days in
          match rate_curators activities trackings now days rest with
          | None => None
          | Some curator_ratings =>
              Some ({| le_curator := curator;
                       le_rating := rating_data;
                       le_average_response_time := avg_response;
                       le_score := cr_score rating_data |} :: curator_ratings)
          end
      end
  end.

(** [Curators.query.filter_by(is_active=True).all()] *)
Definition active_curators (curators : list Curators) : list Curators :=
  filter cur_is_active curators.

(** [get_top_curators]: the [except] branch returns the empty list. *)
Definition get_top_curators (curators : list Curators)
    (activities : list Activities) (trackings : list ResponseTracking)
    (limit now days : Z) : list LeaderboardEntry :=
  match rate_curators activities trackings now days (active_curators curators) with
  | None => []
  | Some curator_ratings => py_slice_to limit (sort_desc le_score curator_ratings)
  end.

End WithConfig.

End RatingSystem.

(** ** discord_bot.py *)

(** The fields of a [discord.Message] that the tracking code reads. *)
Record Message := mkMessage {
  msg_id : Z;
  msg_guild_id : Z;
  msg_channel_id : Z;
  msg_author_id : Z;
  msg_author_display_name : string;
  msg_content : string;
  msg_created_at : Z;
  msg_reference : option Z         (* [message.reference.message_id] *)
}.

(** [message.created_at]: timezone-aware. *)
Definition created_at (message : Message) : datetime :=
  aware (msg_created_at message).

(** The assignments made to a tracking row when a response is recorded,
    once the response time has been computed; [resolved] is the new value
    of [is_resolved]. *)
Definition record_response (tracking : ResponseTracking) (curator : Curators)
    (response : Message) (rtype : string) (resolved : bool) (response_time : Z)
  : ResponseTracking :=
  {| rt_id := rt_id tracking;
     server_id := server_id tracking;
     curator_id := Some (cur_id curator);
     mention_message_id := mention_message_id tracking;
     mention_timestamp := mention_timestamp tracking;
     mention_content := mention_content tracking;
     mention_author_id := mention_author_id tracking;
     mention_author_name := mention_author_name tracking;
     response_message_id := Some (msg_id response);
     response_timestamp := Some (msg_created_at response);
     response_type := Some rtype;
     response_time_seconds := Some (int_total_seconds response_time);
     is_resolved := resolved |}.

(** The primary key given to a new row: one more than the largest in use. *)
Definition next_id (trackings : list ResponseTracking) : Z :=
  1 + fold_right Z.max 0 (map rt_id trackings).

Module Bot.

(** What [send_notification] posts to the notification channel. *)
Record Notification := mkNotification {
  ntf_tracking_id : Z;
  ntf_server_name : string;
  ntf_minutes_passed : Z;
  ntf_message : string;
  ntf_author : string;
  ntf_role_mention : string
}.

(** The tables and the sleeping tasks of the bot.  A pending check is the
    pair of a tracking id and the time at which its [asyncio.sleep] ends. *)
Record BotState := mkBotState {
  servers : list DiscordServers;
  notification_timeout_setting : option Z;   (* [BotSettings] row, as [int] *)
  trackings : list ResponseTracking;
  pending_checks : list (Z * Z);
  notifications : list Notification
}.

Definition initial (srvs : list DiscordServers) (timeout : option Z) : BotState :=
  {| servers := srvs;
     notification_timeout_setting := timeout;
     trackings := [];
     pending_checks := [];
     notifications := [] |}.

(** First half of [schedule_notification_check]: read the timeout and go to
    sleep. *)
Definition schedule_notification_check (st : BotState) (now tracking_id : Z)
  : BotState :=
  let timeout :=
    match notification_timeout_setting st with
    | Some v => v
    | None => 600
    end in
  {| servers := servers st;
     notification_timeout_setting := notification_timeout_setting st;
     trackings := trackings st;
     pending_checks := pending_checks st ++ [(tracking_id, now + seconds timeout)];
     notifications := notifications st |}.

Definition create_response_tracking (st : BotState) (now : Z)
    (message : Message) (server : DiscordServers) : BotState :=
  match find (fun t => mention_message_id t =? msg_id message) (trackings st) with
  | Some _ => st
  | None =>
      let tracking :=
        {| rt_id := next_id (trackings st);
           server_id := srv_id server;
           curator_id := None;
           mention_message_id := msg_id message;
           mention_timestamp := msg_created_at message;
           mention_content := take_chars 1000 (msg_content message);
           mention_author_id := Some (msg_author_id message);
           mention_author_name := msg_author_display_name message;
           response_message_id := None;
           response_timestamp := None;
           response_type := None;
           response_time_seconds := None;
           is_resolved := false |} in
      schedule_notification_check
        {| servers := servers st;
           notification_timeout_setting := notification_timeout_setting st;
           trackings := trackings st ++ [tracking];
           pending_checks := pending_checks st;
           notifications := notifications st |}
        now (rt_id tracking)
  end.

(** The filter of the query in [update_response_tracking]: recent,
    unresolved, and joined to the server row of the guild of the message. *)
Definition open_in_guild (srvs : list DiscordServers) (time_threshold guild : Z)
    (t : ResponseTracking) : bool :=
  (time_threshold <=? mention_timestamp t) &&
  negb (is_resolved t) &&
  existsb (fun s => (srv_id s =? server_id t) && (srv_server_id s =? guild)) srvs.

(** [update_response_tracking].  The first statement after a row is found
    subtracts the naive [mention_timestamp] of the row from the aware
    [created_at] of the message; on [TypeError] the [except] branch rolls
    back and the state is as before. *)
Definition update_response_tracking (st : BotState) (now : Z)
    (response_message : Message) (curator : Curators) (response_type : string)
  : BotState :=
  let time_threshold := now - timedelta_hours 2 in
  let wanted :=
    open_in_guild (servers st) time_threshold (msg_guild_id response_message) in
  match find wanted (trackings st) with
  | None => st
  | Some tracking =>
      match datetime_sub (created_at response_message)
              (naive (mention_timestamp tracking)) with
      | None => st
      | Some response_time =>
          {| servers := servers st;
             notification_timeout_setting := notification_timeout_setting st;
             trackings :=
               update_first wanted
                 (fun _ =>
                    record_response tracking curator response_message
                      response_type true response_time)
                 (trackings st);
             pending_checks := pending_checks st;
             notifications := notifications st |}
      end
  end.

(** [send_notification]; [channel_found] tells whether [bot.get_channel]
    returned the notification channel.  The waiting time is [utcnow()]
    minus the stored mention time, both naive; its whole minutes are
    [int(total_seconds() / 60)], the truncated quotient in the range where
    [total_seconds()] is exact.  The message is sent. *)
Definition send_notification (st : BotState) (now : Z)
    (tracking : ResponseTracking) (channel_found : bool) : BotState :=
  if negb channel_found then st
  else
    match find (fun s => srv_id s =? server_id tracking) (servers st) with
    | None => st
    | Some server =>
        match datetime_sub (naive now) (naive (mention_timestamp tracking)) with
        | None => st
        | Some waited =>
            let minutes_passed := Z.quot waited (60 * usec_per_second) in
            let role_mention :=
              match srv_role_tag_id server with
              | Some role => if String.eqb role "" then "@here"
                             else "<@&" ++ role ++ ">"
              | None => "@here"
              end%string in
            {| servers := servers st;
               notification_timeout_setting := notification_timeout_setting st;
               trackings := trackings st;
               pending_checks := pending_checks st;
               notifications :=
                 notifications st ++
                 [ {| ntf_tracking_id := rt_id tracking;
                      ntf_server_name := srv_name server;
                      ntf_minutes_passed := minutes_passed;
                      ntf_message :=
                        if String.eqb (mention_content tracking) ""
                        then "Не указано"
                        else take_chars 1000 (mention_content tracking);
                      ntf_author := mention_author_name tracking;
                      ntf_role_mention := role_mention |} ] |}
        end
    end.

(** Second half of [schedule_notification_check], after the sleep: look the
    row up again and notify if it is still unresolved. *)
Definition notification_check (st : BotState) (now tracking_id : Z)
    (channel_found : bool) : BotState :=
  match find (fun t => rt_id t =? tracking_id) (trackings st) with
  | Some tracking =>
      if negb (is_resolved tracking)
      then send_notification st now tracking channel_found
      else st
  | None => st
  end.

(** The first task of [tracking_id] whose sleep has ended at [now]. *)
Definition is_due (now tracking_id : Z) (task : Z * Z) : bool :=
  (fst task =? tracking_id) && (snd task <=? now).

Fixpoint remove_first {A : Type} (p : A -> bool) (l : list A) : list A :=
  match l with
  | [] => []
  | x :: r => if p x then r else x :: remove_first p r
  end.

(** A sleeping task of [tracking_id] wakes up at [now] and finishes; nothing
    happens when no such task is due. *)
Definition wake (st : BotState) (now tracking_id : Z) (channel_found : bool)
  : BotState :=
  if existsb (is_due now tracking_id) (pending_checks st)
  then
    notification_check
      {| servers := servers st;
         notification_timeout_setting := notification_timeout_setting st;
         trackings := trackings st;
         pending_checks := remove_first (is_due now tracking_id) (pending_checks st);
         notifications := notifications st |}
      now tracking_id channel_found
  else st.

(** The events that drive the tracker: a classified help request, an action
    of a recognised curator, and the end of a sleep. *)
Inductive Event :=
| HelpRequest (now : Z) (message : Message) (server : DiscordServers)
| CuratorAction (now : Z) (response_message : Message) (curator : Curators)
    (response_type : string)
| TimerWake (now : Z) (tracking_id : Z) (channel_found : bool).

Definition step (st : BotState) (e : Event) : BotState :=
  match e with
  | HelpRequest now message server =>
      create_response_tracking st now message server
  | CuratorAction now response_message curator response_type =>
      update_response_tracking st now response_message curator response_type
  | TimerWake now tracking_id channel_found =>
      wake st now tracking_id channel_found
  end.

Definition run (st : BotState) (events : list Event) : BotState :=
  fold_left step events st.

End Bot.

(** ** Legacy bot: discord_bot_old.py and utils.py *)

Module Legacy.

(** [track_mention_request], on the tracking table: the row is inserted
    without looking for an existing one.  The columns it does not assign
    take their defaults. *)
Definition track_mention_request (trackings : list ResponseTracking)
    (message : Message) (server : DiscordServers) : list ResponseTracking :=
  trackings ++
  [ {| rt_id := next_id trackings;
       server_id := srv_id server;
       curator_id := None;
       mention_message_id := msg_id message;
       mention_timestamp := msg_created_at message;
       mention_content := "";
       mention_author_id := None;
       mention_author_name := "";
       response_message_id := None;
       response_timestamp := None;
       response_type := None;
       response_time_seconds := None;
       is_resolved := false |} ].

(** The filter of the query in [process_curator_response]. *)
Definition pending_reply_target (server : DiscordServers) (reference_id : Z)
    (t : ResponseTracking) : bool :=
  (server_id t =? srv_id server) &&
  (mention_message_id t =? reference_id) &&
  is_none (response_timestamp t).

(** [process_curator_response], on the tracking table.  As in the live
    bot, the response time is the aware [created_at] of the message minus
    the naive [mention_timestamp] of the row found; on [TypeError] the
    [except] branch rolls back. *)
Definition process_curator_response (trackings : list ResponseTracking)
    (message : Message) (curator : Curators) (server : DiscordServers)
  : list ResponseTracking :=
  match msg_reference message with
  | Some reference_id =>
      if reference_id =? 0 then trackings
      else
        match find (pending_reply_target server reference_id) trackings with
        | None => trackings
        | Some tracking =>
            match datetime_sub (created_at message)
                    (naive (mention_timestamp tracking)) with
            | None => trackings
            | Some response_time =>
                update_first (pending_reply_target server reference_id)
                  (fun _ =>
                     record_response tracking curator message "reply"
                       (is_resolved tracking) response_time)
                  trackings
            end
        end
  | None => trackings
  end.

End Legacy.

(** ** Scenarios

    Concrete tables, messages and event sequences used to evaluate the
    code. *)

Module Scenario.

Definition lspd : DiscordServers :=
  mkDiscordServers 1 5000 "LSPD" (Some "1329212725921976322") true.

Definition alice : Curators := mkCurators 1 42 "Alice" true.
Definition bob : Curators := mkCurators 2 43 "Bob" true.

(** A help request posted by a citizen at second 1000. *)
Definition help_msg : Message :=
  mkMessage 100 5000 77 900 "citizen" "need help" (seconds 1000) None.

(** A help request posted by the curator Alice herself. *)
Definition alice_help_msg : Message :=
  mkMessage 101 5000 77 42 "Alice" "question" (seconds 1000) None.

(** Later messages of Alice in the same guild: a plain one, a reply to some
    other message (id 999) and one posted after the notification. *)
Definition alice_msg : Message :=
  mkMessage 110 5000 77 42 "Alice" "on my way" (seconds 1030) None.
Definition alice_reply_elsewhere : Message :=
  mkMessage 111 5000 78 42 "Alice" "done" (seconds 1030) (Some 999).
Definition alice_late_msg : Message :=
  mkMessage 112 5000 77 42 "Alice" "sorry" (seconds 1700) None.

(** An older message (second 900) on which Alice puts a reaction at second
    1010: [on_reaction_add] passes the message reacted to. *)
Definition old_msg : Message :=
  mkMessage 90 5000 77 901 "someone" "hello" (seconds 900) None.

Definition start : Bot.BotState := Bot.initial [lspd] None.

Definition late_response_events : list Bot.Event :=
  [ Bot.HelpRequest (seconds 1000) help_msg lspd;
    Bot.TimerWake (seconds 1600) 1 true;
    Bot.CuratorAction (seconds 1700) alice_late_msg alice "message" ].

Definition reaction_on_old_message_events : list Bot.Event :=
  [ Bot.HelpRequest (seconds 1000) help_msg lspd;
    Bot.CuratorAction (seconds 1010) old_msg alice "reaction" ].

Definition self_response_events : list Bot.Event :=
  [ Bot.HelpRequest (seconds 1000) alice_help_msg lspd;
    Bot.CuratorAction (seconds 1030) alice_msg alice "message" ].

Definition reply_elsewhere_events : list Bot.Event :=
  [ Bot.HelpRequest (seconds 1000) help_msg lspd;
    Bot.CuratorAction (seconds 1030) alice_reply_elsewhere alice "message" ].

(** A resolved row with the given latency, answered by curator 1 at second
    2000. *)
Definition answered (latency : option Z) : ResponseTracking :=
  {| rt_id := 1; server_id := 1; curator_id := Some 1;
     mention_message_id := 100; mention_timestamp := seconds 1000;
     mention_content := "need help"; mention_author_id := Some 900;
     mention_author_name := "citizen";
     response_message_id := Some 110;
     response_timestamp := Some (seconds 2000);
     response_type := Some "message";
     response_time_seconds := latency;
     is_resolved := true |}.

(** The row that tracks [help_msg] while nobody has answered. *)
Definition open_row : ResponseTracking :=
  {| rt_id := 1; server_id := 1; curator_id := None;
     mention_message_id := 100; mention_timestamp := seconds 1000;
     mention_content := "need help"; mention_author_id := Some 900;
     mention_author_name := "citizen"; response_message_id := None;
     response_timestamp := None; response_type := None;
     response_time_seconds := None; is_resolved := false |}.


(** A state whose table holds one resolved row, answered after 45
    seconds. *)
Definition answered_state : Bot.BotState :=
  {| Bot.servers := [lspd];
     Bot.notification_timeout_setting := None;
     Bot.trackings := [answered (Some 45)];
     Bot.pending_checks := [];
     Bot.notifications := [] |}.

(** The check of the request wakes up while the notification channel is
    not found; it is woken again, and a curator writes afterwards. *)
Definition missing_channel_events : list Bot.Event :=
  [ Bot.HelpRequest (seconds 1000) help_msg lspd;
    Bot.TimerWake (seconds 1600) 1 false;
    Bot.TimerWake (seconds 1650) 1 true;
    Bot.CuratorAction (seconds 1700) alice_late_msg alice "message" ].

(** A server that the legacy bot monitors, and a help request posted
    there. *)
Definition legacy_lspd : DiscordServers :=
  mkDiscordServers 3 1315050639406825595 "LSPD" None true.

Definition legacy_help_msg : Message :=
  mkMessage 100 1315050639406825595 77 900 "citizen" "need help" (seconds 1000)
    None.

(** The row that the legacy [track_mention_request] opens for [help_msg]
    on the server [lspd]. *)
Definition legacy_row : ResponseTracking :=
  {| rt_id := 1; server_id := 1; curator_id := None;
     mention_message_id := 100; mention_timestamp := seconds 1000;
     mention_content := ""; mention_author_id := None;
     mention_author_name := ""; response_message_id := None;
     response_timestamp := None; response_type := None;
     response_time_seconds := None; is_resolved := false |}.

(** A configuration whose good threshold is negative; the settings form
    stores the numbers it is given. *)
Definition negative_good_config : GlobalRatingConfig :=
  {| activity_points_message := 3;
     activity_points_reaction := 1;
     activity_points_reply := 2;
     activity_points_task_verification := 5;
     response_time_good_seconds := -1;
     response_time_poor_seconds := 300 |}.

End Scenario.

(** The adjustment for one response as the specification words it: [+2] up
    to the good threshold, [-1] from the poor threshold on, [0] between. *)
Definition spec_response_adjustment (config : GlobalRatingConfig) (latency : Z)
  : Z :=
  if latency <=? response_time_good_seconds config then 2
  else if latency <? response_time_poor_seconds config then 0
  else -1.

(** The latency the bonus loop works with, and its fast and slow classes. *)
Definition latency (r : ResponseTracking) : Z := or_zero (response_time_seconds r).

Definition is_fast (config : GlobalRatingConfig) (r : ResponseTracking) : bool :=
  latency r <=? response_time_good_seconds config.

Definition is_slow (config : GlobalRatingConfig) (r : ResponseTracking) : bool :=
  (response_time_good_seconds config <? latency r) &&
  (response_time_poor_seconds config <? latency r).

Definition count_where {A : Type} (p : A -> bool) (l : list A) : Z :=
  Z.of_nat (List.length (filter p l)).

(** The tracking ids for which a check is sleeping or a notification has
    been sent. *)
Definition checked_ids (st : Bot.BotState) : list Z :=
  map fst (Bot.pending_checks st) ++ map Bot.ntf_tracking_id (Bot.notifications st).

(** Every tracking id has at most one check, sleeping or finished with a
    notification, and only ids already given out have one. *)
Definition one_check_per_record (st : Bot.BotState) : Prop :=
  NoDup (checked_ids st) /\
  Forall (fun i => i < next_id (Bot.trackings st)) (checked_ids st).

(** The points that a dictionary of activity counts stands for. *)
Definition counted_points (config : GlobalRatingConfig)
    (c : RatingSystem.ActivityCounts) : Z :=
  activity_points_message config * RatingSystem.count_message c
  + activity_points_reaction config * RatingSystem.count_reaction c
  + activity_points_reply config * RatingSystem.count_reply c
  + activity_points_task_verification config * RatingSystem.count_task_verification c.

(** The total score of a curator row, as the leaderboard computes it. *)
Definition snapshot_score (config : GlobalRatingConfig)
    (activities : list Activities) (trackings : list ResponseTracking)
    (now days : Z) (c : Curators) : Z :=
  RatingSystem.total_score
    (RatingSystem.calculate_curator_score config activities trackings now
       (cur_id c) days).

(** Descending order of an integer key. *)
Definition desc_by {A : Type} (key : A -> Z) (a b : A) : Prop := key b <= key a.

(** The same message with another reply reference. *)
Definition with_reference (m : Message) (reference : option Z) : Message :=
  {| msg_id := msg_id m;
     msg_guild_id := msg_guild_id m;
     msg_channel_id := msg_channel_id m;
     msg_author_id := msg_author_id m;
     msg_author_display_name := msg_author_display_name m;
     msg_content := msg_content m;
     msg_created_at := msg_created_at m;
     msg_reference := reference |}.

(** The points that the loop of [calculate_curator_score] adds for one
    activity of the given type; the types it does not know add nothing. *)
Definition type_points (config : GlobalRatingConfig) (ty : string) : Z :=
  if String.eqb ty "message" then activity_points_message config
  else if String.eqb ty "reaction" then activity_points_reaction config
  else if String.eqb ty "reply" then activity_points_reply config
  else if String.eqb ty "task_verification"
       then activity_points_task_verification config
  else 0.

(** An instant of the period of [days] days that ends at [now], for a
    period whose start [datetime] can represent. *)
Definition in_period (now days ts : Z) : Prop :=
  match period_start now days with
  | Some start_date => start_date <= ts <= now
  | None => False
  end.

(** The stored latencies of a list of rows. *)
Definition stored_latencies (rs : list ResponseTracking) : list Z :=
  flat_map (fun r => match response_time_seconds r with
                     | Some t => [t]
                     | None => []
                     end) rs.

(** The part of a tracking row that is written when the row is created. *)
Definition mention_part (t : ResponseTracking)
  : Z * Z * Z * Z * string * option Z * string :=
  (rt_id t, server_id t, mention_message_id t, mention_timestamp t,
   mention_content t, mention_author_id t, mention_author_name t).

(** A row is either open with no response column set, or resolved with all
    of them set and a latency that is the truncated difference of its two
    timestamps. *)
Definition response_consistent (t : ResponseTracking) : Prop :=
  if is_resolved t
  then exists curator message ts rtype,
         curator_id t = Some curator /\
         response_message_id t = Some message /\
         response_timestamp t = Some ts /\
         response_type t = Some rtype /\
         response_time_seconds t =
           Some (int_total_seconds (ts - mention_timestamp t))
  else curator_id t = None /\
       response_message_id t = None /\
       response_timestamp t = None /\
       response_type t = None /\
       response_time_seconds t = None.

(** ** Text helpers

    A Python [str] is kept as the string of its UTF-8 bytes; [needle in hay]
    on code points and on UTF-8 bytes agree. *)

(** [needle in hay] *)
Fixpoint is_substring (needle hay : string) : bool :=
  if String.prefix needle hay then true
  else match hay with
       | EmptyString => false
       | String _ rest => is_substring needle rest
       end.

(** ** utils.py: keywords and default settings *)

Module Utils.

(** The keyword list of [detect_mention_keywords]. *)
Definition keywords : list string :=
  [ "куратор"; "curator"; "помощь"; "help"; "вопрос"; "question";
    "админ"; "admin"; "поддержка"; "support"; "модератор"; "moderator" ].

(** [detect_mention_keywords]; [lower] is Python's [str.lower]. *)
Definition detect_mention_keywords (lower : string -> string) (content : string)
  : bool :=
  if String.eqb content "" then false
  else
    let content_lower := lower content in
    existsb (fun keyword => is_substring keyword content_lower) keywords.

(** The rating rows that [initialize_default_settings] inserts into an empty
    table. *)
Definition default_ratings : list RatingSettings :=
  [ mkRatingSettings "excellent" "Великолепно" 50 "green";
    mkRatingSettings "good" "Хорошо" 35 "blue";
    mkRatingSettings "normal" "Нормально" 20 "yellow";
    mkRatingSettings "poor" "Плохо" 10 "orange";
    mkRatingSettings "terrible" "Ужасно" 0 "red" ].

Definition default_config : GlobalRatingConfig :=
  {| activity_points_message := 3;
     activity_points_reaction := 1;
     activity_points_reply := 2;
     activity_points_task_verification := 5;
     response_time_good_seconds := 60;
     response_time_poor_seconds := 300 |}.

(** [initialize_default_settings], on the rating and configuration
    tables. *)
Definition initialize_default_settings
    (tables : list RatingSettings * list GlobalRatingConfig)
  : list RatingSettings * list GlobalRatingConfig :=
  let (ratings, configs) := tables in
  let existing_ratings := List.length ratings in
  let ratings' :=
    if Nat.eqb existing_ratings 0 then ratings ++ default_ratings else ratings in
  let configs' :=
    match configs with
    | [] => configs ++ [default_config]
    | _ :: _ => configs
    end in
  (ratings', configs').

End Utils.

(** ** discord_bot_old.py: reactions as responses *)

Module LegacyBot.

(** [process_reaction_response], on the tracking table.  [now] and [now']
    are the values of the two calls of [datetime.now()], the first for the
    latency and the second for the response timestamp; both are naive, as
    is the [mention_timestamp] of the row, so the subtraction succeeds. *)
Definition process_reaction_response (trackings : list ResponseTracking)
    (reacted : Message) (curator : Curators) (server : DiscordServers)
    (now now' : Z) : list ResponseTracking :=
  let pending := Legacy.pending_reply_target server (msg_id reacted) in
  match find pending trackings with
  | None => trackings
  | Some tracking =>
      match datetime_sub (naive now) (naive (mention_timestamp tracking)) with
      | None => trackings
      | Some response_time =>
          update_first pending
            (fun _ =>
               {| rt_id := rt_id tracking;
                  server_id := server_id tracking;
                  curator_id := Some (cur_id curator);
                  mention_message_id := mention_message_id tracking;
                  mention_timestamp := mention_timestamp tracking;
                  mention_content := mention_content tracking;
                  mention_author_id := mention_author_id tracking;
                  mention_author_name := mention_author_name tracking;
                  response_message_id := Some (msg_id reacted);
                  response_timestamp := Some now';
                  response_type := Some "reaction";
                  response_time_seconds := Some (int_total_seconds response_time);
                  is_resolved := is_resolved tracking |})
            trackings
      end
  end.

End LegacyBot.

(** ** scheduler.py: unanswered mentions *)

Module Scheduler.

Definition timedelta_minutes (m : Z) : Z := m * 60 * usec_per_second.

(** The rows selected by [check_unanswered_mentions], whose number it
    logs. *)
Definition check_unanswered_mentions (trackings : list ResponseTracking)
    (now : Z) : list ResponseTracking :=
  let cutoff_time := now - timedelta_minutes 10 in
  filter (fun t => (mention_timestamp t <? cutoff_time) &&
                   is_none (response_timestamp t)) trackings.

End Scheduler.

(** The name, label and minimum of a band, without its colour. *)
Definition band_key (b : RatingSettings) : string * string * Z :=
  (rating_name b, rating_text b, min_score b).

From Stdlib Require DecimalString.

(** [str(n)] for a Python integer. *)
Definition str_of_Z (n : Z) : string :=
  DecimalString.NilZero.string_of_int (Z.to_int n).

(** ** discord_bot.py: event handlers

    The handlers work on the tables of the bot together with the curator,
    activity and task-report tables.  Three library functions are taken as
    they are: [lower] is [str.lower]; [search_task_count s] is the integer
    value of the first group of [re.search(r'(\d+)\s*задач', s)] and
    [search_number s] that of [re.search(r'(\d+)', s)], [None] when there
    is no match.  A handler runs at one instant [now], and its messages
    belong to a guild. *)

Module Handlers.

(** The columns of a task report that the handlers read and write. *)
Record TaskReports := mkTaskReports {
  tr_server_id : Z;
  tr_message_id : Z;
  tr_channel_id : Z;
  tr_content : string;
  tr_task_count : Z;
  tr_submitted_at : Z;
  tr_status : string;
  tr_week_start : Z;
  tr_curator_id : option Z;
  tr_curator_discord_id : option Z;
  tr_curator_name : option string;
  tr_checked_at : option Z;
  tr_approved_tasks : option Z;
  tr_verified_at : option Z;
  tr_verified_by : option string
}.

(** A message as a handler receives it: the fields of [Message] and the
    author's bot flag, the channel name and the ids of the mentioned
    roles. *)
Record Incoming := mkIncoming {
  in_message : Message;
  in_author_bot : bool;
  in_channel_name : string;
  in_role_mentions : list Z
}.

(** The tables.  [completed_tasks_channel_id] is that column of the server
    rows, a string, given by the primary key of the row. *)
Record World := mkWorld {
  bot : Bot.BotState;
  curator_rows : list Curators;
  activity_rows : list Activities;
  task_reports : list TaskReports;
  completed_tasks_channel_id : Z -> option string
}.

Definition with_bot (w : World) (b : Bot.BotState) : World :=
  {| bot := b;
     curator_rows := curator_rows w;
     activity_rows := activity_rows w;
     task_reports := task_reports w;
     completed_tasks_channel_id := completed_tasks_channel_id w |}.

Definition with_task_reports (w : World) (reports : list TaskReports) : World :=
  {| bot := bot w;
     curator_rows := curator_rows w;
     activity_rows := activity_rows w;
     task_reports := reports;
     completed_tasks_channel_id := completed_tasks_channel_id w |}.

Definition HELP_KEYWORDS : list string :=
  [ "куратор"; "curator"; "помощь"; "help";
    "вопрос"; "question"; "поддержка"; "support" ].

Definition get_curator_by_discord_id (w : World) (discord_id : Z)
  : option Curators :=
  find (fun c => (cur_discord_id c =? discord_id) && cur_is_active c)
    (curator_rows w).

Definition get_server_by_guild_id (w : World) (guild_id : Z)
  : option DiscordServers :=
  find (fun s => (srv_server_id s =? guild_id) && srv_is_active s)
    (Bot.servers (bot w)).

(** [log_activity]: the new row carries the creation time of [message]. *)
Definition log_activity (w : World) (curator : Curators) (server : DiscordServers)
    (activity_type : string) (message : Message) : World :=
  {| bot := bot w;
     curator_rows := curator_rows w;
     activity_rows :=
       activity_rows w ++
       [ {| act_curator_id := cur_id curator;
            act_server_id := srv_id server;
            act_type := activity_type;
            act_timestamp := msg_created_at message |} ];
     task_reports := task_reports w;
     completed_tasks_channel_id := completed_tasks_channel_id w |}.

Section TextLibrary.

Variable lower : string -> string.
Variable search_task_count : string -> option Z.
Variable search_number : string -> option Z.

Definition contains_help_keywords (content : string) : bool :=
  let content_lower := lower content in
  existsb (fun keyword => is_substring keyword content_lower) HELP_KEYWORDS.

Definition contains_curator_mention (w : World) (m : Incoming) : bool :=
  match get_server_by_guild_id w (msg_guild_id (in_message m)) with
  | None => false
  | Some server =>
      match srv_role_tag_id server with
      | None => false
      | Some role_tag_id =>
          if String.eqb role_tag_id "" then false
          else if existsb (fun role => String.eqb (str_of_Z role) role_tag_id)
                    (in_role_mentions m)
          then true
          else is_substring ("<@&" ++ role_tag_id ++ ">")%string
                 (msg_content (in_message m))
      end
  end.

(** [process_task_report] *)
Definition process_task_report (w : World) (now : Z) (m : Incoming)
    (server : DiscordServers) : World :=
  let message := in_message m in
  match search_task_count (lower (msg_content message)) with
  | None => w
  | Some task_count =>
      match find (fun r => tr_message_id r =? msg_id message) (task_reports w) with
      | Some _ => w
      | None =>
          with_task_reports w
            (task_reports w ++
             [ {| tr_server_id := srv_id server;
                  tr_message_id := msg_id message;
                  tr_channel_id := msg_channel_id message;
                  tr_content := msg_content message;
                  tr_task_count := task_count;
                  tr_submitted_at := msg_created_at message;
                  tr_status := "pending";
                  tr_week_start := now - now mod timedelta_days 1;
                  tr_curator_id := None;
                  tr_curator_discord_id := None;
                  tr_curator_name := None;
                  tr_checked_at := None;
                  tr_approved_tasks := None;
                  tr_verified_at := None;
                  tr_verified_by := None |} ])
      end
  end.

(** The filter of the query in [verify_task_report]. *)
Definition pending_report (server : DiscordServers) (channel time_threshold : Z)
    (r : TaskReports) : bool :=
  (tr_server_id r =? srv_id server) &&
  (tr_channel_id r =? channel) &&
  (time_threshold <=? tr_submitted_at r) &&
  String.eqb (tr_status r) "pending".

(** [verify_task_report] *)
Definition verify_task_report (w : World) (now : Z) (m : Incoming)
    (curator : Curators) (server : DiscordServers) : World :=
  let message := in_message m in
  let time_threshold := now - timedelta_hours 24 in
  let wanted := pending_report server (msg_channel_id message) time_threshold in
  match find wanted (task_reports w) with
  | None => w
  | Some report =>
      let approved_tasks :=
        match search_number (msg_content message) with
        | Some n => n
        | None => tr_task_count report
        end in
      let verified (r : TaskReports) : TaskReports :=
        {| tr_server_id := tr_server_id r;
           tr_message_id := tr_message_id r;
           tr_channel_id := tr_channel_id r;
           tr_content := tr_content r;
           tr_task_count := tr_task_count r;
           tr_submitted_at := tr_submitted_at r;
           tr_status := "verified";
           tr_week_start := tr_week_start r;
           tr_curator_id := Some (cur_id curator);
           tr_curator_discord_id := Some (msg_author_id message);
           tr_curator_name := Some (cur_name curator);
           tr_checked_at := Some (msg_created_at message);
           tr_approved_tasks := Some approved_tasks;
           tr_verified_at := Some (msg_created_at message);
           tr_verified_by := Some (cur_name curator) |} in
      log_activity
        (with_task_reports w (update_first wanted verified (task_reports w)))
        curator server "task_verification" message
  end.

(** [on_message].  In the curator branch the channel id, an integer, is
    compared with the stored string and is never equal to it; the other
    branch compares [str(message.channel.id)]. *)
Definition on_message (w : World) (now : Z) (m : Incoming) : World :=
  let message := in_message m in
  if in_author_bot m then w
  else
    match get_server_by_guild_id w (msg_guild_id message) with
    | None => w
    | Some server =>
        let curator := get_curator_by_discord_id w (msg_author_id message) in
        let in_tasks_channel_by_name :=
          is_substring "completed-tasks" (lower (in_channel_name m)) in
        let w1 :=
          match curator with
          | Some c =>
              let w_logged := log_activity w c server "message" message in
              let w_verified :=
                if in_tasks_channel_by_name || false
                then verify_task_report w_logged now m c server
                else w_logged in
              with_bot w_verified
                (Bot.update_response_tracking (bot w_verified) now message c
                   "message")
          | None => w
          end in
        let is_help_request :=
          contains_help_keywords (msg_content message)
          || contains_curator_mention w1 m in
        let w2 :=
          if is_help_request
          then with_bot w1 (Bot.create_response_tracking (bot w1) now message server)
          else w1 in
        if is_none curator &&
           (in_tasks_channel_by_name ||
            match completed_tasks_channel_id w2 (srv_id server) with
            | Some channel => String.eqb (str_of_Z (msg_channel_id message)) channel
            | None => false
            end)
        then process_task_report w2 now m server
        else w2
    end.

End TextLibrary.

(** [on_reaction_add]: [m] is the message reacted to. *)
Definition on_reaction_add (w : World) (now : Z) (m : Incoming)
    (user_id : Z) (user_bot : bool) : World :=
  let message := in_message m in
  if user_bot then w
  else
    match get_server_by_guild_id w (msg_guild_id message) with
    | None => w
    | Some server =>
        match get_curator_by_discord_id w user_id with
        | None => w
        | Some curator =>
            let w_logged := log_activity w curator server "reaction" message in
            with_bot w_logged
              (Bot.update_response_tracking (bot w_logged) now message curator
                 "reaction")
        end
    end.

(** What the bot receives: a message, a reaction, the end of a sleep. *)
Inductive Input :=
| MessageIn (now : Z) (m : Incoming)
| ReactionIn (now : Z) (m : Incoming) (user_id : Z) (user_bot : bool)
| SleepEnds (now : Z) (tracking_id : Z) (channel_found : bool).

Definition handle (lower : string -> string)
    (search_task_count search_number : string -> option Z)
    (w : World) (input : Input) : World :=
  match input with
  | MessageIn now m => on_message lower search_task_count search_number w now m
  | ReactionIn now m user_id user_bot => on_reaction_add w now m user_id user_bot
  | SleepEnds now tracking_id channel_found =>
      with_bot w (Bot.wake (bot w) now tracking_id channel_found)
  end.

Definition handle_all (lower : string -> string)
    (search_task_count search_number : string -> option Z)
    (w : World) (inputs : list Input) : World :=
  fold_left (handle lower search_task_count search_number) inputs w.

End Handlers.

(** Handler scenarios: a world with one server and two curators, text
    functions for plain lower-case messages without numbers, and a few
    incoming messages. *)

Module HandlerScenario.

Definition plain_lower (s : string) : string := s.
Definition no_number (s : string) : option Z := None.

Definition world : Handlers.World :=
  {| Handlers.bot := Bot.initial [Scenario.lspd] None;
     Handlers.curator_rows := [Scenario.alice; Scenario.bob];
     Handlers.activity_rows := [];
     Handlers.task_reports := [];
     Handlers.completed_tasks_channel_id := fun _ => None |}.

Definition incoming (m : Message) : Handlers.Incoming :=
  {| Handlers.in_message := m;
     Handlers.in_author_bot := false;
     Handlers.in_channel_name := "general";
     Handlers.in_role_mentions := [] |}.

(** A citizen asks for help, Alice writes in the guild, the check wakes
    up, and the citizen's message is delivered once more. *)
Definition inputs : list Handlers.Input :=
  [ Handlers.MessageIn (seconds 1000) (incoming Scenario.help_msg);
    Handlers.MessageIn (seconds 1030) (incoming Scenario.alice_msg);
    Handlers.SleepEnds (seconds 1600) 1 true;
    Handlers.MessageIn (seconds 1601) (incoming Scenario.help_msg) ].

(** A report that Alice has verified, and a world that holds it. *)
Definition verified_report : Handlers.TaskReports :=
  {| Handlers.tr_server_id := 1;
     Handlers.tr_message_id := 300;
     Handlers.tr_channel_id := 77;
     Handlers.tr_content := "5 задач";
     Handlers.tr_task_count := 5;
     Handlers.tr_submitted_at := seconds 900;
     Handlers.tr_status := "verified";
     Handlers.tr_week_start := 0;
     Handlers.tr_curator_id := Some 1;
     Handlers.tr_curator_discord_id := Some 42;
     Handlers.tr_curator_name := Some "Alice";
     Handlers.tr_checked_at := Some (seconds 950);
     Handlers.tr_approved_tasks := Some 5;
     Handlers.tr_verified_at := Some (seconds 950);
     Handlers.tr_verified_by := Some "Alice" |}.

Definition world_with_report : Handlers.World :=
  Handlers.with_task_reports world [verified_report].

(** A lower-casing of ASCII letters, enough for the English keywords. *)
Definition ascii_lower_char (c : Ascii.ascii) : Ascii.ascii :=
  let n := Ascii.nat_of_ascii c in
  if (Nat.leb 65 n && Nat.leb n 90)%bool then Ascii.ascii_of_nat (n + 32) else c.

Fixpoint ascii_lower (s : string) : string :=
  match s with
  | EmptyString => EmptyString
  | String c rest => String (ascii_lower_char c) (ascii_lower rest)
  end.

End HandlerScenario.

(** * Properties *)

(** ** Lists: stable descending sort, first-match update *)

Section SortDesc.

Context {A : Type} (key : A -> Z).

Lemma insert_desc_perm (x : A) (l : list A) :
  Permutation (x :: l) (insert_desc key x l).
Proof.
  induction l as [|y r IH]; simpl.
  - apply Permutation_refl.
  - destruct (key y <=? key x).
    + apply Permutation_refl.
    + eapply perm_trans; [apply perm_swap | apply perm_skip, IH].
Qed.

Lemma sort_desc_perm (l : list A) : Permutation l (sort_desc key l).
Proof.
  induction l as [|x r IH]; simpl.
  - constructor.
  - eapply perm_trans; [apply perm_skip, IH | apply insert_desc_perm].
Qed.

Lemma sort_desc_in (l : list A) (x : A) : In x (sort_desc key l) <-> In x l.
Proof.
  split; intro H.
  - eapply Permutation_in; [apply Permutation_sym, sort_desc_perm | exact H].
  - eapply Permutation_in; [apply sort_desc_perm | exact H].
Qed.

Lemma insert_desc_sorted (x : A) (l : list A) :
  StronglySorted (desc_by key) l ->
  StronglySorted (desc_by key) (insert_desc key x l).
Proof.
  induction 1 as [|y r Hr IH Hy]; simpl.
  - constructor; constructor.
  - destruct (key y <=? key x) eqn:E.
    + apply Z.leb_le in E.
      constructor; [constructor; assumption|].
      constructor; [exact E|].
      rewrite Forall_forall in Hy |- *.
      intros z Hz. specialize (Hy z Hz). unfold desc_by in *. lia.
    + apply Z.leb_gt in E.
      constructor; [exact IH|].
      rewrite Forall_forall in Hy |- *.
      intros z Hz.
      apply (Permutation_in z (Permutation_sym (insert_desc_perm x r))) in Hz.
      destruct Hz as [<-|Hz]; [unfold desc_by; lia | apply Hy, Hz].
Qed.

Lemma sort_desc_sorted (l : list A) : StronglySorted (desc_by key) (sort_desc key l).
Proof.
  induction l as [|x r IH]; simpl.
  - constructor.
  - apply insert_desc_sorted, IH.
Qed.

(** Stability: the elements of one key come out in their input order. *)
Lemma insert_desc_same_key (k : Z) (x : A) (l : list A) :
  filter (fun a => key a =? k) (insert_desc key x l) =
  filter (fun a => key a =? k) (x :: l).
Proof.
  induction l as [|y r IH]; [reflexivity|].
  cbn [insert_desc].
  destruct (key y <=? key x) eqn:E; [reflexivity|].
  apply Z.leb_gt in E.
  cbn [filter] in *. rewrite IH.
  destruct (key x =? k) eqn:Ex; [|reflexivity].
  apply Z.eqb_eq in Ex.
  destruct (key y =? k) eqn:Ey; [|reflexivity].
  apply Z.eqb_eq in Ey. lia.
Qed.

Lemma sort_desc_stable (k : Z) (l : list A) :
  filter (fun a => key a =? k) (sort_desc key l) = filter (fun a => key a =? k) l.
Proof.
  induction l as [|x r IH]; [reflexivity|].
  cbn [sort_desc]. rewrite insert_desc_same_key.
  cbn [filter]. rewrite IH. reflexivity.
Qed.

End SortDesc.

Section UpdateFirst.

Context {A : Type} (p : A -> bool) (f : A -> A).

Lemma update_first_found (l : list A) (x : A) :
  find p l = Some x -> In (f x) (update_first p f l).
Proof.
  induction l as [|y r IH]; simpl; [discriminate|].
  destruct (p y).
  - intros [= ->]. now left.
  - intro H. right. now apply IH.
Qed.

Lemma update_first_none (l : list A) :
  find p l = None -> update_first p f l = l.
Proof.
  induction l as [|y r IH]; simpl; [reflexivity|].
  destruct (p y); [discriminate|].
  intro H. now rewrite IH.
Qed.

Lemma update_first_in (l : list A) (y : A) :
  In y (update_first p f l) ->
  In y l \/ exists x, In x l /\ p x = true /\ y = f x.
Proof.
  induction l as [|x r IH]; simpl; [tauto|].
  destruct (p x) eqn:E.
  - intros [<-|H]; [right; exists x; auto | left; now right].
  - intros [<-|H]; [left; now left|].
    destruct (IH H) as [H1|(x0 & H1 & H2 & H3)].
    + left; now right.
    + right; exists x0; auto.
Qed.

Lemma update_first_map {B : Type} (g : A -> B) (l : list A) :
  (forall x, g (f x) = g x) -> map g (update_first p f l) = map g l.
Proof.
  intro Hg.
  induction l as [|y r IH]; simpl; [reflexivity|].
  destruct (p y); simpl; [now rewrite Hg | now rewrite IH].
Qed.

End UpdateFirst.

Lemma find_app_last {A : Type} (p : A -> bool) (l : list A) (x : A) :
  find p l = None -> p x = true -> find p (l ++ [x]) = Some x.
Proof.
  induction l as [|y r IH]; simpl.
  - intros _ ->. reflexivity.
  - destruct (p y); [discriminate | exact IH].
Qed.

Lemma int_total_seconds_nonneg (delta : Z) :
  0 <= int_total_seconds delta <-> - usec_per_second < delta.
Proof.
  unfold int_total_seconds, usec_per_second.
  pose proof (Z.quot_rem' delta 1000000) as E.
  destruct (Z_le_gt_dec 0 delta) as [Hd|Hd].
  - pose proof (Z.rem_bound_pos delta 1000000 Hd ltac:(lia)). lia.
  - pose proof (Z.rem_nonpos delta 1000000 ltac:(lia) ltac:(lia)).
    pose proof (Z.rem_bound_abs delta 1000000 ltac:(lia)). lia.
Qed.

(** ** rating_system.py: response-time bonus *)

Section BonusFacts.

Import RatingSystem.
Variable config : GlobalRatingConfig.

Lemma response_time_step_cases (b : Z) (r : ResponseTracking) :
  response_time_step config b r =
  b + (if is_fast config r then 2 else if is_slow config r then -1 else 0).
Proof.
  unfold response_time_step, is_fast, is_slow, latency.
  destruct (or_zero (response_time_seconds r) <=? response_time_good_seconds config) eqn:Eg.
  - reflexivity.
  - apply Z.leb_gt in Eg. apply Z.ltb_lt in Eg. rewrite Eg. simpl.
    destruct (or_zero (response_time_seconds r) <=? response_time_poor_seconds config) eqn:Ep.
    + apply Z.leb_le in Ep.
      destruct (response_time_poor_seconds config <? or_zero (response_time_seconds r)) eqn:Ep';
        [apply Z.ltb_lt in Ep'; lia | lia].
    + apply Z.leb_gt in Ep. apply Z.ltb_lt in Ep. rewrite Ep. lia.
Qed.

Lemma fast_not_slow (r : ResponseTracking) :
  is_fast config r = true -> is_slow config r = false.
Proof.
  unfold is_fast, is_slow. intro H. apply Z.leb_le in H.
  destruct (response_time_good_seconds config <? latency r) eqn:E; [|reflexivity].
  apply Z.ltb_lt in E. lia.
Qed.

Lemma bonus_loop_counts (rs : list ResponseTracking) (b : Z) :
  fold_left (response_time_step config) rs b =
  b + 2 * count_where (is_fast config) rs - count_where (is_slow config) rs.
Proof.
  unfold count_where.
  revert b. induction rs as [|r rs IH]; intro b; cbn [fold_left filter].
  - cbn [List.length]. lia.
  - rewrite IH, response_time_step_cases.
    destruct (is_fast config r) eqn:Ef.
    + rewrite (fast_not_slow r Ef). cbn [List.length]. lia.
    + destruct (is_slow config r); cbn [List.length]; lia.
Qed.

Lemma calculate_response_time_bonus_counts (trackings : list ResponseTracking)
    (now curator days : Z) :
  calculate_response_time_bonus config trackings now curator days =
  2 * count_where (is_fast config) (responses_in_period trackings now curator days)
  - count_where (is_slow config) (responses_in_period trackings now curator days).
Proof.
  unfold calculate_response_time_bonus.
  destruct (period_start now days) eqn:Ep.
  - destruct (responses_in_period trackings now curator days) as [|r rs] eqn:E.
    + reflexivity.
    + rewrite bonus_loop_counts. lia.
  - unfold responses_in_period. now rewrite Ep.
Qed.

End BonusFacts.

(** C6, as the code has it.  The bonus of a curator is twice the number of
    responses with latency at most the good threshold, minus the number of
    responses with latency above the poor threshold; a response with latency
    above the good threshold and at most the poor threshold, the poor
    threshold itself included, counts for nothing. *)
Theorem response_time_bonus_bands :
  forall (config : GlobalRatingConfig) (trackings : list ResponseTracking)
         (now curator days : Z),
    let good := response_time_good_seconds config in
    let poor := response_time_poor_seconds config in
    RatingSystem.calculate_response_time_bonus config trackings now curator days =
      2 * count_where (is_fast config)
            (RatingSystem.responses_in_period trackings now curator days)
      - count_where (is_slow config)
            (RatingSystem.responses_in_period trackings now curator days)
    /\ forall (r : ResponseTracking) (b : Z),
         (latency r <= good -> RatingSystem.response_time_step config b r = b + 2) /\
         (good < latency r <= poor -> RatingSystem.response_time_step config b r = b) /\
         (good < latency r -> poor < latency r ->
          RatingSystem.response_time_step config b r = b - 1).
Proof.
  intros config trackings now curator days good poor. split.
  - apply calculate_response_time_bonus_counts.
  - intros r b. rewrite response_time_step_cases.
    unfold is_fast, is_slow. fold good poor.
    repeat split; intros.
    + replace (latency r <=? good) with true by (symmetry; apply Z.leb_le; lia). lia.
    + replace (latency r <=? good) with false by (symmetry; apply Z.leb_gt; lia).
      replace (poor <? latency r) with false by (symmetry; apply Z.ltb_ge; lia).
      rewrite andb_false_r. lia.
    + replace (latency r <=? good) with false by (symmetry; apply Z.leb_gt; lia).
      replace (good <? latency r) with true by (symmetry; apply Z.ltb_lt; lia).
      replace (poor <? latency r) with true by (symmetry; apply Z.ltb_lt; lia).
      simpl. lia.
Qed.

(** With the default thresholds, responses after 45, 250, 300 and 400
    seconds give [+2], [0], [0] and [-1]. *)
Lemma response_time_bonus_bands_witness :
  RatingSystem.response_time_step RatingSystem.default_rating_config 0
    (Scenario.answered (Some 45)) = 0 + 2 /\
  RatingSystem.response_time_step RatingSystem.default_rating_config 0
    (Scenario.answered (Some 250)) = 0 /\
  RatingSystem.response_time_step RatingSystem.default_rating_config 0
    (Scenario.answered (Some 300)) = 0 /\
  RatingSystem.response_time_step RatingSystem.default_rating_config 0
    (Scenario.answered (Some 400)) = 0 - 1.
Proof.
  pose proof (response_time_bonus_bands RatingSystem.default_rating_config
                [] 0 1 30) as [_ H].
  split; [|split; [|split]].
  - apply (H (Scenario.answered (Some 45)) 0). cbv. discriminate.
  - apply (H (Scenario.answered (Some 250)) 0). cbv. split; [reflexivity | discriminate].
  - apply (H (Scenario.answered (Some 300)) 0). cbv. split; [reflexivity | discriminate].
  - apply (H (Scenario.answered (Some 400)) 0); cbv; reflexivity.
Defined.

(** C6, as the specification words it, fails at the poor threshold: a
    response after exactly 300 seconds adds 0 to the bonus, where the
    specification takes 1 off. *)
Lemma poor_threshold_is_neutral :
  RatingSystem.calculate_response_time_bonus RatingSystem.default_rating_config
    [Scenario.answered (Some 300)] (seconds 2000) 1 30 = 0 /\
  spec_response_adjustment RatingSystem.default_rating_config 300 = -1 /\
  RatingSystem.calculate_response_time_bonus RatingSystem.default_rating_config
    [Scenario.answered (Some 300)] (seconds 2000) 1 30
  <> spec_response_adjustment RatingSystem.default_rating_config
       (latency (Scenario.answered (Some 300))).
Proof.
  repeat split; try reflexivity. intro H. discriminate H.
Qed.

(** C10, as the code has it.  A row with a response timestamp in the period
    but no stored latency is not skipped: the bonus query selects it, its
    latency is taken to be 0, and it adds to the bonus of its curator what a
    latency of 0 adds: 2 when the good threshold is not negative (it is 60
    by default), otherwise 0 when the poor threshold is not negative, and
    -1 when both are negative. *)
Theorem null_latency_counts_as_zero :
  forall (config : GlobalRatingConfig) (trackings : list ResponseTracking)
         (now curator days start : Z) (r : ResponseTracking) (ts : Z),
    curator_id r = Some curator ->
    response_timestamp r = Some ts ->
    period_start now days = Some start ->
    start <= ts <= now ->
    response_time_seconds r = None ->
    In r (RatingSystem.responses_in_period (r :: trackings) now curator days) /\
    latency r = 0 /\
    (forall b,
        RatingSystem.response_time_step config b r =
        b + (if 0 <=? response_time_good_seconds config then 2
             else if 0 <=? response_time_poor_seconds config then 0
             else -1)) /\
    RatingSystem.calculate_response_time_bonus config (r :: trackings) now curator days =
      (if 0 <=? response_time_good_seconds config then 2
       else if 0 <=? response_time_poor_seconds config then 0
       else -1)
      + RatingSystem.calculate_response_time_bonus config trackings now curator days /\
    (0 <= response_time_good_seconds config ->
     RatingSystem.calculate_response_time_bonus config (r :: trackings) now curator days =
       2 + RatingSystem.calculate_response_time_bonus config trackings now curator days).
Proof.
  intros config trackings now curator days start r ts Hc Hts Hstart Hwin Hnull.
  assert (Hsel : RatingSystem.responses_in_period (r :: trackings) now curator days =
                 r :: RatingSystem.responses_in_period trackings now curator days).
  { unfold RatingSystem.responses_in_period. rewrite Hstart. cbn [filter].
    rewrite Hc, Hts. simpl opt_eqb. rewrite Z.eqb_refl.
    replace (start <=? ts) with true by (symmetry; apply Z.leb_le; lia).
    replace (ts <=? now) with true by (symmetry; apply Z.leb_le; lia).
    reflexivity. }
  assert (Hlat : latency r = 0) by (unfold latency; now rewrite Hnull).
  assert (Hstep : forall b,
             RatingSystem.response_time_step config b r =
             b + (if 0 <=? response_time_good_seconds config then 2
                  else if 0 <=? response_time_poor_seconds config then 0
                  else -1)).
  { intro b. unfold RatingSystem.response_time_step.
    fold (latency r). rewrite Hlat.
    destruct (0 <=? response_time_good_seconds config); [reflexivity|].
    destruct (0 <=? response_time_poor_seconds config); lia. }
  assert (Hbonus :
            RatingSystem.calculate_response_time_bonus config (r :: trackings)
              now curator days =
            (if 0 <=? response_time_good_seconds config then 2
             else if 0 <=? response_time_poor_seconds config then 0
             else -1)
            + RatingSystem.calculate_response_time_bonus config trackings
                now curator days).
  { rewrite !calculate_response_time_bonus_counts, Hsel.
    unfold count_where. cbn [filter].
    unfold is_fast, is_slow. rewrite Hlat.
    destruct (0 <=? response_time_good_seconds config) eqn:Eg.
    - apply Z.leb_le in Eg.
      replace (response_time_good_seconds config <? 0) with false
        by (symmetry; apply Z.ltb_ge; lia).
      cbn [andb List.length]. lia.
    - apply Z.leb_gt in Eg.
      replace (response_time_good_seconds config <? 0) with true
        by (symmetry; apply Z.ltb_lt; lia).
      cbn [andb].
      destruct (0 <=? response_time_poor_seconds config) eqn:Ep.
      + apply Z.leb_le in Ep.
        replace (response_time_poor_seconds config <? 0) with false
          by (symmetry; apply Z.ltb_ge; lia).
        lia.
      + apply Z.leb_gt in Ep.
        replace (response_time_poor_seconds config <? 0) with true
          by (symmetry; apply Z.ltb_lt; lia).
        cbn [List.length]. lia. }
  split; [rewrite Hsel; now left|].
  split; [exact Hlat|].
  split; [exact Hstep|].
  split; [exact Hbonus|].
  intro Hgood. rewrite Hbonus.
  replace (0 <=? response_time_good_seconds config) with true
    by (symmetry; apply Z.leb_le; lia).
  reflexivity.
Qed.

Lemma null_latency_counts_as_zero_witness :
  RatingSystem.calculate_response_time_bonus RatingSystem.default_rating_config
    [Scenario.answered None] (seconds 2000) 1 30 = 2 + 0.
Proof.
  apply (null_latency_counts_as_zero RatingSystem.default_rating_config []
           (seconds 2000) 1 30 (seconds 2000 - timedelta_days 30)
           (Scenario.answered None) (seconds 2000)).
  - reflexivity.
  - reflexivity.
  - reflexivity.
  - vm_compute. split; discriminate.
  - reflexivity.
  - vm_compute. discriminate.
Defined.

(** C10, as it is worded, fails when the good threshold is negative: with
    thresholds -1 and 300 the row without a stored latency is counted with
    latency 0 and adds 0 to the bonus, not 2. *)
Lemma null_latency_without_bonus :
  In (Scenario.answered None)
     (RatingSystem.responses_in_period [Scenario.answered None] (seconds 2000) 1 30) /\
  RatingSystem.calculate_response_time_bonus Scenario.negative_good_config
    [Scenario.answered None] (seconds 2000) 1 30 = 0 /\
  RatingSystem.calculate_response_time_bonus Scenario.negative_good_config
    [Scenario.answered None] (seconds 2000) 1 30 <> 2.
Proof.
  split; [now left|]. split; [reflexivity|]. intro H. discriminate H.
Qed.

(** ** rating_system.py: total score *)

Section ScoreFacts.

Import RatingSystem.
Variable config : GlobalRatingConfig.

Lemma activity_step_points (acc : Z * ActivityCounts) (a : Activities) :
  fst (activity_step config acc a)
  - counted_points config (snd (activity_step config acc a)) =
  fst acc - counted_points config (snd acc).
Proof.
  destruct acc as [score counts]. unfold activity_step, counted_points.
  repeat (destruct (String.eqb (act_type a) _);
          [cbn [fst snd count_message count_reaction count_reply
                count_task_verification]; lia|]).
  reflexivity.
Qed.

Lemma activity_loop_points (acts : list Activities) (acc : Z * ActivityCounts) :
  fst (fold_left (activity_step config) acts acc)
  - counted_points config (snd (fold_left (activity_step config) acts acc)) =
  fst acc - counted_points config (snd acc).
Proof.
  revert acc. induction acts as [|a acts IH]; intro acc; cbn [fold_left].
  - reflexivity.
  - rewrite IH. apply activity_step_points.
Qed.

(** The base score as a sum over the counted activities. *)
Lemma activity_loop_base (acts : list Activities) (acc : Z * ActivityCounts) :
  fst (fold_left (activity_step config) acts acc) =
  fst acc + fold_right (fun a s => type_points config (act_type a) + s) 0 acts.
Proof.
  revert acc. induction acts as [|a acts IH]; intro acc; cbn [fold_left fold_right].
  - lia.
  - rewrite IH. destruct acc as [score counts].
    unfold activity_step, type_points.
    repeat (destruct (String.eqb (act_type a) _); [cbn [fst]; lia|]).
    cbn [fst]. lia.
Qed.

(** The dictionary of counts holds, for each of its four keys, the number
    of counted activities of that type. *)
Lemma activity_loop_counts (acts : list Activities) (acc : Z * ActivityCounts) :
  let counts := snd (fold_left (activity_step config) acts acc) in
  count_message counts =
    count_message (snd acc)
    + count_where (fun a => String.eqb (act_type a) "message") acts /\
  count_reaction counts =
    count_reaction (snd acc)
    + count_where (fun a => String.eqb (act_type a) "reaction") acts /\
  count_reply counts =
    count_reply (snd acc)
    + count_where (fun a => String.eqb (act_type a) "reply") acts /\
  count_task_verification counts =
    count_task_verification (snd acc)
    + count_where (fun a => String.eqb (act_type a) "task_verification") acts.
Proof.
  unfold count_where.
  revert acc. induction acts as [|a acts IH]; intro acc; cbn [fold_left filter].
  - cbn [List.length]. lia.
  - destruct (IH (activity_step config acc a)) as (H1 & H2 & H3 & H4).
    cbn zeta in H1, H2, H3, H4. cbn zeta.
    rewrite H1, H2, H3, H4. clear IH H1 H2 H3 H4.
    destruct acc as [score counts]. unfold activity_step.
    destruct (String.eqb (act_type a) "message") eqn:E1.
    { apply String.eqb_eq in E1. rewrite E1.
      cbn [String.eqb Ascii.eqb Bool.eqb andb snd count_message count_reaction
           count_reply count_task_verification List.length].
      rewrite !Nat2Z.inj_succ. lia. }
    destruct (String.eqb (act_type a) "reaction") eqn:E2.
    { apply String.eqb_eq in E2. rewrite E2.
      cbn [String.eqb Ascii.eqb Bool.eqb andb snd count_message count_reaction
           count_reply count_task_verification List.length].
      rewrite !Nat2Z.inj_succ. lia. }
    destruct (String.eqb (act_type a) "reply") eqn:E3.
    { apply String.eqb_eq in E3. rewrite E3.
      cbn [String.eqb Ascii.eqb Bool.eqb andb snd count_message count_reaction
           count_reply count_task_verification List.length].
      rewrite !Nat2Z.inj_succ. lia. }
    destruct (String.eqb (act_type a) "task_verification") eqn:E4.
    { cbn [snd count_message count_reaction count_reply
           count_task_verification List.length].
      rewrite !Nat2Z.inj_succ. lia. }
    cbn [snd]. lia.
Qed.

Lemma base_score_sum (activities : list Activities)
    (trackings : list ResponseTracking) (now curator days : Z) :
  base_score (calculate_curator_score config activities trackings now curator days) =
  fold_right (fun a s => type_points config (act_type a) + s) 0
    (activities_in_period activities now curator days).
Proof.
  unfold calculate_curator_score.
  destruct (period_start now days) eqn:Ep.
  - pose proof (activity_loop_base (activities_in_period activities now curator days)
                  (0, no_activity)) as H.
    destruct (fold_left _ _ _) as [base counts].
    cbn [base_score]. cbn [fst] in H. lia.
  - unfold activities_in_period. rewrite Ep. reflexivity.
Qed.

Lemma total_score_nonneg (activities : list Activities)
    (trackings : list ResponseTracking) (now curator days : Z) :
  0 <= total_score (calculate_curator_score config activities trackings now curator days).
Proof.
  unfold calculate_curator_score.
  destruct (period_start now days); [|cbn [total_score]; lia].
  destruct (fold_left _ _ _) as [base counts]. cbn [total_score]. lia.
Qed.

End ScoreFacts.

(** C7.  The total score is the sum of the base score and the response
    bonus, floored at 0, and so never negative.  The base score and the
    response bonus are returned as they were computed, unfloored: the base
    score is the sum of the points of the activities of the curator in the
    period, which is also the points of the four returned counts, each the
    number of those activities of its type; the response bonus is the value
    of [calculate_response_time_bonus]. *)
Theorem total_score_is_floored :
  forall (config : GlobalRatingConfig) (activities : list Activities)
         (trackings : list ResponseTracking) (now curator days : Z),
    let data :=
      RatingSystem.calculate_curator_score config activities trackings now curator days in
    let counts := RatingSystem.activity_counts data in
    let counted := RatingSystem.activities_in_period activities now curator days in
    RatingSystem.total_score data =
      Z.max 0 (RatingSystem.base_score data + RatingSystem.response_bonus data) /\
    0 <= RatingSystem.total_score data /\
    RatingSystem.base_score data =
      fold_right (fun a s => type_points config (act_type a) + s) 0 counted /\
    RatingSystem.base_score data = counted_points config counts /\
    (RatingSystem.count_message counts =
       count_where (fun a => String.eqb (act_type a) "message") counted /\
     RatingSystem.count_reaction counts =
       count_where (fun a => String.eqb (act_type a) "reaction") counted /\
     RatingSystem.count_reply counts =
       count_where (fun a => String.eqb (act_type a) "reply") counted /\
     RatingSystem.count_task_verification counts =
       count_where (fun a => String.eqb (act_type a) "task_verification") counted) /\
    RatingSystem.response_bonus data =
      RatingSystem.calculate_response_time_bonus config trackings now curator days.
Proof.
  intros config activities trackings now curator days data counts counted.
  pose proof (base_score_sum config activities trackings now curator days) as Hsum.
  fold data counted in Hsum.
  unfold counts, data, counted in *. clear data counts counted.
  unfold RatingSystem.calculate_curator_score in *.
  destruct (period_start now days) eqn:Ep.
  - pose proof (activity_loop_points config
                  (RatingSystem.activities_in_period activities now curator days)
                  (0, RatingSystem.no_activity)) as Hpts.
    pose proof (activity_loop_counts config
                  (RatingSystem.activities_in_period activities now curator days)
                  (0, RatingSystem.no_activity)) as Hcnt.
    cbn zeta in Hcnt.
    destruct (fold_left (RatingSystem.activity_step config)
                (RatingSystem.activities_in_period activities now curator days)
                (0, RatingSystem.no_activity)) as [base counts].
    replace (counted_points config (snd (0, RatingSystem.no_activity))) with 0 in Hpts
      by (unfold counted_points; cbn; lia).
    cbn [fst snd RatingSystem.no_activity RatingSystem.count_message
         RatingSystem.count_reaction RatingSystem.count_reply
         RatingSystem.count_task_verification] in Hpts, Hcnt.
    cbn [RatingSystem.total_score RatingSystem.base_score
         RatingSystem.response_bonus RatingSystem.activity_counts] in *.
    split; [reflexivity|]. split; [lia|]. split; [exact Hsum|].
    split; [lia|]. split; [|reflexivity].
    destruct Hcnt as (H1 & H2 & H3 & H4).
    split; [|split; [|split]]; lia.
  - cbn [RatingSystem.total_score RatingSystem.base_score
         RatingSystem.response_bonus RatingSystem.activity_counts] in *.
    unfold RatingSystem.calculate_response_time_bonus,
           RatingSystem.activities_in_period. rewrite Ep.
    split; [reflexivity|]. split; [lia|]. split; [reflexivity|].
    split; [unfold counted_points; cbn; lia|]. split; [|reflexivity].
    split; [|split; [|split]]; reflexivity.
Qed.

(** For a period whose start is before year 1 the [except] branch gives
    the all-zero score, whatever the tables hold. *)
Example score_of_unrepresentable_period :
  RatingSystem.calculate_curator_score RatingSystem.default_rating_config
    [mkActivities 1 1 "message" (seconds 1500)] [Scenario.answered (Some 45)]
    (seconds 2000) 1 800000
  = {| RatingSystem.total_score := 0;
       RatingSystem.base_score := 0;
       RatingSystem.response_bonus := 0;
       RatingSystem.activity_counts := RatingSystem.no_activity;
       RatingSystem.period_days := 800000 |}.
Proof. reflexivity. Qed.

(** Ten messages and two reactions with no tracked response give a base
    score of 32; one slow response alone gives a bonus of -1 and a total
    of 0. *)
Example score_of_activity_only :
  let acts :=
    repeat (mkActivities 1 1 "message" (seconds 1500)) 10
    ++ repeat (mkActivities 1 1 "reaction" (seconds 1500)) 2 in
  let data :=
    RatingSystem.calculate_curator_score RatingSystem.default_rating_config
      acts [] (seconds 2000) 1 30 in
  RatingSystem.base_score data = 32 /\ RatingSystem.total_score data = 32.
Proof. split; reflexivity. Qed.

Example score_floor_keeps_bonus :
  let data :=
    RatingSystem.calculate_curator_score RatingSystem.default_rating_config
      [] [Scenario.answered (Some 400)] (seconds 2000) 1 30 in
  RatingSystem.base_score data = 0 /\
  RatingSystem.response_bonus data = -1 /\
  RatingSystem.total_score data = 0.
Proof. repeat split. Qed.

(** ** rating_system.py: rating bands *)

Section BandFacts.

Import RatingSystem.

Lemma py_last_cons {A : Type} (x : A) (l : list A) :
  py_last (x :: l) = match l with [] => Some x | _ => py_last l end.
Proof.
  unfold py_last. simpl.
  destruct l as [|y l']; [reflexivity|].
  simpl. destruct (rev l' ++ [y]) as [|z t] eqn:E.
  - destruct (rev l'); discriminate.
  - reflexivity.
Qed.

Lemma py_last_in {A : Type} (l : list A) (x : A) : py_last l = Some x -> In x l.
Proof.
  unfold py_last. intro H. apply in_rev.
  destruct (rev l); [discriminate|]. injection H as ->. now left.
Qed.

Lemma py_last_some {A : Type} (l : list A) : l <> [] -> exists x, py_last l = Some x.
Proof.
  intro H. unfold py_last.
  destruct (rev l) as [|x t] eqn:E.
  - exfalso. apply H. rewrite <- (rev_involutive l), E. reflexivity.
  - now exists x.
Qed.

Lemma select_rating_in (thresholds : list RatingSettings) (score : Z) (b : RatingSettings) :
  select_rating thresholds score = Some b -> In b thresholds.
Proof.
  unfold select_rating.
  destruct (find _ thresholds) as [r|] eqn:E.
  - intros [= <-]. now apply find_some in E.
  - apply py_last_in.
Qed.

Lemma select_rating_some (thresholds : list RatingSettings) (score : Z) :
  thresholds <> [] -> exists b, select_rating thresholds score = Some b.
Proof.
  intro H. unfold select_rating.
  destruct (find _ thresholds) as [r|]; [now exists r | now apply py_last_some].
Qed.

Lemma select_rating_cons (x : RatingSettings) (r : list RatingSettings) (score : Z) :
  select_rating (x :: r) score =
  if min_score x <=? score then Some x
  else match r with
       | [] => Some x
       | _ => select_rating r score
       end.
Proof.
  unfold select_rating. cbn [find].
  destruct (min_score x <=? score); [reflexivity|].
  rewrite py_last_cons.
  destruct r as [|y r']; [reflexivity|].
  reflexivity.
Qed.

(** On thresholds in descending order the band search is monotone. *)
Lemma select_rating_monotone (thresholds : list RatingSettings) :
  StronglySorted (desc_by min_score) thresholds ->
  forall s1 s2 b1 b2,
    s1 <= s2 ->
    select_rating thresholds s1 = Some b1 ->
    select_rating thresholds s2 = Some b2 ->
    min_score b1 <= min_score b2.
Proof.
  induction 1 as [|x r Hr IH Hx]; intros s1 s2 b1 b2 Hs H1 H2.
  - discriminate H1.
  - rewrite Forall_forall in Hx.
    rewrite select_rating_cons in H1, H2.
    destruct (min_score x <=? s2) eqn:E2.
    + injection H2 as <-.
      destruct (min_score x <=? s1); [injection H1 as <-; lia|].
      destruct r as [|y r']; [injection H1 as <-; lia|].
      apply select_rating_in in H1. apply (Hx b1 H1).
    + apply Z.leb_gt in E2.
      replace (min_score x <=? s1) with false in H1
        by (symmetry; apply Z.leb_gt; lia).
      destruct r as [|y r'].
      * injection H1 as <-. injection H2 as <-. lia.
      * eapply IH; eassumption.
Qed.

Lemma load_rating_thresholds_sorted (rows : list RatingSettings) :
  StronglySorted (desc_by min_score) (_load_rating_thresholds rows).
Proof.
  unfold _load_rating_thresholds, query_thresholds.
  pose proof (sort_desc_sorted min_score rows) as H.
  destruct (sort_desc min_score rows); [apply sort_desc_sorted | exact H].
Qed.

Lemma load_rating_thresholds_nonempty (rows : list RatingSettings) :
  _load_rating_thresholds rows <> [].
Proof.
  unfold _load_rating_thresholds, query_thresholds.
  destruct (sort_desc min_score rows); discriminate.
Qed.

End BandFacts.

(** C8.  On the thresholds loaded by the rating system, every score
    resolves to a band, and a larger score never resolves to a band with a
    smaller minimum score. *)
Theorem rating_band_monotone :
  forall (rows : list RatingSettings) (s1 s2 : Z),
    s1 < s2 ->
    exists b1 b2,
      RatingSystem.select_rating (RatingSystem._load_rating_thresholds rows) s1 = Some b1 /\
      RatingSystem.select_rating (RatingSystem._load_rating_thresholds rows) s2 = Some b2 /\
      min_score b2 >= min_score b1.
Proof.
  intros rows s1 s2 Hlt.
  destruct (select_rating_some _ s1 (load_rating_thresholds_nonempty rows)) as [b1 H1].
  destruct (select_rating_some _ s2 (load_rating_thresholds_nonempty rows)) as [b2 H2].
  exists b1, b2. repeat split; try assumption.
  apply Z.le_ge.
  apply (select_rating_monotone _ (load_rating_thresholds_sorted rows) s1 s2);
    [lia | assumption | assumption].
Qed.

Lemma rating_band_monotone_witness :
  exists b1 b2,
    RatingSystem.select_rating (RatingSystem._load_rating_thresholds []) 49 = Some b1 /\
    RatingSystem.select_rating (RatingSystem._load_rating_thresholds []) 50 = Some b2 /\
    min_score b2 >= min_score b1.
Proof.
  apply (rating_band_monotone [] 49 50). reflexivity.
Defined.

(** The default bands at their boundaries. *)
Example default_band_boundaries :
  let band s :=
    option_map rating_name
      (RatingSystem.select_rating (RatingSystem._load_rating_thresholds []) s) in
  band 50 = Some "excellent" /\ band 49 = Some "good" /\
  band 35 = Some "good" /\ band 34 = Some "normal" /\
  band 20 = Some "normal" /\ band 10 = Some "poor" /\
  band 9 = Some "terrible" /\ band 0 = Some "terrible".
Proof. repeat split. Qed.

(** ** rating_system.py: leaderboard *)

Section LeaderboardFacts.

Import RatingSystem.
Variable config : GlobalRatingConfig.
Variable thresholds : list RatingSettings.
Variable activities : list Activities.
Variable trackings : list ResponseTracking.
Variables now days : Z.

Lemma get_curator_rating_score (curator : Z) (rating : CuratorRating) :
  get_curator_rating config thresholds activities trackings now curator days = Some rating ->
  cr_score rating =
  total_score (calculate_curator_score config activities trackings now curator days).
Proof.
  unfold get_curator_rating.
  destruct (select_rating thresholds _); [|discriminate].
  intros [= <-]. reflexivity.
Qed.

Lemma rate_curators_total (curators : list Curators) :
  thresholds <> [] ->
  exists entries,
    rate_curators config thresholds activities trackings now days curators = Some entries /\
    map le_curator entries = curators /\
    Forall (fun e => le_score e =
                     snapshot_score config activities trackings now days (le_curator e))
      entries.
Proof.
  intro Hne.
  induction curators as [|c cs IH]; cbn [rate_curators].
  - exists []. repeat split. constructor.
  - destruct (get_curator_rating config thresholds activities trackings now (cur_id c) days)
      as [rating|] eqn:E.
    + destruct IH as (entries & -> & Hmap & Hall).
      eexists. split; [reflexivity|]. split.
      * cbn [map le_curator]. now rewrite Hmap.
      * constructor; [|exact Hall].
        cbn [le_score le_curator]. now apply get_curator_rating_score.
    + exfalso. unfold get_curator_rating in E.
      destruct (select_rating_some thresholds
                  (total_score (calculate_curator_score config activities trackings
                                  now (cur_id c) days)) Hne) as [b Hb].
      rewrite Hb in E. discriminate E.
Qed.

Lemma map_filter_entries (s : Z) (entries : list LeaderboardEntry) :
  Forall (fun e => le_score e =
                   snapshot_score config activities trackings now days (le_curator e))
    entries ->
  map le_curator (filter (fun e => le_score e =? s) entries) =
  filter (fun c => snapshot_score config activities trackings now days c =? s)
    (map le_curator entries).
Proof.
  induction 1 as [|e es He Hes IH]; [reflexivity|].
  cbn [filter map]. rewrite <- He.
  destruct (le_score e =? s); cbn [map]; now rewrite IH.
Qed.

End LeaderboardFacts.

Lemma py_slice_to_nonneg {A : Type} (n : Z) (l : list A) :
  0 <= n -> py_slice_to n l = firstn (Z.to_nat n) l.
Proof.
  intro H. unfold py_slice_to.
  replace (n <? 0) with false by (symmetry; apply Z.ltb_ge; lia). reflexivity.
Qed.

(** C9, as the code has it.  The leaderboard holds one entry for every
    active curator, with the total score of that curator, in descending
    order of score; curators with equal scores stay in the order in which
    the curator query returned them; the result is the slice [[:limit]] of
    that ranking, which for a non-negative limit is its first [limit]
    entries. *)
Theorem leaderboard_is_stable_ranking :
  forall (config : GlobalRatingConfig) (rows : list RatingSettings)
         (curators : list Curators) (activities : list Activities)
         (trackings : list ResponseTracking) (limit now days : Z),
    let thresholds := RatingSystem._load_rating_thresholds rows in
    let score := snapshot_score config activities trackings now days in
    exists ranked,
      RatingSystem.get_top_curators config thresholds curators activities
        trackings limit now days = py_slice_to limit ranked /\
      Permutation (map RatingSystem.le_curator ranked)
        (RatingSystem.active_curators curators) /\
      (forall e, In e ranked ->
                 RatingSystem.le_score e = score (RatingSystem.le_curator e)) /\
      StronglySorted (desc_by RatingSystem.le_score) ranked /\
      (forall s,
         map RatingSystem.le_curator
           (filter (fun e => RatingSystem.le_score e =? s) ranked) =
         filter (fun c => score c =? s) (RatingSystem.active_curators curators)) /\
      (0 <= limit -> py_slice_to limit ranked = firstn (Z.to_nat limit) ranked).
Proof.
  intros config rows curators activities trackings limit now days thresholds score.
  destruct (rate_curators_total config thresholds activities trackings now days
              (RatingSystem.active_curators curators)
              (load_rating_thresholds_nonempty rows))
    as (entries & Hrate & Hmap & Hall).
  exists (sort_desc RatingSystem.le_score entries).
  split; [unfold RatingSystem.get_top_curators; now rewrite Hrate|].
  split.
  { rewrite <- Hmap. apply Permutation_map, Permutation_sym, sort_desc_perm. }
  split.
  { intros e He. apply sort_desc_in in He.
    rewrite Forall_forall in Hall. apply (Hall e He). }
  split; [apply sort_desc_sorted|].
  split.
  { intro s. rewrite sort_desc_stable.
    rewrite (map_filter_entries config activities trackings now days s entries Hall).
    now rewrite Hmap. }
  apply py_slice_to_nonneg.
Qed.

Lemma leaderboard_is_stable_ranking_witness :
  exists ranked,
    RatingSystem.get_top_curators RatingSystem.default_rating_config
      (RatingSystem._load_rating_thresholds []) [Scenario.alice; Scenario.bob]
      [mkActivities 2 1 "message" (seconds 1500)] [] 1 (seconds 2000) 30
    = firstn (Z.to_nat 1) ranked /\
    StronglySorted (desc_by RatingSystem.le_score) ranked.
Proof.
  destruct (leaderboard_is_stable_ranking RatingSystem.default_rating_config []
              [Scenario.alice; Scenario.bob]
              [mkActivities 2 1 "message" (seconds 1500)] [] 1 (seconds 2000) 30)
    as (ranked & Htop & _ & _ & Hsorted & _ & Hslice).
  exists ranked. split; [|exact Hsorted].
  rewrite Htop. apply Hslice. discriminate.
Defined.

(** The curator with the activity comes first, whatever the query order. *)
Example leaderboard_orders_by_score :
  map (fun e => cur_id (RatingSystem.le_curator e))
    (RatingSystem.get_top_curators RatingSystem.default_rating_config
       (RatingSystem._load_rating_thresholds []) [Scenario.alice; Scenario.bob]
       [mkActivities 2 1 "message" (seconds 1500)] [] 1 (seconds 2000) 30)
  = [2].
Proof. reflexivity. Qed.

(** C9, as the specification words it, fails on ties: two active curators
    with the same score come out in the order of the curator query, whatever
    their ids are. *)
Lemma leaderboard_ties_follow_query_order :
  let ids curators :=
    map (fun e => cur_id (RatingSystem.le_curator e))
      (RatingSystem.get_top_curators RatingSystem.default_rating_config
         (RatingSystem._load_rating_thresholds []) curators [] [] 10
         (seconds 2000) 30) in
  let scores curators :=
    map RatingSystem.le_score
      (RatingSystem.get_top_curators RatingSystem.default_rating_config
         (RatingSystem._load_rating_thresholds []) curators [] [] 10
         (seconds 2000) 30) in
  scores [Scenario.bob; Scenario.alice] = [0; 0] /\
  ids [Scenario.bob; Scenario.alice] = [2; 1] /\
  ids [Scenario.alice; Scenario.bob] = [1; 2].
Proof. repeat split. Qed.

(** ** discord_bot.py: the tracking table *)

Section BotFacts.

Import Bot.

(** The notification side never writes to the tracking table. *)
Lemma send_notification_frame st now t ch :
  let st' := send_notification st now t ch in
  servers st' = servers st /\ trackings st' = trackings st /\
  pending_checks st' = pending_checks st /\
  notification_timeout_setting st' = notification_timeout_setting st /\
  (notifications st' = notifications st \/
   exists n, notifications st' = notifications st ++ [n] /\
             ntf_tracking_id n = rt_id t).
Proof.
  unfold send_notification.
  destruct ch; cbn [negb]; [|now auto 6].
  destruct (find _ (servers st)) as [srv|]; [|now auto 6].
  destruct (datetime_sub _ _); [|now auto 6].
  cbn. repeat split. right. eexists. split; reflexivity.
Qed.

Lemma find_by_id_id (l : list ResponseTracking) (i : Z) (t : ResponseTracking) :
  find (fun t => rt_id t =? i) l = Some t -> rt_id t = i.
Proof. intro H. apply find_some in H. now apply Z.eqb_eq. Qed.

Lemma notification_check_frame st now i ch :
  let st' := notification_check st now i ch in
  servers st' = servers st /\ trackings st' = trackings st /\
  pending_checks st' = pending_checks st /\
  notification_timeout_setting st' = notification_timeout_setting st /\
  (notifications st' = notifications st \/
   exists n, notifications st' = notifications st ++ [n] /\ ntf_tracking_id n = i).
Proof.
  unfold notification_check.
  destruct (find _ (trackings st)) as [t|] eqn:E; [|now auto 6].
  destruct (is_resolved t); cbn [negb]; [now auto 6|].
  rewrite <- (find_by_id_id _ _ _ E). apply send_notification_frame.
Qed.

Lemma wake_trackings st now i ch : trackings (wake st now i ch) = trackings st.
Proof.
  unfold wake. destruct (existsb _ _); [|reflexivity].
  match goal with
  | |- trackings (notification_check ?s _ _ _) = _ =>
      destruct (notification_check_frame s now i ch) as (_ & -> & _)
  end.
  reflexivity.
Qed.

(** The creation time of a message is aware and the stored mention time is
    naive: their difference is never computed. *)
Lemma created_at_minus_stored (m : Message) (stored : Z) :
  datetime_sub (created_at m) (naive stored) = None.
Proof. reflexivity. Qed.

(** So the update never gets past its first statement: with or without a
    row found, the state is left as it was. *)
Lemma update_response_tracking_unchanged st now m c ty :
  update_response_tracking st now m c ty = st.
Proof.
  unfold update_response_tracking.
  destruct (find _ (trackings st)); [|reflexivity].
  now rewrite created_at_minus_stored.
Qed.


Lemma update_response_tracking_ids st now m c ty :
  map rt_id (trackings (update_response_tracking st now m c ty)) =
  map rt_id (trackings st).
Proof. now rewrite update_response_tracking_unchanged. Qed.

Lemma update_response_tracking_mentions st now m c ty :
  map mention_message_id (trackings (update_response_tracking st now m c ty)) =
  map mention_message_id (trackings st).
Proof. now rewrite update_response_tracking_unchanged. Qed.

Lemma create_response_tracking_mentions st now m srv :
  NoDup (map mention_message_id (trackings st)) ->
  NoDup (map mention_message_id (trackings (create_response_tracking st now m srv))).
Proof.
  intro H. unfold create_response_tracking.
  destruct (find _ (trackings st)) eqn:E; [exact H|].
  cbn [schedule_notification_check trackings].
  rewrite map_app. cbn [map mention_message_id].
  apply NoDup_rev in H. rewrite <- (rev_involutive (_ ++ _)).
  apply NoDup_rev. rewrite rev_app_distr. cbn [rev app].
  constructor; [|exact H].
  rewrite <- in_rev, in_map_iff. intros (t & Ht & Hin).
  pose proof (find_none _ _ E t Hin) as Hf. cbn beta in Hf.
  rewrite Ht, Z.eqb_refl in Hf. discriminate Hf.
Qed.

Lemma step_mentions st e :
  NoDup (map mention_message_id (trackings st)) ->
  NoDup (map mention_message_id (trackings (step st e))).
Proof.
  destruct e; cbn [step]; intro H.
  - now apply create_response_tracking_mentions.
  - now rewrite update_response_tracking_mentions.
  - now rewrite wake_trackings.
Qed.

Lemma run_mentions events st :
  NoDup (map mention_message_id (trackings st)) ->
  NoDup (map mention_message_id (trackings (run st events))).
Proof.
  revert st. induction events as [|e events IH]; intros st H; cbn [run fold_left].
  - exact H.
  - apply IH, step_mentions, H.
Qed.

Lemma create_response_tracking_again st now now' m srv srv' :
  create_response_tracking (create_response_tracking st now m srv) now' m srv' =
  create_response_tracking st now m srv.
Proof.
  destruct (find (fun t => mention_message_id t =? msg_id m) (trackings st))
    as [t|] eqn:E.
  - unfold create_response_tracking. now rewrite !E.
  - unfold create_response_tracking. rewrite !E.
    unfold schedule_notification_check. cbn [trackings].
    erewrite find_app_last; [reflexivity | exact E |].
    cbn [mention_message_id]. apply Z.eqb_refl.
Qed.

Lemma create_response_tracking_tracked st now m srv :
  In (msg_id m) (map mention_message_id (trackings st)) ->
  create_response_tracking st now m srv = st.
Proof.
  intro Hin. unfold create_response_tracking.
  destruct (find _ (trackings st)) eqn:E; [reflexivity|].
  apply in_map_iff in Hin. destruct Hin as (t & Ht & Hin).
  pose proof (find_none _ _ E t Hin) as Hf. cbn beta in Hf.
  rewrite Ht, Z.eqb_refl in Hf. discriminate Hf.
Qed.

(** Events only append rows, and the rows they append are unresolved and
    without a latency. *)
Lemma step_appends st e :
  exists suffix,
    trackings (step st e) = trackings st ++ suffix /\
    Forall (fun t => is_resolved t = false /\ response_time_seconds t = None) suffix.
Proof.
  destruct e; cbn [step].
  - unfold create_response_tracking.
    destruct (find _ (trackings st)).
    + exists []. split; [now rewrite app_nil_r | constructor].
    + cbn [schedule_notification_check trackings].
      eexists. split; [reflexivity|].
      constructor; [split; reflexivity | constructor].
  - exists []. rewrite update_response_tracking_unchanged.
    split; [now rewrite app_nil_r | constructor].
  - exists []. rewrite wake_trackings.
    split; [now rewrite app_nil_r | constructor].
Qed.

Lemma run_appends events st :
  exists suffix,
    trackings (run st events) = trackings st ++ suffix /\
    Forall (fun t => is_resolved t = false /\ response_time_seconds t = None) suffix.
Proof.
  revert st. induction events as [|e events IH]; intro st; cbn [run fold_left].
  - exists []. split; [now rewrite app_nil_r | constructor].
  - destruct (IH (step st e)) as (s2 & H2 & F2).
    destruct (step_appends st e) as (s1 & H1 & F1).
    exists (s1 ++ s2). fold (run (step st e) events).
    split; [now rewrite H2, H1, app_assoc | now apply Forall_app].
Qed.


Lemma find_app_first {A : Type} (p : A -> bool) (l suffix : list A) (x : A) :
  find p l = Some x -> find p (l ++ suffix) = Some x.
Proof.
  induction l as [|y r IH]; cbn [find app]; [discriminate|].
  destruct (p y); [trivial | exact IH].
Qed.

End BotFacts.

(** C3.  The legacy [track_mention_request] is not idempotent: handed the
    same help request twice, it leaves two rows with the one originating
    message id, the second call changing the table, where
    [create_response_tracking], handed the same request twice, leaves one
    row. *)
Theorem legacy_tracking_is_not_idempotent :
  let once :=
    Legacy.track_mention_request [] Scenario.legacy_help_msg Scenario.legacy_lspd in
  let twice :=
    Legacy.track_mention_request once Scenario.legacy_help_msg Scenario.legacy_lspd in
  map mention_message_id once = [100] /\
  map mention_message_id twice = [100; 100] /\
  map rt_id twice = [1; 2] /\
  twice <> once /\
  ~ NoDup (map mention_message_id twice) /\
  map mention_message_id
    (Bot.trackings
       (Bot.run (Bot.initial [Scenario.legacy_lspd] None)
          [ Bot.HelpRequest (seconds 1000) Scenario.legacy_help_msg
              Scenario.legacy_lspd;
            Bot.HelpRequest (seconds 1001) Scenario.legacy_help_msg
              Scenario.legacy_lspd ]))
  = [100].
Proof.
  cbv zeta.
  split; [reflexivity|]. split; [reflexivity|]. split; [reflexivity|].
  split; [intro H; discriminate H|]. split; [|reflexivity].
  intro H. inversion H as [|x l Hnotin _]; subst. apply Hnotin. now left.
Qed.

(** X28.  Whatever events the bot processes from its empty tracking table,
    no two tracking rows have the same originating message id; and opening a
    tracking for a message that already has one changes nothing: no row, no
    sleeping check, no notification, and no error. *)
Theorem tracking_opened_once_per_message :
  (forall (srvs : list DiscordServers) (timeout : option Z) (events : list Bot.Event),
      NoDup (map mention_message_id
               (Bot.trackings (Bot.run (Bot.initial srvs timeout) events)))) /\
  (forall (st : Bot.BotState) (now now' : Z) (message : Message)
          (server server' : DiscordServers),
      Bot.create_response_tracking
        (Bot.create_response_tracking st now message server) now' message server'
      = Bot.create_response_tracking st now message server) /\
  (forall (st : Bot.BotState) (now : Z) (message : Message) (server : DiscordServers),
      In (msg_id message) (map mention_message_id (Bot.trackings st)) ->
      Bot.create_response_tracking st now message server = st).
Proof.
  split; [|split].
  - intros srvs timeout events. apply run_mentions. constructor.
  - intros. apply create_response_tracking_again.
  - intros. now apply create_response_tracking_tracked.
Qed.

Lemma tracking_opened_once_per_message_witness :
  let st := Bot.run Scenario.start Scenario.late_response_events in
  Bot.create_response_tracking st (seconds 1800) Scenario.help_msg Scenario.lspd = st.
Proof.
  destruct tracking_opened_once_per_message as (_ & _ & H).
  apply H. cbv. left. reflexivity.
Defined.

(** A help request delivered twice leaves one row and one sleeping check. *)
Example duplicate_help_request :
  let st := Bot.run Scenario.start
              [ Bot.HelpRequest (seconds 1000) Scenario.help_msg Scenario.lspd;
                Bot.HelpRequest (seconds 1001) Scenario.help_msg Scenario.lspd ] in
  map mention_message_id (Bot.trackings st) = [100] /\
  Bot.pending_checks st = [(1, seconds 1600)].
Proof. split; reflexivity. Qed.

(** ** discord_bot.py and utils.py: recording a response *)



(** A curator reacts at second 1010 to a message of second 900 while a help
    request of second 1000 is open: the request stays open, with no
    latency. *)
Example reaction_on_old_message :
  map (fun t => (mention_message_id t, is_resolved t, response_time_seconds t))
    (Bot.trackings (Bot.run Scenario.start Scenario.reaction_on_old_message_events))
  = [(100, false, None)].
Proof. reflexivity. Qed.



(** Alice, a curator, asks a question and thirty seconds later posts again:
    her request stays open and names no responding curator. *)
Example self_response :
  map (fun t => (mention_author_id t, is_resolved t, curator_id t))
    (Bot.trackings (Bot.run Scenario.start Scenario.self_response_events))
  = [(Some (cur_discord_id Scenario.alice), false, None)].
Proof. reflexivity. Qed.



(** Alice replies to message 999, which is not tracked: the open tracking
    of message 100 stays open. *)
Example reply_elsewhere :
  msg_reference Scenario.alice_reply_elsewhere = Some 999 /\
  map (fun t => (mention_message_id t, is_resolved t, response_message_id t))
    (Bot.trackings (Bot.run Scenario.start Scenario.reply_elsewhere_events))
  = [(100, false, None)].
Proof. split; reflexivity. Qed.

(** ** discord_bot.py: the notification check *)

Section CheckFacts.

Import Bot.

Lemma max_id_nonneg (l : list ResponseTracking) :
  0 <= fold_right Z.max 0 (map rt_id l).
Proof. induction l as [|x l IH]; cbn [map fold_right]; lia. Qed.

Lemma next_id_app_last (l : list ResponseTracking) (x : ResponseTracking) :
  rt_id x = next_id l -> next_id (l ++ [x]) = next_id l + 1.
Proof.
  unfold next_id. intro Hx.
  assert (H : forall m, 0 <= m ->
            fold_right Z.max 0 (map rt_id (l ++ [x])) =
            Z.max (fold_right Z.max 0 (map rt_id l)) (Z.max (rt_id x) 0)).
  { intros _ _. induction l as [|y l' IH]; cbn [map fold_right app].
    - lia.
    - cbn [map fold_right app] in IH.
      assert (E : fold_right Z.max 0 (map rt_id (l' ++ [x])) =
                  Z.max (fold_right Z.max 0 (map rt_id l')) (Z.max (rt_id x) 0)).
      { clear IH Hx. induction l' as [|z l'' IH']; cbn [map fold_right app]; lia. }
      lia. }
  rewrite (H 0 (Z.le_refl 0)), Hx.
  pose proof (max_id_nonneg l). lia.
Qed.

Lemma remove_first_split {A : Type} (p : A -> bool) (l : list A) :
  existsb p l = true ->
  exists l1 x l2, l = l1 ++ x :: l2 /\ p x = true /\ remove_first p l = l1 ++ l2.
Proof.
  induction l as [|y r IH]; cbn [existsb remove_first]; [discriminate|].
  destruct (p y) eqn:E.
  - intros _. exists [], y, r. auto.
  - cbn [orb]. intro H. destruct (IH H) as (l1 & x & l2 & -> & Hp & ->).
    exists (y :: l1), x, l2. auto.
Qed.

Lemma checks_permuted (bound : Z) (l l' : list Z) :
  Permutation l l' ->
  NoDup l /\ Forall (fun i => i < bound) l ->
  NoDup l' /\ Forall (fun i => i < bound) l'.
Proof.
  intros Hp [Hn Hf]. split.
  - eapply Permutation_NoDup; eassumption.
  - eapply Permutation_Forall; eassumption.
Qed.

Lemma checks_tail (bound : Z) (x : Z) (l : list Z) :
  NoDup (x :: l) /\ Forall (fun i => i < bound) (x :: l) ->
  NoDup l /\ Forall (fun i => i < bound) l.
Proof.
  intros [Hn Hf]. split.
  - now inversion Hn.
  - now inversion Hf.
Qed.

Lemma create_response_tracking_checks st now m srv :
  one_check_per_record st ->
  one_check_per_record (create_response_tracking st now m srv).
Proof.
  intros [Hn Hf]. unfold create_response_tracking.
  destruct (find _ (trackings st)); [now split|].
  unfold one_check_per_record, checked_ids, schedule_notification_check.
  cbn [pending_checks notifications trackings rt_id].
  rewrite next_id_app_last by reflexivity.
  unfold checked_ids in Hn, Hf.
  apply (checks_permuted _
           (next_id (trackings st)
            :: map fst (pending_checks st)
               ++ map ntf_tracking_id (notifications st))).
  - rewrite map_app. cbn [map fst]. rewrite <- app_assoc. cbn [app].
    apply Permutation_middle.
  - split.
    + constructor; [|exact Hn].
      intro Hin. rewrite Forall_forall in Hf. specialize (Hf _ Hin). lia.
    + constructor; [lia|].
      eapply Forall_impl; [|exact Hf]. cbn beta. intros; lia.
Qed.

Lemma update_response_tracking_checks st now m c ty :
  one_check_per_record st ->
  one_check_per_record (update_response_tracking st now m c ty).
Proof.
  now rewrite update_response_tracking_unchanged.
Qed.

Lemma wake_checks st now i ch :
  one_check_per_record st -> one_check_per_record (wake st now i ch).
Proof.
  intro H. unfold wake.
  destruct (existsb _ _) eqn:E; [|exact H].
  destruct (remove_first_split _ _ E) as (l1 & x & l2 & Hl & Hx & Hrm).
  match goal with
  | |- one_check_per_record (notification_check ?s _ _ _) =>
      destruct (notification_check_frame s now i ch)
        as (_ & Htr & Hpc & _ & Hnt)
  end.
  cbn [trackings pending_checks notifications] in Htr, Hpc, Hnt.
  unfold one_check_per_record, checked_ids in *.
  rewrite Hl in H.
  unfold is_due in Hx. apply andb_true_iff in Hx. destruct Hx as [Hx _].
  apply Z.eqb_eq in Hx.
  rewrite map_app in *. cbn [map] in H. rewrite Hx in H.
  assert (Hperm : Permutation
            ((map fst l1 ++ i :: map fst l2)
             ++ map ntf_tracking_id (notifications st))
            (i :: (map fst l1 ++ map fst l2)
                  ++ map ntf_tracking_id (notifications st))).
  { rewrite <- !app_assoc. cbn [app]. apply Permutation_sym, Permutation_middle. }
  destruct Hnt as [Hnt | (n & Hnt & Hn)]; rewrite Htr, Hpc, Hnt, Hrm, map_app.
  - eapply checks_tail, checks_permuted; eassumption.
  - rewrite map_app. cbn [map]. rewrite Hn.
    eapply checks_permuted; [|exact H].
    eapply perm_trans; [exact Hperm|].
    rewrite !app_assoc. apply Permutation_cons_append.
Qed.

Lemma run_checks events st :
  one_check_per_record st -> one_check_per_record (run st events).
Proof.
  revert st. induction events as [|e events IH]; intros st H; cbn [run fold_left].
  - exact H.
  - apply IH. destruct e; cbn [step].
    + now apply create_response_tracking_checks.
    + now apply update_response_tracking_checks.
    + now apply wake_checks.
Qed.

Lemma wake_unresolved st now i t srv :
  existsb (is_due now i) (pending_checks st) = true ->
  find (fun t => rt_id t =? i) (trackings st) = Some t ->
  is_resolved t = false ->
  find (fun s => srv_id s =? server_id t) (servers st) = Some srv ->
  servers (wake st now i true) = servers st /\
  trackings (wake st now i true) = trackings st /\
  pending_checks (wake st now i true) =
    remove_first (is_due now i) (pending_checks st) /\
  exists n, notifications (wake st now i true) = notifications st ++ [n] /\
            ntf_tracking_id n = rt_id t.
Proof.
  intros Hdue Hfind Hopen Hsrv.
  unfold wake. rewrite Hdue.
  unfold notification_check. cbn [trackings]. rewrite Hfind, Hopen.
  cbn [negb]. unfold send_notification. cbn [negb servers]. rewrite Hsrv.
  cbn [servers trackings pending_checks notifications].
  repeat split. eexists. split; reflexivity.
Qed.

Lemma wake_silent st now i ch :
  ch = false \/
  (exists t, find (fun t => rt_id t =? i) (trackings st) = Some t /\
             is_resolved t = true) ->
  notifications (wake st now i ch) = notifications st.
Proof.
  intro H. unfold wake. destruct (existsb _ _); [|reflexivity].
  unfold notification_check. cbn [trackings].
  destruct H as [->|(t & -> & ->)].
  - destruct (find _ (trackings st)) as [t|]; [|reflexivity].
    destruct (is_resolved t); reflexivity.
  - reflexivity.
Qed.

Lemma wake_without_server st now i t :
  find (fun t => rt_id t =? i) (trackings st) = Some t ->
  find (fun s => srv_id s =? server_id t) (servers st) = None ->
  notifications (wake st now i true) = notifications st.
Proof.
  intros Hfind Hsrv. unfold wake. destruct (existsb _ _); [|reflexivity].
  unfold notification_check. cbn [trackings]. rewrite Hfind.
  destruct (is_resolved t); [reflexivity|].
  cbn [negb]. unfold send_notification. cbn [negb servers]. now rewrite Hsrv.
Qed.

End CheckFacts.

(** C1, as the code has it.  No tracking row ever gets more than one
    notification.  A new row gets one check, due after the configured
    timeout, 600 seconds by default.  When the check of a row that is still
    unresolved runs, one notification for that row is sent if the
    notification channel and the server row are found, and none otherwise.
    The check leaves the tracking table as it was, and so does every curator
    action that follows: whatever happens afterwards, the row stays in the
    table as it is, unresolved. *)
Theorem timeout_notifies_at_most_once :
  (forall (srvs : list DiscordServers) (timeout : option Z) (events : list Bot.Event),
      NoDup (map Bot.ntf_tracking_id
               (Bot.notifications (Bot.run (Bot.initial srvs timeout) events)))) /\
  (forall (st : Bot.BotState) (now : Z) (message : Message) (server : DiscordServers),
      find (fun t => mention_message_id t =? msg_id message) (Bot.trackings st) = None ->
      Bot.pending_checks (Bot.create_response_tracking st now message server) =
      Bot.pending_checks st ++
      [(next_id (Bot.trackings st),
        now + seconds (match Bot.notification_timeout_setting st with
                       | Some v => v
                       | None => 600
                       end))]) /\
  (forall (st : Bot.BotState) (now i : Z) (t : ResponseTracking)
          (channel_found : bool),
      existsb (Bot.is_due now i) (Bot.pending_checks st) = true ->
      find (fun t => rt_id t =? i) (Bot.trackings st) = Some t ->
      is_resolved t = false ->
      let st' := Bot.wake st now i channel_found in
      (forall srv,
          channel_found = true ->
          find (fun s => srv_id s =? server_id t) (Bot.servers st) = Some srv ->
          exists n, Bot.notifications st' = Bot.notifications st ++ [n] /\
                    Bot.ntf_tracking_id n = rt_id t /\
                    Bot.ntf_server_name n = srv_name srv) /\
      (channel_found = false \/
       find (fun s => srv_id s =? server_id t) (Bot.servers st) = None ->
       Bot.notifications st' = Bot.notifications st) /\
      Bot.trackings st' = Bot.trackings st /\
      (forall (now' : Z) (msg : Message) (cur : Curators) (rtype : string),
          Bot.update_response_tracking st' now' msg cur rtype = st') /\
      (forall (events : list Bot.Event),
          find (fun t => rt_id t =? i) (Bot.trackings (Bot.run st' events)) = Some t)).
Proof.
  split; [|split].
  - intros srvs timeout events.
    destruct (run_checks events (Bot.initial srvs timeout)) as [Hn _].
    { split; constructor. }
    unfold checked_ids in Hn. now apply NoDup_app_remove_l in Hn.
  - intros st now message server Hnew.
    unfold Bot.create_response_tracking. rewrite Hnew. reflexivity.
  - intros st now i t ch Hdue Hfind Hopen st'.
    assert (Htr : Bot.trackings st' = Bot.trackings st) by apply wake_trackings.
    split; [|split; [|split; [exact Htr|split]]].
    + intros srv -> Hsrv.
      destruct (wake_unresolved st now i t srv Hdue Hfind Hopen Hsrv)
        as (_ & _ & _ & n & Hn & Hid).
      exists n. split; [exact Hn|]. split; [exact Hid|].
      unfold st', Bot.wake in Hn. rewrite Hdue in Hn.
      unfold Bot.notification_check in Hn. cbn [Bot.trackings] in Hn.
      rewrite Hfind, Hopen in Hn. cbn [negb] in Hn.
      unfold Bot.send_notification in Hn. cbn [negb Bot.servers] in Hn.
      rewrite Hsrv in Hn. cbn [Bot.notifications] in Hn.
      apply app_inv_head in Hn. injection Hn as <-. reflexivity.
    + intros [->|Hsrv].
      * apply wake_silent. now left.
      * destruct ch; [|apply wake_silent; now left].
        now apply (wake_without_server st now i t).
    + intros. apply update_response_tracking_unchanged.
    + intro events.
      destruct (run_appends events st') as (suffix & -> & _).
      apply find_app_first. now rewrite Htr.
Qed.

Lemma timeout_notifies_at_most_once_witness :
  let st := Bot.run Scenario.start
              [Bot.HelpRequest (seconds 1000) Scenario.help_msg Scenario.lspd] in
  let st' := Bot.wake st (seconds 1600) 1 true in
  Bot.pending_checks st = [(1, seconds 1600)] /\
  (exists n, Bot.notifications st' = Bot.notifications st ++ [n] /\
             Bot.ntf_tracking_id n = 1 /\
             Bot.ntf_server_name n = "LSPD") /\
  Bot.notifications (Bot.wake st (seconds 1600) 1 false) = Bot.notifications st /\
  Bot.trackings st' = Bot.trackings st /\
  find (fun t => rt_id t =? 1)
    (Bot.trackings
       (Bot.run st'
          [Bot.CuratorAction (seconds 1700) Scenario.alice_late_msg Scenario.alice
             "message"]))
  = Some Scenario.open_row.
Proof.
  destruct timeout_notifies_at_most_once as (_ & Hnew & H).
  destruct (H (Bot.run Scenario.start
                 [Bot.HelpRequest (seconds 1000) Scenario.help_msg Scenario.lspd])
              (seconds 1600) 1 Scenario.open_row true)
    as (Hn & _ & Ht & _ & Hlater); try reflexivity.
  destruct (H (Bot.run Scenario.start
                 [Bot.HelpRequest (seconds 1000) Scenario.help_msg Scenario.lspd])
              (seconds 1600) 1 Scenario.open_row false)
    as (_ & Hsilent & _); try reflexivity.
  split; [|split; [|split; [|split]]].
  - apply (Hnew Scenario.start (seconds 1000) Scenario.help_msg Scenario.lspd).
    reflexivity.
  - apply (Hn Scenario.lspd); reflexivity.
  - apply Hsilent. left. reflexivity.
  - exact Ht.
  - apply Hlater.
Defined.

(** C1, as the specification words it, fails: the request of second 1000
    is still unresolved when its check runs at second 1600, the notification
    channel is not found, and no notification is sent for it, then or later;
    the check is used up, and the row is as it was when it was created. *)
Lemma missing_channel_sends_no_notification :
  let st := Bot.run Scenario.start Scenario.missing_channel_events in
  Bot.notifications st = [] /\
  Bot.pending_checks st = [] /\
  Bot.trackings st = [Scenario.open_row].
Proof. cbv zeta. split; [|split]; reflexivity. Qed.

(** With the channel at hand the same request gets its notification, and
    the message a curator posts at second 1700 leaves the row unresolved. *)
Example late_action_after_notification :
  let st := Bot.run Scenario.start Scenario.late_response_events in
  map Bot.ntf_tracking_id (Bot.notifications st) = [1] /\
  map Bot.ntf_minutes_passed (Bot.notifications st) = [10] /\
  Bot.trackings st = [Scenario.open_row].
Proof. cbv zeta. split; [|split]; reflexivity. Qed.

(** * Further properties of the code *)

(** ** rating_system.py: the selected band *)

Section BandChoice.

Import RatingSystem.

Lemma find_band_best (thresholds : list RatingSettings) (score : Z) (b : RatingSettings) :
  StronglySorted (desc_by min_score) thresholds ->
  find (fun t => min_score t <=? score) thresholds = Some b ->
  forall b', In b' thresholds -> min_score b' <= score -> min_score b' <= min_score b.
Proof.
  induction 1 as [|x r Hr IH Hx]; cbn [find]; [discriminate|].
  rewrite Forall_forall in Hx.
  destruct (min_score x <=? score) eqn:E.
  - intros [= <-] b' [<-|Hin] _; [lia | apply (Hx b' Hin)].
  - apply Z.leb_gt in E. intros Hf b' [<-|Hin] Hle; [lia | now apply IH].
Qed.

Lemma py_last_lowest (thresholds : list RatingSettings) (b : RatingSettings) :
  StronglySorted (desc_by min_score) thresholds ->
  py_last thresholds = Some b ->
  forall b', In b' thresholds -> min_score b <= min_score b'.
Proof.
  induction 1 as [|x r Hr IH Hx]; [discriminate|].
  rewrite Forall_forall in Hx. rewrite py_last_cons.
  destruct r as [|y r'].
  - intros [= <-] b' [<-|[]]. lia.
  - intros Hl b' [<-|Hin]; [|now apply IH].
    apply (Hx b), py_last_in, Hl.
Qed.

End BandChoice.

(** X1.  When the score reaches the minimum of some loaded band, the band
    chosen by [get_curator_rating] is a loaded band whose minimum the score
    reaches, and no loaded band that the score reaches has a larger
    minimum. *)
Theorem selected_band_is_highest_reached :
  forall (rows : list RatingSettings) (score : Z) (b' : RatingSettings),
    In b' (RatingSystem._load_rating_thresholds rows) ->
    min_score b' <= score ->
    exists b,
      RatingSystem.select_rating (RatingSystem._load_rating_thresholds rows) score
        = Some b /\
      In b (RatingSystem._load_rating_thresholds rows) /\
      min_score b' <= min_score b <= score.
Proof.
  intros rows score b' Hin Hle.
  unfold RatingSystem.select_rating.
  destruct (find (fun t => min_score t <=? score)
              (RatingSystem._load_rating_thresholds rows)) as [b|] eqn:E.
  - exists b. split; [reflexivity|].
    pose proof (find_some _ _ E) as [Hb Hs]. apply Z.leb_le in Hs.
    split; [exact Hb|]. split; [|exact Hs].
    apply (find_band_best _ score b (load_rating_thresholds_sorted rows) E b' Hin Hle).
  - pose proof (find_none _ _ E b' Hin) as Hf. cbn beta in Hf.
    apply Z.leb_gt in Hf. lia.
Qed.

Lemma selected_band_is_highest_reached_witness :
  exists b,
    RatingSystem.select_rating (RatingSystem._load_rating_thresholds []) 40 = Some b /\
    In b (RatingSystem._load_rating_thresholds []) /\
    20 <= min_score b <= 40.
Proof.
  apply (selected_band_is_highest_reached [] 40
           (mkRatingSettings "normal" "Нормально" 20 "#f59e0b")).
  - cbv. right. right. left. reflexivity.
  - cbv. discriminate.
Defined.

(** X2.  When the score is below the minimum of every loaded band, the band
    chosen is the lowest one: no loaded band has a smaller minimum. *)
Theorem unreached_bands_fall_back_to_lowest :
  forall (rows : list RatingSettings) (score : Z),
    (forall b', In b' (RatingSystem._load_rating_thresholds rows) ->
                score < min_score b') ->
    exists b,
      RatingSystem.select_rating (RatingSystem._load_rating_thresholds rows) score
        = Some b /\
      In b (RatingSystem._load_rating_thresholds rows) /\
      forall b', In b' (RatingSystem._load_rating_thresholds rows) ->
                 min_score b <= min_score b'.
Proof.
  intros rows score Hall.
  destruct (select_rating_some _ score (load_rating_thresholds_nonempty rows))
    as [b Hb].
  exists b. split; [exact Hb|]. split; [now apply select_rating_in in Hb|].
  unfold RatingSystem.select_rating in Hb.
  destruct (find (fun t => min_score t <=? score)
              (RatingSystem._load_rating_thresholds rows)) as [b0|] eqn:E.
  - pose proof (find_some _ _ E) as [Hb0 Hs]. apply Z.leb_le in Hs.
    specialize (Hall b0 Hb0). lia.
  - apply (py_last_lowest _ b (load_rating_thresholds_sorted rows) Hb).
Qed.

Lemma unreached_bands_fall_back_to_lowest_witness :
  exists b,
    RatingSystem.select_rating
      (RatingSystem._load_rating_thresholds
         [ mkRatingSettings "poor" "Плохо" 10 "red";
           mkRatingSettings "good" "Хорошо" 35 "blue" ]) 5 = Some b /\
    In b (RatingSystem._load_rating_thresholds
            [ mkRatingSettings "poor" "Плохо" 10 "red";
              mkRatingSettings "good" "Хорошо" 35 "blue" ]) /\
    forall b', In b' (RatingSystem._load_rating_thresholds
                        [ mkRatingSettings "poor" "Плохо" 10 "red";
                          mkRatingSettings "good" "Хорошо" 35 "blue" ]) ->
               min_score b <= min_score b'.
Proof.
  apply (unreached_bands_fall_back_to_lowest
           [ mkRatingSettings "poor" "Плохо" 10 "red";
             mkRatingSettings "good" "Хорошо" 35 "blue" ] 5).
  intros b' Hin. cbv in Hin.
  destruct Hin as [<-|[<-|[]]]; reflexivity.
Defined.

(** X3.  With the thresholds the rating system loads, [get_curator_rating]
    never fails: it returns the name, label and colour of one loaded band
    together with the total score, which is not negative. *)
Theorem get_curator_rating_returns_loaded_band :
  forall (config : GlobalRatingConfig) (rows : list RatingSettings)
         (activities : list Activities) (trackings : list ResponseTracking)
         (now curator days : Z),
    exists rating band,
      RatingSystem.get_curator_rating config
        (RatingSystem._load_rating_thresholds rows) activities trackings now
        curator days = Some rating /\
      In band (RatingSystem._load_rating_thresholds rows) /\
      RatingSystem.cr_rating_name rating = rating_name band /\
      RatingSystem.cr_rating_text rating = rating_text band /\
      RatingSystem.cr_rating_color rating = color band /\
      RatingSystem.cr_score rating =
        RatingSystem.total_score
          (RatingSystem.calculate_curator_score config activities trackings now
             curator days) /\
      0 <= RatingSystem.cr_score rating.
Proof.
  intros config rows activities trackings now curator days.
  unfold RatingSystem.get_curator_rating.
  destruct (select_rating_some (RatingSystem._load_rating_thresholds rows)
              (RatingSystem.total_score
                 (RatingSystem.calculate_curator_score config activities trackings
                    now curator days))
              (load_rating_thresholds_nonempty rows)) as [band Hband].
  rewrite Hband. eexists. exists band.
  split; [reflexivity|]. split; [now apply select_rating_in in Hband|].
  cbn [RatingSystem.cr_rating_name RatingSystem.cr_rating_text
       RatingSystem.cr_rating_color RatingSystem.cr_score].
  repeat split.
  apply total_score_nonneg.
Qed.

(** ** rating_system.py: bounds and order independence of the score *)

Section ScoreOrder.

Import RatingSystem.
Variable config : GlobalRatingConfig.

Lemma count_where_le {A : Type} (p : A -> bool) (l : list A) :
  0 <= count_where p l <= Z.of_nat (List.length l).
Proof.
  unfold count_where. pose proof (filter_length_le p l). lia.
Qed.

Lemma fast_slow_le (rs : list ResponseTracking) :
  count_where (is_fast config) rs + count_where (is_slow config) rs
  <= Z.of_nat (List.length rs).
Proof.
  unfold count_where. induction rs as [|r rs IH]; cbn [filter List.length]; [lia|].
  destruct (is_fast config r) eqn:Ef.
  - rewrite (fast_not_slow config r Ef). cbn [List.length]. lia.
  - destruct (is_slow config r); cbn [List.length]; lia.
Qed.

Lemma filter_perm {A : Type} (p : A -> bool) (l l' : list A) :
  Permutation l l' -> Permutation (filter p l) (filter p l').
Proof.
  induction 1 as [|x l l' H IH|x y l|l l' l'' H1 IH1 H2 IH2]; cbn [filter].
  - constructor.
  - destruct (p x); [now constructor | exact IH].
  - destruct (p x), (p y); try apply Permutation_refl. apply perm_swap.
  - eapply perm_trans; eassumption.
Qed.

Lemma fold_left_perm {A B : Type} (f : A -> B -> A) :
  (forall acc x y, f (f acc x) y = f (f acc y) x) ->
  forall l l', Permutation l l' ->
  forall acc, fold_left f l acc = fold_left f l' acc.
Proof.
  intros Hcomm l l'.
  induction 1 as [|x l l' H IH|x y l|l l' l'' H1 IH1 H2 IH2]; intro acc;
    cbn [fold_left].
  - reflexivity.
  - apply IH.
  - now rewrite Hcomm.
  - now rewrite IH1, IH2.
Qed.

Lemma response_time_step_comm (b : Z) (x y : ResponseTracking) :
  response_time_step config (response_time_step config b x) y =
  response_time_step config (response_time_step config b y) x.
Proof. rewrite !response_time_step_cases. lia. Qed.

Lemma activity_step_comm (acc : Z * ActivityCounts) (x y : Activities) :
  activity_step config (activity_step config acc x) y =
  activity_step config (activity_step config acc y) x.
Proof.
  destruct acc as [score counts]. unfold activity_step.
  destruct (String.eqb (act_type x) "message"),
           (String.eqb (act_type x) "reaction"),
           (String.eqb (act_type x) "reply"),
           (String.eqb (act_type x) "task_verification"),
           (String.eqb (act_type y) "message"),
           (String.eqb (act_type y) "reaction"),
           (String.eqb (act_type y) "reply"),
           (String.eqb (act_type y) "task_verification");
    cbn [count_message count_reaction count_reply count_task_verification];
    try reflexivity; f_equal; try lia; f_equal; lia.
Qed.

Lemma bonus_perm (trackings trackings' : list ResponseTracking) (now curator days : Z) :
  Permutation trackings trackings' ->
  calculate_response_time_bonus config trackings now curator days =
  calculate_response_time_bonus config trackings' now curator days.
Proof.
  intro H. rewrite !calculate_response_time_bonus_counts. unfold count_where.
  assert (Hp : Permutation (responses_in_period trackings now curator days)
                 (responses_in_period trackings' now curator days)).
  { unfold responses_in_period.
    destruct (period_start now days); [apply filter_perm, H | constructor]. }
  rewrite (Permutation_length (filter_perm (is_fast config) _ _ Hp)).
  rewrite (Permutation_length (filter_perm (is_slow config) _ _ Hp)).
  reflexivity.
Qed.

Lemma fold_right_points_app (l1 l2 : list Activities) :
  fold_right (fun a s => type_points config (act_type a) + s) 0 (l1 ++ l2) =
  fold_right (fun a s => type_points config (act_type a) + s) 0 l1
  + fold_right (fun a s => type_points config (act_type a) + s) 0 l2.
Proof. induction l1 as [|a l1 IH]; cbn [app fold_right]; lia. Qed.

End ScoreOrder.

(** X4.  The response-time bonus of a curator lies between minus the number
    of the responses counted for the period and twice that number. *)
Theorem response_time_bonus_bounds :
  forall (config : GlobalRatingConfig) (trackings : list ResponseTracking)
         (now curator days : Z),
    let n := Z.of_nat (List.length
                         (RatingSystem.responses_in_period trackings now curator days)) in
    - n <= RatingSystem.calculate_response_time_bonus config trackings now curator days
        <= 2 * n.
Proof.
  intros config trackings now curator days n.
  rewrite calculate_response_time_bonus_counts.
  pose proof (fast_slow_le config
                (RatingSystem.responses_in_period trackings now curator days)).
  pose proof (count_where_le (is_fast config)
                (RatingSystem.responses_in_period trackings now curator days)).
  pose proof (count_where_le (is_slow config)
                (RatingSystem.responses_in_period trackings now curator days)).
  unfold n. lia.
Qed.

(** X5.  The score does not depend on the order in which the activity and
    tracking queries return their rows: permuted tables give the same score
    data, counts included. *)
Theorem score_independent_of_row_order :
  forall (config : GlobalRatingConfig) (activities activities' : list Activities)
         (trackings trackings' : list ResponseTracking) (now curator days : Z),
    Permutation activities activities' ->
    Permutation trackings trackings' ->
    RatingSystem.calculate_curator_score config activities trackings now curator days =
    RatingSystem.calculate_curator_score config activities' trackings' now curator days.
Proof.
  intros config activities activities' trackings trackings' now curator days Ha Ht.
  unfold RatingSystem.calculate_curator_score.
  rewrite (bonus_perm config trackings trackings' now curator days Ht).
  assert (Hf : fold_left (RatingSystem.activity_step config)
                 (RatingSystem.activities_in_period activities now curator days)
                 (0, RatingSystem.no_activity) =
               fold_left (RatingSystem.activity_step config)
                 (RatingSystem.activities_in_period activities' now curator days)
                 (0, RatingSystem.no_activity)).
  { apply fold_left_perm; [apply activity_step_comm|].
    unfold RatingSystem.activities_in_period.
    destruct (period_start now days); [apply filter_perm, Ha | constructor]. }
  now rewrite Hf.
Qed.

Lemma score_independent_of_row_order_witness :
  RatingSystem.calculate_curator_score RatingSystem.default_rating_config
    [ mkActivities 1 1 "message" (seconds 1500);
      mkActivities 1 1 "reaction" (seconds 1600) ]
    [ Scenario.answered (Some 45); Scenario.answered (Some 400) ]
    (seconds 2000) 1 30 =
  RatingSystem.calculate_curator_score RatingSystem.default_rating_config
    [ mkActivities 1 1 "reaction" (seconds 1600);
      mkActivities 1 1 "message" (seconds 1500) ]
    [ Scenario.answered (Some 400); Scenario.answered (Some 45) ]
    (seconds 2000) 1 30.
Proof.
  apply score_independent_of_row_order; apply perm_swap.
Defined.

(** X6.  For a period whose start can be represented, one more activity
    row changes the base score of a curator by the points of its type when
    it belongs to the curator and lies in the period, whatever its place in
    the table; a row of an unknown type adds nothing.  A row of another
    curator or outside the period leaves the score data untouched, and so
    does every row when the start of the period cannot be represented. *)
Theorem activity_contribution :
  forall (config : GlobalRatingConfig) (before after : list Activities)
         (a : Activities) (trackings : list ResponseTracking) (now curator days : Z),
    let score acts :=
      RatingSystem.calculate_curator_score config acts trackings now curator days in
    (act_curator_id a = curator -> in_period now days (act_timestamp a) ->
     RatingSystem.base_score (score (before ++ a :: after)) =
       RatingSystem.base_score (score (before ++ after))
       + type_points config (act_type a) /\
     RatingSystem.response_bonus (score (before ++ a :: after)) =
       RatingSystem.response_bonus (score (before ++ after))) /\
    (act_curator_id a <> curator \/ ~ in_period now days (act_timestamp a) ->
     score (before ++ a :: after) = score (before ++ after)) /\
    (period_start now days = None ->
     score (before ++ a :: after) = score (before ++ after) /\
     RatingSystem.base_score (score (before ++ a :: after)) = 0).
Proof.
  intros config before after a trackings now curator days score.
  split; [|split].
  - intros Hc Hp. unfold score. unfold in_period in Hp.
    destruct (period_start now days) as [start|] eqn:Ep; [|contradiction]. split.
    + rewrite !base_score_sum. unfold RatingSystem.activities_in_period.
      rewrite Ep, !filter_app. cbn [filter].
      replace (act_curator_id a =? curator) with true
        by (symmetry; now apply Z.eqb_eq).
      replace (start <=? act_timestamp a) with true
        by (symmetry; apply Z.leb_le; lia).
      replace (act_timestamp a <=? now) with true
        by (symmetry; apply Z.leb_le; lia).
      cbn [andb]. rewrite !fold_right_points_app. cbn [fold_right]. lia.
    + unfold RatingSystem.calculate_curator_score. rewrite Ep.
      do 2 destruct (fold_left _ _ _). reflexivity.
  - intro Hout. unfold score, RatingSystem.calculate_curator_score.
    assert (E : RatingSystem.activities_in_period (before ++ a :: after) now curator days
                = RatingSystem.activities_in_period (before ++ after) now curator days).
    { unfold RatingSystem.activities_in_period. unfold in_period in Hout.
      destruct (period_start now days) as [start|]; [|reflexivity].
      rewrite !filter_app. cbn [filter].
      destruct Hout as [Hc|Hp].
      - replace (act_curator_id a =? curator) with false
          by (symmetry; now apply Z.eqb_neq).
        reflexivity.
      - destruct (start <=? act_timestamp a) eqn:E1;
          [|now rewrite andb_false_r].
        destruct (act_timestamp a <=? now) eqn:E2; [|now rewrite andb_false_r].
        apply Z.leb_le in E1, E2. exfalso. apply Hp. lia. }
    now rewrite E.
  - intro Ep. unfold score, RatingSystem.calculate_curator_score.
    rewrite Ep. split; reflexivity.
Qed.

Lemma activity_contribution_witness :
  RatingSystem.base_score
    (RatingSystem.calculate_curator_score RatingSystem.default_rating_config
       ([mkActivities 1 1 "reaction" (seconds 1600)]
        ++ mkActivities 1 1 "task_verification" (seconds 1500)
        :: [mkActivities 2 1 "message" (seconds 1700)])
       [] (seconds 2000) 1 30) =
  RatingSystem.base_score
    (RatingSystem.calculate_curator_score RatingSystem.default_rating_config
       ([mkActivities 1 1 "reaction" (seconds 1600)]
        ++ [mkActivities 2 1 "message" (seconds 1700)])
       [] (seconds 2000) 1 30)
  + type_points RatingSystem.default_rating_config "task_verification".
Proof.
  destruct (activity_contribution RatingSystem.default_rating_config
              [mkActivities 1 1 "reaction" (seconds 1600)]
              [mkActivities 2 1 "message" (seconds 1700)]
              (mkActivities 1 1 "task_verification" (seconds 1500))
              [] (seconds 2000) 1 30) as [H _].
  apply H.
  - reflexivity.
  - cbv. split; discriminate.
Defined.

(** ** rating_system.py: size of the leaderboard, average response time *)

Section BoardAndAverage.

Import RatingSystem.

Lemma filter_middle {A : Type} (a b c : A -> bool) (l : list A) :
  filter (fun x => a x && b x && c x) l = filter b (filter (fun x => a x && c x) l).
Proof.
  induction l as [|x l IH]; [reflexivity|].
  cbn [filter]. rewrite IH.
  destruct (a x), (b x) eqn:Eb, (c x); cbn [andb filter]; rewrite ?Eb; reflexivity.
Qed.

Lemma filter_latency_split (now curator days start : Z)
    (trackings : list ResponseTracking) :
  period_start now days = Some start ->
  filter (fun r =>
            opt_eqb (curator_id r) curator &&
            negb (is_none (response_time_seconds r)) &&
            match response_timestamp r with
            | Some ts => (start <=? ts) && (ts <=? now)
            | None => false
            end) trackings =
  filter (fun r => negb (is_none (response_time_seconds r)))
    (responses_in_period trackings now curator days).
Proof.
  intro Ep. unfold responses_in_period. rewrite Ep.
  apply (filter_middle
           (fun r => opt_eqb (curator_id r) curator)
           (fun r => negb (is_none (response_time_seconds r)))
           (fun r => match response_timestamp r with
                     | Some ts => (start <=? ts) && (ts <=? now)
                     | None => false
                     end)).
Qed.

Lemma stored_latencies_filter (rs : list ResponseTracking) :
  stored_latencies rs =
  map latency (filter (fun r => negb (is_none (response_time_seconds r))) rs).
Proof.
  unfold stored_latencies, latency.
  induction rs as [|r rs IH]; [reflexivity|].
  cbn [flat_map filter].
  destruct (response_time_seconds r) eqn:E;
    cbn [is_none negb app map]; rewrite ?E; cbn [or_zero]; now rewrite IH.
Qed.

Lemma total_time_sum (rs : list ResponseTracking) (acc : Z) :
  fold_left (fun acc r => acc + match response_time_seconds r with
                                | Some t => t
                                | None => 0
                                end) rs acc =
  acc + fold_right Z.add 0 (map latency rs).
Proof.
  revert acc. induction rs as [|r rs IH]; intro acc; cbn [fold_left map fold_right].
  - lia.
  - rewrite IH. unfold latency, or_zero. lia.
Qed.

Lemma sum_between (lo hi : Z) (l : list Z) :
  (forall t, In t l -> lo <= t <= hi) ->
  Z.of_nat (List.length l) * lo <= fold_right Z.add 0 l
  <= Z.of_nat (List.length l) * hi.
Proof.
  induction l as [|t l IH]; intro H; cbn [List.length fold_right].
  - lia.
  - pose proof (H t (or_introl eq_refl)).
    assert (Hl : forall t', In t' l -> lo <= t' <= hi)
      by (intros t' Ht'; apply H; now right).
    specialize (IH Hl). rewrite Nat2Z.inj_succ. lia.
Qed.

End BoardAndAverage.

(** X7.  With the loaded thresholds the leaderboard never fails and holds
    [min(limit, n)] entries for a non-negative limit and [max(0, n + limit)]
    entries for a negative one, [n] being the number of active curators. *)
Theorem leaderboard_length :
  forall (config : GlobalRatingConfig) (rows : list RatingSettings)
         (curators : list Curators) (activities : list Activities)
         (trackings : list ResponseTracking) (limit now days : Z),
    let n := Z.of_nat (List.length (RatingSystem.active_curators curators)) in
    Z.of_nat (List.length
                (RatingSystem.get_top_curators config
                   (RatingSystem._load_rating_thresholds rows) curators activities
                   trackings limit now days)) =
    if limit <? 0 then Z.max 0 (n + limit) else Z.min limit n.
Proof.
  intros config rows curators activities trackings limit now days n.
  destruct (rate_curators_total config (RatingSystem._load_rating_thresholds rows)
              activities trackings now days
              (RatingSystem.active_curators curators)
              (load_rating_thresholds_nonempty rows))
    as (entries & Hrate & Hmap & _).
  unfold RatingSystem.get_top_curators. rewrite Hrate.
  assert (Hlen : List.length (sort_desc RatingSystem.le_score entries) =
                 List.length (RatingSystem.active_curators curators)).
  { rewrite <- (Permutation_length (sort_desc_perm RatingSystem.le_score entries)).
    rewrite <- Hmap. symmetry. apply length_map. }
  unfold py_slice_to. rewrite Hlen. fold n.
  destruct (limit <? 0) eqn:E; rewrite length_firstn, Hlen.
  - apply Z.ltb_lt in E. unfold n. lia.
  - apply Z.ltb_ge in E. unfold n. lia.
Qed.

(** X8.  The average response time of a curator is undefined when no
    response of the period has a stored latency, in particular when the
    start of the period cannot be represented.  Otherwise it counts the
    responses with a stored latency, and, their sum being below 2^53 in
    magnitude, so that the division is exact in a double, its value is the
    truncated quotient of their sum by their number and lies between any two
    bounds that hold for all of them. *)
Theorem average_response_time_spec :
  forall (trackings : list ResponseTracking) (now curator days : Z),
    let counted :=
      stored_latencies (RatingSystem.responses_in_period trackings now curator days) in
    (counted = [] ->
     RatingSystem.get_average_response_time trackings now curator days = None) /\
    (period_start now days = None -> counted = []) /\
    (counted <> [] ->
     Z.abs (fold_right Z.add 0 counted) < 2 ^ 53 ->
     exists avg,
       RatingSystem.get_average_response_time trackings now curator days = Some avg /\
       RatingSystem.response_count avg = Z.of_nat (List.length counted) /\
       RatingSystem.average_seconds avg =
         Z.quot (fold_right Z.add 0 counted) (Z.of_nat (List.length counted)) /\
       forall lo hi,
         (forall t, In t counted -> lo <= t <= hi) ->
         lo <= RatingSystem.average_seconds avg <= hi).
Proof.
  intros trackings now curator days counted.
  assert (Hnone : period_start now days = None -> counted = []).
  { intro Ep. unfold counted, RatingSystem.responses_in_period. now rewrite Ep. }
  unfold RatingSystem.get_average_response_time.
  destruct (period_start now days) as [start|] eqn:Ep.
  - rewrite (filter_latency_split now curator days start trackings Ep).
    unfold counted. rewrite stored_latencies_filter.
    set (rs := filter (fun r => negb (is_none (response_time_seconds r)))
                 (RatingSystem.responses_in_period trackings now curator days)).
    split; [|split].
    + intro H. destruct rs; [reflexivity | discriminate H].
    + discriminate.
    + intros H _. destruct rs as [|r rs'] eqn:E; [now contradiction H|].
      rewrite <- E in *. clear E.
      eexists. split; [reflexivity|].
      cbn [RatingSystem.response_count RatingSystem.average_seconds].
      rewrite length_map, total_time_sum, Z.add_0_l.
      split; [reflexivity|]. split; [reflexivity|].
      intros lo hi Hb.
      pose proof (sum_between lo hi (map latency rs) Hb) as Hs.
      rewrite length_map in Hs.
      assert (Hn : 0 < Z.of_nat (List.length rs)).
      { destruct rs; [now contradiction H | cbn [List.length]; lia]. }
      split.
      * apply Z.quot_le_lower_bound; [exact Hn | lia].
      * apply Z.quot_le_upper_bound; [exact Hn | lia].
  - split; [reflexivity|]. split; [exact Hnone|].
    intro H. exfalso. apply H. now apply Hnone.
Qed.

Lemma average_response_time_spec_witness :
  exists avg,
    RatingSystem.get_average_response_time
      [ Scenario.answered (Some 45); Scenario.answered None;
        Scenario.answered (Some 400) ] (seconds 2000) 1 30 = Some avg /\
    RatingSystem.response_count avg = 2 /\
    40 <= RatingSystem.average_seconds avg <= 400.
Proof.
  destruct (average_response_time_spec
              [ Scenario.answered (Some 45); Scenario.answered None;
                Scenario.answered (Some 400) ] (seconds 2000) 1 30) as (_ & _ & H).
  destruct H as (avg & Havg & Hcount & _ & Hbounds);
    [discriminate | reflexivity |].
  exists avg. split; [exact Havg|]. split; [exact Hcount|].
  apply Hbounds. intros t Ht. cbv in Ht.
  destruct Ht as [<-|[<-|[]]]; split; discriminate.
Defined.

(** ** discord_bot.py: what an action, a request and a check change *)

Section TrackingShape.

Import Bot.

Lemma update_first_split {A : Type} (p : A -> bool) (f : A -> A) (l : list A) :
  (find p l = None /\ update_first p f l = l) \/
  exists l1 x l2,
    l = l1 ++ x :: l2 /\ p x = true /\ (forall y, In y l1 -> p y = false) /\
    update_first p f l = l1 ++ f x :: l2.
Proof.
  induction l as [|y r IH]; cbn [find update_first]; [now left|].
  destruct (p y) eqn:E.
  - right. exists [], y, r. repeat split; auto. intros z [].
  - destruct IH as [[Hn ->]|(l1 & x & l2 & -> & Hp & Hl1 & ->)]; [now left|].
    right. exists (y :: l1), x, l2. repeat split; auto.
    intros z [<-|Hz]; [exact E | now apply Hl1].
Qed.

Lemma update_first_at {A : Type} (p : A -> bool) (f : A -> A) (l : list A) (x : A) :
  find p l = Some x ->
  exists l1 l2,
    l = l1 ++ x :: l2 /\ Forall (fun y => p y = false) l1 /\ p x = true /\
    update_first p f l = l1 ++ f x :: l2.
Proof.
  induction l as [|y r IH]; cbn [find update_first]; [discriminate|].
  destruct (p y) eqn:E.
  - intros [= ->]. exists [], r. repeat split; auto.
  - intro H. destruct (IH H) as (l1 & l2 & -> & Hl1 & Hp & ->).
    exists (y :: l1), l2. repeat split; auto.
Qed.

Lemma update_first_keeps {A : Type} (p : A -> bool) (f : A -> A) (l : list A) (x : A) :
  In x l -> p x = false -> In x (update_first p f l).
Proof.
  induction l as [|y r IH]; cbn [update_first]; [tauto|].
  intros [<-|Hin] Hp.
  - rewrite Hp. now left.
  - destruct (p y); right; [exact Hin | now apply IH].
Qed.

Lemma create_response_tracking_prefix st now m srv :
  exists suffix,
    trackings (create_response_tracking st now m srv) = trackings st ++ suffix.
Proof.
  unfold create_response_tracking.
  destruct (find _ (trackings st)).
  - exists []. now rewrite app_nil_r.
  - eexists. reflexivity.
Qed.

Lemma step_keeps_resolved st e t :
  In t (trackings st) -> is_resolved t = true -> In t (trackings (step st e)).
Proof.
  intros Hin Hres. destruct e; cbn [step].
  - destruct (create_response_tracking_prefix st now message server) as [suffix ->].
    apply in_or_app. now left.
  - now rewrite update_response_tracking_unchanged.
  - now rewrite wake_trackings.
Qed.

Lemma step_mention_prefix st e :
  exists suffix,
    map mention_part (trackings (step st e)) =
    map mention_part (trackings st) ++ suffix.
Proof.
  destruct e; cbn [step].
  - destruct (create_response_tracking_prefix st now message server) as [suffix ->].
    exists (map mention_part suffix). apply map_app.
  - exists []. now rewrite app_nil_r, update_response_tracking_unchanged.
  - exists []. now rewrite app_nil_r, wake_trackings.
Qed.

Lemma create_response_tracking_consistent st now m srv :
  Forall response_consistent (trackings st) ->
  Forall response_consistent (trackings (create_response_tracking st now m srv)).
Proof.
  intro H. unfold create_response_tracking.
  destruct (find _ (trackings st)); [exact H|].
  cbn [schedule_notification_check trackings].
  apply Forall_app. split; [exact H|].
  constructor; [|constructor].
  unfold response_consistent. cbn. repeat split.
Qed.

Lemma update_response_tracking_consistent st now m c ty :
  Forall response_consistent (trackings st) ->
  Forall response_consistent (trackings (update_response_tracking st now m c ty)).
Proof.
  now rewrite update_response_tracking_unchanged.
Qed.

Lemma run_consistent (events : list Event) (st : BotState) :
  Forall response_consistent (trackings st) ->
  Forall response_consistent (trackings (run st events)).
Proof.
  revert st. induction events as [|e events IH]; intros st Hst; cbn [run fold_left].
  - exact Hst.
  - apply IH. destruct e; cbn [step].
    + now apply create_response_tracking_consistent.
    + now apply update_response_tracking_consistent.
    + now rewrite wake_trackings.
Qed.

End TrackingShape.

(** X9.  A resolved row is final: whatever help requests, curator actions
    and checks follow, the row stays in the tracking table exactly as it
    is. *)
Theorem resolved_row_is_final :
  forall (st : Bot.BotState) (events : list Bot.Event) (t : ResponseTracking),
    In t (Bot.trackings st) ->
    is_resolved t = true ->
    In t (Bot.trackings (Bot.run st events)).
Proof.
  intros st events. revert st.
  induction events as [|e events IH]; intros st t Hin Hres; cbn [Bot.run fold_left].
  - exact Hin.
  - apply IH; [|exact Hres]. now apply step_keeps_resolved.
Qed.

Lemma resolved_row_is_final_witness :
  In (Scenario.answered (Some 45))
     (Bot.trackings
        (Bot.run Scenario.answered_state
           [ Bot.HelpRequest (seconds 3000) Scenario.alice_help_msg Scenario.lspd;
             Bot.CuratorAction (seconds 3100) Scenario.alice_late_msg Scenario.bob
               "message";
             Bot.TimerWake (seconds 3600) 2 true ])).
Proof.
  apply resolved_row_is_final.
  - left. reflexivity.
  - reflexivity.
Defined.

(** X10.  A curator action records no response.  The response time is the
    aware creation time of the message minus the naive mention time of the
    row found, which raises, and the action is rolled back: the state after
    [update_response_tracking] is the state before it.  So in every state
    the bot reaches from its empty tracking table, every row is unresolved
    and none of its response columns is set. *)
Theorem action_records_no_response :
  (forall (st : Bot.BotState) (now : Z) (msg : Message) (cur : Curators)
          (rtype : string),
      Bot.update_response_tracking st now msg cur rtype = st) /\
  (forall (srvs : list DiscordServers) (timeout : option Z) (events : list Bot.Event),
      Forall (fun t => is_resolved t = false /\
                       curator_id t = None /\
                       response_message_id t = None /\
                       response_timestamp t = None /\
                       response_type t = None /\
                       response_time_seconds t = None)
        (Bot.trackings (Bot.run (Bot.initial srvs timeout) events))).
Proof.
  split.
  - intros. apply update_response_tracking_unchanged.
  - intros srvs timeout events.
    pose proof (run_consistent events (Bot.initial srvs timeout)
                  (Forall_nil response_consistent)) as Hcons.
    destruct (run_appends events (Bot.initial srvs timeout)) as (suffix & E & Hopen).
    cbn [Bot.initial Bot.trackings app] in E. rewrite E in *.
    rewrite Forall_forall in *. intros t Hin.
    specialize (Hcons t Hin). destruct (Hopen t Hin) as [Hnot _].
    unfold response_consistent in Hcons. rewrite Hnot in Hcons.
    split; [exact Hnot | exact Hcons].
Qed.

(** X11.  A row whose mention is more than two hours older than the time of
    the action, or whose server is not a server row of the guild of the
    action, is left as it is by that action. *)
Theorem action_skips_old_and_foreign_rows :
  forall (st : Bot.BotState) (now : Z) (msg : Message) (cur : Curators)
         (rtype : string) (t : ResponseTracking),
    In t (Bot.trackings st) ->
    mention_timestamp t < now - timedelta_hours 2 \/
    (forall s, In s (Bot.servers st) -> srv_id s = server_id t ->
               srv_server_id s <> msg_guild_id msg) ->
    In t (Bot.trackings (Bot.update_response_tracking st now msg cur rtype)).
Proof.
  intros st now msg cur rtype t Hin Hskip.
  destruct (find (Bot.open_in_guild (Bot.servers st) (now - timedelta_hours 2)
                    (msg_guild_id msg)) (Bot.trackings st)) as [found|] eqn:E.
  - assert (Hother : Bot.open_in_guild (Bot.servers st) (now - timedelta_hours 2)
                       (msg_guild_id msg) t = false).
    { unfold Bot.open_in_guild.
      destruct Hskip as [Hold|Hforeign].
      - replace (now - timedelta_hours 2 <=? mention_timestamp t) with false
          by (symmetry; apply Z.leb_gt; lia).
        reflexivity.
      - destruct (existsb _ (Bot.servers st)) eqn:Es; [|now rewrite andb_false_r].
        apply existsb_exists in Es. destruct Es as (s & Hs & Hm).
        apply andb_true_iff in Hm. destruct Hm as [H1 H2].
        apply Z.eqb_eq in H1, H2. exfalso. now apply (Hforeign s Hs H1). }
    unfold Bot.update_response_tracking. rewrite E.
    destruct (datetime_sub _ _); [|exact Hin].
    cbn [Bot.trackings]. now apply update_first_keeps.
  - unfold Bot.update_response_tracking. now rewrite E.
Qed.

Lemma action_skips_old_and_foreign_rows_witness :
  let st := Bot.run Scenario.start
              [Bot.HelpRequest (seconds 1000) Scenario.help_msg Scenario.lspd] in
  In {| rt_id := 1; server_id := 1; curator_id := None;
        mention_message_id := 100; mention_timestamp := seconds 1000;
        mention_content := "need help"; mention_author_id := Some 900;
        mention_author_name := "citizen"; response_message_id := None;
        response_timestamp := None; response_type := None;
        response_time_seconds := None; is_resolved := false |}
     (Bot.trackings
        (Bot.update_response_tracking st (seconds 8201) Scenario.alice_late_msg
           Scenario.alice "message")).
Proof.
  apply action_skips_old_and_foreign_rows.
  - cbv. left. reflexivity.
  - left. reflexivity.
Defined.

(** X12.  In every state the bot reaches from its empty tracking table, a
    row is either open with none of its response columns set, or resolved
    with curator, response message, response time and type all set and a
    latency equal to the truncated difference between response and mention
    timestamps. *)
Theorem reachable_rows_are_consistent :
  forall (srvs : list DiscordServers) (timeout : option Z) (events : list Bot.Event),
    Forall response_consistent
      (Bot.trackings (Bot.run (Bot.initial srvs timeout) events)).
Proof.
  intros srvs timeout events. apply run_consistent. constructor.
Qed.

(** X13.  Rows are never deleted and the mention part of a row never
    changes: after any events the table starts with the same ids, servers,
    message ids, timestamps, texts and authors as before. *)
Theorem mention_part_is_kept :
  forall (st : Bot.BotState) (events : list Bot.Event),
    exists suffix,
      map mention_part (Bot.trackings (Bot.run st events)) =
      map mention_part (Bot.trackings st) ++ suffix.
Proof.
  intros st events. revert st.
  induction events as [|e events IH]; intro st; cbn [Bot.run fold_left].
  - exists []. now rewrite app_nil_r.
  - destruct (IH (Bot.step st e)) as [s2 H2].
    destruct (step_mention_prefix st e) as [s1 H1].
    exists (s1 ++ s2). fold (Bot.run (Bot.step st e) events).
    now rewrite H2, H1, app_assoc.
Qed.

(** ** discord_bot.py: checks that send nothing, checks that are not due *)

Section SilentChecks.

Import Bot.

Lemma wake_checked_ids st now j ch (i : Z) :
  In i (checked_ids (wake st now j ch)) -> In i (checked_ids st).
Proof.
  unfold wake. destruct (existsb _ _) eqn:E; [|auto].
  destruct (remove_first_split _ _ E) as (l1 & x & l2 & Hl & Hx & Hrm).
  match goal with
  | |- In i (checked_ids (notification_check ?s _ _ _)) -> _ =>
      destruct (notification_check_frame s now j ch) as (_ & _ & Hpc & _ & Hnt)
  end.
  cbn [pending_checks notifications] in Hpc, Hnt.
  unfold is_due in Hx. apply andb_true_iff in Hx. destruct Hx as [Hx _].
  apply Z.eqb_eq in Hx.
  unfold checked_ids.
  destruct Hnt as [Hnt | (n & Hnt & Hn)]; rewrite Hpc, Hnt, Hrm, Hl, !map_app;
    cbn [map]; rewrite ?Hn, Hx, !in_app_iff; cbn [In]; tauto.
Qed.

Lemma wake_consumes_check st now i ch :
  one_check_per_record st ->
  existsb (is_due now i) (pending_checks st) = true ->
  notifications (wake st now i ch) = notifications st ->
  i < next_id (trackings st) /\ ~ In i (checked_ids (wake st now i ch)).
Proof.
  intros [Hnd Hall] Hdue Hsilent.
  destruct (remove_first_split _ _ Hdue) as (l1 & x & l2 & Hl & Hx & Hrm).
  unfold is_due in Hx. apply andb_true_iff in Hx. destruct Hx as [Hx _].
  apply Z.eqb_eq in Hx.
  assert (Hpc : pending_checks (wake st now i ch) = l1 ++ l2).
  { unfold wake. rewrite Hdue.
    match goal with
    | |- pending_checks (notification_check ?s _ _ _) = _ =>
        destruct (notification_check_frame s now i ch) as (_ & _ & -> & _)
    end.
    exact Hrm. }
  unfold checked_ids in *. rewrite Hl, map_app in Hnd, Hall. cbn [map] in Hnd, Hall.
  rewrite Hx in Hnd, Hall. split.
  - rewrite Forall_forall in Hall. apply Hall.
    rewrite !in_app_iff. cbn [In]. tauto.
  - rewrite Hpc, Hsilent, map_app.
    rewrite <- app_assoc in Hnd. cbn [app] in Hnd.
    apply NoDup_remove_2 in Hnd. now rewrite app_assoc in Hnd.
Qed.

Lemma step_never_checked st e (i : Z) :
  i < next_id (trackings st) -> ~ In i (checked_ids st) ->
  i < next_id (trackings (step st e)) /\ ~ In i (checked_ids (step st e)).
Proof.
  intros Hlt Hnot. destruct e; cbn [step].
  - unfold create_response_tracking.
    destruct (find _ (trackings st)); [now split|].
    unfold checked_ids, schedule_notification_check.
    cbn [pending_checks notifications trackings rt_id].
    rewrite next_id_app_last by reflexivity. split; [lia|].
    rewrite map_app. cbn [map fst]. unfold checked_ids in Hnot.
    rewrite !in_app_iff in *. cbn [In]. intros [[H|[H|[]]]|H]; try tauto. lia.
  - now rewrite update_response_tracking_unchanged.
  - rewrite wake_trackings. split; [exact Hlt|].
    intro H. apply Hnot. eapply wake_checked_ids, H.
Qed.

Lemma run_never_checked events st (i : Z) :
  i < next_id (trackings st) -> ~ In i (checked_ids st) ->
  ~ In i (checked_ids (run st events)).
Proof.
  revert st. induction events as [|e events IH]; intros st Hlt Hnot;
    cbn [run fold_left]; [exact Hnot|].
  destruct (step_never_checked st e i Hlt Hnot) as [Hlt' Hnot'].
  now apply IH.
Qed.

Lemma not_due_yet (pending : list (Z * Z)) (now i due : Z) :
  Forall (fun j => j < i) (map fst pending) -> now < due ->
  existsb (is_due now i) (pending ++ [(i, due)]) = false.
Proof.
  intros Hall Hlt. rewrite existsb_app. cbn [existsb]. unfold is_due at 2.
  cbn [fst snd]. replace (due <=? now) with false by (symmetry; apply Z.leb_gt; lia).
  rewrite andb_false_r, orb_false_r.
  induction pending as [|x pending IH]; [reflexivity|].
  cbn [map] in Hall. inversion Hall as [|? ? Hx Hrest]; subst.
  cbn [existsb]. rewrite (IH Hrest). unfold is_due.
  replace (fst x =? i) with false by (symmetry; apply Z.eqb_neq; lia).
  reflexivity.
Qed.

End SilentChecks.

(** X14.  A check that runs without sending, because the notification
    channel is not found or because the row has been resolved in the
    meantime, is not repeated: whatever events follow, no notification is
    ever sent for that row. *)
Theorem silent_check_is_final :
  forall (srvs : list DiscordServers) (timeout : option Z)
         (history events : list Bot.Event) (now i : Z) (channel_found : bool),
    let st := Bot.run (Bot.initial srvs timeout) history in
    existsb (Bot.is_due now i) (Bot.pending_checks st) = true ->
    channel_found = false \/
    (exists t, find (fun t => rt_id t =? i) (Bot.trackings st) = Some t /\
               is_resolved t = true) ->
    ~ In i (map Bot.ntf_tracking_id
              (Bot.notifications
                 (Bot.run (Bot.wake st now i channel_found) events))).
Proof.
  intros srvs timeout history events now i ch st Hdue Hwhy.
  assert (Hinv : one_check_per_record st).
  { apply run_checks. split; constructor. }
  destruct (wake_consumes_check st now i ch Hinv Hdue (wake_silent st now i ch Hwhy))
    as [Hlt Hnot].
  rewrite <- (wake_trackings st now i ch) in Hlt.
  pose proof (run_never_checked events _ i Hlt Hnot) as H.
  intro Hin. apply H. unfold checked_ids. apply in_or_app. now right.
Qed.

Lemma silent_check_is_final_witness :
  ~ In 1 (map Bot.ntf_tracking_id
            (Bot.notifications
               (Bot.run
                  (Bot.wake (Bot.run (Bot.initial [Scenario.lspd] None)
                               Scenario.self_response_events)
                     (seconds 1600) 1 false)
                  [ Bot.TimerWake (seconds 1700) 1 true;
                    Bot.HelpRequest (seconds 1800) Scenario.alice_help_msg
                      Scenario.lspd ]))).
Proof.
  apply (silent_check_is_final [Scenario.lspd] None Scenario.self_response_events
           [ Bot.TimerWake (seconds 1700) 1 true;
             Bot.HelpRequest (seconds 1800) Scenario.alice_help_msg Scenario.lspd ]
           (seconds 1600) 1 false).
  - reflexivity.
  - left. reflexivity.
Defined.

(** X15.  The check of a newly tracked request does nothing before its
    timeout has passed: waking it earlier than the configured number of
    seconds (600 when the setting is absent) after the request was tracked
    leaves the state as it is, check included. *)
Theorem check_waits_for_timeout :
  forall (srvs : list DiscordServers) (timeout : option Z)
         (history : list Bot.Event) (tracked_at now : Z) (message : Message)
         (server : DiscordServers) (channel_found : bool),
    let st := Bot.run (Bot.initial srvs timeout) history in
    let st' := Bot.create_response_tracking st tracked_at message server in
    find (fun t => mention_message_id t =? msg_id message) (Bot.trackings st) = None ->
    now < tracked_at + seconds (match Bot.notification_timeout_setting st with
                                | Some v => v
                                | None => 600
                                end) ->
    Bot.wake st' now (next_id (Bot.trackings st)) channel_found = st' /\
    In (next_id (Bot.trackings st)) (map fst (Bot.pending_checks st')).
Proof.
  intros srvs timeout history tracked_at now message server ch st st' Hnew Hearly.
  assert (Hinv : one_check_per_record st).
  { apply run_checks. split; constructor. }
  destruct Hinv as [_ Hall]. unfold checked_ids in Hall.
  apply Forall_app in Hall. destruct Hall as [Hall _].
  assert (Hpc : Bot.pending_checks st' =
                Bot.pending_checks st ++
                [(next_id (Bot.trackings st),
                  tracked_at + seconds (match Bot.notification_timeout_setting st with
                                        | Some v => v
                                        | None => 600
                                        end))]).
  { unfold st', Bot.create_response_tracking. rewrite Hnew. reflexivity. }
  split.
  - unfold Bot.wake. rewrite Hpc, (not_due_yet _ _ _ _ Hall Hearly). reflexivity.
  - rewrite Hpc, map_app, in_app_iff. right. now left.
Qed.

Lemma check_waits_for_timeout_witness :
  let st' :=
    Bot.create_response_tracking (Bot.run (Bot.initial [Scenario.lspd] None) [])
      (seconds 1000) Scenario.help_msg Scenario.lspd in
  Bot.wake st' (seconds 1599) 1 true = st' /\
  In 1 (map fst (Bot.pending_checks st')).
Proof.
  apply (check_waits_for_timeout [Scenario.lspd] None [] (seconds 1000)
           (seconds 1599) Scenario.help_msg Scenario.lspd true).
  - reflexivity.
  - reflexivity.
Defined.

(** ** utils.py: default settings *)

Section DefaultSettings.

Import RatingSystem.

Lemma sort_desc_length {A : Type} (key : A -> Z) (l : list A) :
  List.length (sort_desc key l) = List.length l.
Proof. symmetry. apply Permutation_length, sort_desc_perm. Qed.

Lemma load_nonempty_rows (rows : list RatingSettings) :
  rows <> [] -> _load_rating_thresholds rows = sort_desc min_score rows.
Proof.
  intro H. unfold _load_rating_thresholds, query_thresholds.
  destruct (sort_desc min_score rows) eqn:E; [|reflexivity].
  exfalso. apply H. apply length_zero_iff_nil.
  rewrite <- (sort_desc_length min_score rows), E. reflexivity.
Qed.

Lemma default_bands_agree (score : Z) :
  option_map band_key (select_rating (_load_rating_thresholds Utils.default_ratings) score) =
  option_map band_key (select_rating (_load_rating_thresholds []) score).
Proof.
  unfold select_rating. cbn.
  repeat (match goal with
          | |- context [?a <=? score] => destruct (a <=? score)
          end; cbn; try reflexivity).
Qed.

End DefaultSettings.

(** X16.  Running [initialize_default_settings] before the rating system
    starts changes nothing for it: the configuration it loads is the same,
    and for every score the band it selects has the same name, label and
    minimum; and initialising twice is the same as initialising once. *)
Theorem default_settings_are_transparent :
  forall (ratings : list RatingSettings) (configs : list GlobalRatingConfig)
         (score : Z),
    let tables := Utils.initialize_default_settings (ratings, configs) in
    RatingSystem._load_rating_config (snd tables) =
      RatingSystem._load_rating_config configs /\
    option_map band_key
      (RatingSystem.select_rating
         (RatingSystem._load_rating_thresholds (fst tables)) score) =
    option_map band_key
      (RatingSystem.select_rating
         (RatingSystem._load_rating_thresholds ratings) score) /\
    Utils.initialize_default_settings tables = tables.
Proof.
  intros ratings configs score tables. unfold tables.
  destruct ratings as [|r ratings], configs as [|c configs];
    cbn [Utils.initialize_default_settings List.length Nat.eqb app fst snd
         RatingSystem._load_rating_config];
    repeat split; try reflexivity; apply default_bands_agree.
Qed.

(** ** discord_bot_old.py and utils.py: the first response is kept *)

(** X17.  In the legacy bot a row that already has a response is not
    touched again: a later reply or reaction of a curator leaves it exactly
    as it is. *)
Theorem legacy_answered_row_is_final :
  forall (trackings : list ResponseTracking) (t : ResponseTracking)
         (message : Message) (curator : Curators) (server : DiscordServers)
         (now now' : Z),
    In t trackings ->
    response_timestamp t <> None ->
    In t (Legacy.process_curator_response trackings message curator server) /\
    In t (LegacyBot.process_reaction_response trackings message curator server
            now now').
Proof.
  intros trackings t message curator server now now' Hin Hans.
  assert (Hp : forall reference,
             Legacy.pending_reply_target server reference t = false).
  { intro reference. unfold Legacy.pending_reply_target.
    destruct (response_timestamp t); [|now contradiction Hans].
    cbn [is_none]. now rewrite andb_false_r. }
  split.
  - unfold Legacy.process_curator_response.
    destruct (msg_reference message) as [reference|]; [|exact Hin].
    destruct (reference =? 0); [exact Hin|].
    destruct (find _ trackings); [|exact Hin].
    destruct (datetime_sub _ _); [|exact Hin].
    now apply update_first_keeps.
  - unfold LegacyBot.process_reaction_response.
    destruct (find _ trackings); [|exact Hin].
    destruct (datetime_sub _ _); [|exact Hin].
    now apply update_first_keeps.
Qed.

Lemma legacy_answered_row_is_final_witness :
  In (Scenario.answered (Some 45))
     (Legacy.process_curator_response [Scenario.answered (Some 45)]
        (with_reference Scenario.help_msg (Some 100)) Scenario.bob Scenario.lspd) /\
  In (Scenario.answered (Some 45))
     (LegacyBot.process_reaction_response [Scenario.answered (Some 45)]
        (with_reference Scenario.help_msg (Some 100)) Scenario.bob Scenario.lspd
        (seconds 3000) (seconds 3000)).
Proof.
  apply legacy_answered_row_is_final.
  - left. reflexivity.
  - discriminate.
Defined.

(** X18.  A legacy reaction changes the first row, in table order, of the
    server that tracks the message reacted to and has no response yet, and
    no other row; when there is no such row the table is as before.  The
    row keeps its mention part and gets the reacting curator, the message
    reacted to as response message, the type "reaction", the second clock
    reading as response time and a latency measured from the mention to the
    first clock reading: their difference in whole seconds, truncated
    towards zero, for instants less than 2^33 seconds apart, and not
    negative when that reading is not earlier than the mention. *)
Theorem legacy_reaction_answers_its_message :
  forall (trackings : list ResponseTracking) (reacted : Message)
         (curator : Curators) (server : DiscordServers) (now now' : Z),
    let trackings' :=
      LegacyBot.process_reaction_response trackings reacted curator server now now' in
    let pending := Legacy.pending_reply_target server (msg_id reacted) in
    (find pending trackings = None -> trackings' = trackings) /\
    (forall t,
        find pending trackings = Some t ->
        exists before after t',
          trackings = before ++ t :: after /\
          Forall (fun r => pending r = false) before /\
          trackings' = before ++ t' :: after /\
          mention_message_id t = msg_id reacted /\
          server_id t = srv_id server /\
          response_timestamp t = None /\
          mention_part t' = mention_part t /\
          is_resolved t' = is_resolved t /\
          curator_id t' = Some (cur_id curator) /\
          response_message_id t' = Some (msg_id reacted) /\
          response_type t' = Some "reaction" /\
          response_timestamp t' = Some now' /\
          (Z.abs (now - mention_timestamp t) < exact_seconds_range ->
           response_time_seconds t' =
             Some (Z.quot (now - mention_timestamp t) usec_per_second)) /\
          (mention_timestamp t <= now -> 0 <= latency t')).
Proof.
  intros trackings reacted curator server now now' trackings' pending.
  unfold trackings', LegacyBot.process_reaction_response. fold pending. split.
  - now intros ->.
  - intros t Hfind. rewrite Hfind.
    cbn [datetime_sub naive dt_aware dt_instant Bool.eqb].
    match goal with
    | |- context [update_first pending ?f trackings] =>
        destruct (update_first_at pending f trackings t Hfind)
          as (l1 & l2 & Hl & Hl1 & Hp & ->)
    end.
    exists l1, l2. eexists.
    split; [exact Hl|]. split; [exact Hl1|]. split; [reflexivity|].
    unfold pending, Legacy.pending_reply_target in Hp.
    apply andb_true_iff in Hp. destruct Hp as [Hp Hnone].
    apply andb_true_iff in Hp. destruct Hp as [Hsrv Hmention].
    apply Z.eqb_eq in Hsrv, Hmention.
    split; [exact Hmention|]. split; [exact Hsrv|].
    split; [destruct (response_timestamp t); [discriminate | reflexivity]|].
    repeat (split; [reflexivity|]).
    intro Hle. unfold latency. cbn [response_time_seconds or_zero].
    apply int_total_seconds_nonneg.
    unfold usec_per_second. lia.
Qed.

Lemma legacy_reaction_answers_its_message_witness :
  exists before after t',
    Legacy.track_mention_request [] Scenario.help_msg Scenario.lspd =
      before ++ Scenario.legacy_row :: after /\
    LegacyBot.process_reaction_response
      (Legacy.track_mention_request [] Scenario.help_msg Scenario.lspd)
      Scenario.help_msg Scenario.alice Scenario.lspd (seconds 1040) (seconds 1041)
    = before ++ t' :: after /\
    response_time_seconds t' = Some 40.
Proof.
  destruct (legacy_reaction_answers_its_message
              (Legacy.track_mention_request [] Scenario.help_msg Scenario.lspd)
              Scenario.help_msg Scenario.alice Scenario.lspd
              (seconds 1040) (seconds 1041)) as [_ H].
  destruct (H Scenario.legacy_row eq_refl)
    as (before & after & t' & Hl & _ & Hl' & _ & _ & _ & _ & _ & _ & _ & _ & _ & Hlat & _).
  exists before, after, t'. split; [exact Hl|]. split; [exact Hl'|].
  apply Hlat. reflexivity.
Defined.

(** The legacy table can hold two pending rows for one message; a reaction
    answers the first of them. *)
Example legacy_reaction_on_duplicate :
  map (fun t => (rt_id t, response_type t, response_time_seconds t))
    (LegacyBot.process_reaction_response
       (Legacy.track_mention_request
          (Legacy.track_mention_request [] Scenario.help_msg Scenario.lspd)
          Scenario.help_msg Scenario.lspd)
       Scenario.help_msg Scenario.alice Scenario.lspd (seconds 1040) (seconds 1041))
  = [(1, Some "reaction", Some 40); (2, None, None)].
Proof. reflexivity. Qed.

(** ** scheduler.py on the tables of the bot *)

(** X19.  On every state the bot reaches from its empty tracking table, the
    rows that [check_unanswered_mentions] selects are exactly the unresolved
    rows whose mention is more than ten minutes old. *)
Theorem unanswered_mentions_are_open_rows :
  forall (srvs : list DiscordServers) (timeout : option Z)
         (events : list Bot.Event) (now : Z),
    let trackings := Bot.trackings (Bot.run (Bot.initial srvs timeout) events) in
    Scheduler.check_unanswered_mentions trackings now =
    filter (fun t => (mention_timestamp t <? now - Scheduler.timedelta_minutes 10) &&
                     negb (is_resolved t)) trackings.
Proof.
  intros srvs timeout events now trackings.
  assert (H : Forall response_consistent trackings)
    by (apply run_consistent; constructor).
  unfold Scheduler.check_unanswered_mentions.
  induction H as [|t l Ht Hl IH]; [reflexivity|].
  cbn [filter]. rewrite IH.
  replace (is_none (response_timestamp t)) with (negb (is_resolved t)); [reflexivity|].
  unfold response_consistent in Ht. destruct (is_resolved t).
  - destruct Ht as (c & m & ts & ty & _ & _ & -> & _). reflexivity.
  - destruct Ht as (_ & _ & -> & _). reflexivity.
Qed.

(** ** discord_bot.py: the handlers and the tracker *)

Section HandlerFacts.

Import Handlers.
Variable lower : string -> string.
Variable search_task_count : string -> option Z.
Variable search_number : string -> option Z.

Lemma process_task_report_frame w now m server :
  let w' := process_task_report lower search_task_count w now m server in
  bot w' = bot w /\ activity_rows w' = activity_rows w /\
  curator_rows w' = curator_rows w /\
  completed_tasks_channel_id w' = completed_tasks_channel_id w.
Proof.
  unfold process_task_report.
  destruct (search_task_count _); [|now repeat split].
  destruct (find _ (task_reports w)); now repeat split.
Qed.

Lemma verify_task_report_frame w now m curator server :
  let w' := verify_task_report search_number w now m curator server in
  bot w' = bot w /\ curator_rows w' = curator_rows w /\
  completed_tasks_channel_id w' = completed_tasks_channel_id w /\
  (activity_rows w' = activity_rows w \/
   activity_rows w' =
     activity_rows w ++
     [ {| act_curator_id := cur_id curator; act_server_id := srv_id server;
          act_type := "task_verification";
          act_timestamp := msg_created_at (in_message m) |} ]).
Proof.
  unfold verify_task_report.
  destruct (find _ (task_reports w)); [|now repeat split; left].
  cbn. repeat split. now right.
Qed.

(** The tracker side of [on_message]: at most one response and one new
    request, in that order. *)
Lemma on_message_bot w now m :
  bot (on_message lower search_task_count search_number w now m) =
  if in_author_bot m then bot w
  else
    match get_server_by_guild_id w (msg_guild_id (in_message m)) with
    | None => bot w
    | Some server =>
        let b1 :=
          match get_curator_by_discord_id w (msg_author_id (in_message m)) with
          | Some c =>
              Bot.update_response_tracking (bot w) now (in_message m) c "message"
          | None => bot w
          end in
        if contains_help_keywords lower (msg_content (in_message m))
           || contains_curator_mention w m
        then Bot.create_response_tracking b1 now (in_message m) server
        else b1
    end.
Proof.
  unfold on_message.
  destruct (in_author_bot m); [reflexivity|].
  destruct (get_server_by_guild_id w (msg_guild_id (in_message m))) as [server|] eqn:Es;
    [|reflexivity].
  destruct (get_curator_by_discord_id w (msg_author_id (in_message m))) as [c|] eqn:Ec.
  - cbn [is_none andb].
    set (w_logged := log_activity w c server "message" (in_message m)).
    set (w_verified :=
           if is_substring "completed-tasks" (lower (in_channel_name m)) || false
           then verify_task_report search_number w_logged now m c server
           else w_logged).
    assert (Hb : bot w_verified = bot w).
    { unfold w_verified.
      destruct (is_substring _ _ || false); [|reflexivity].
      now destruct (verify_task_report_frame w_logged now m c server) as (-> & _). }
    set (w1 := with_bot w_verified
                 (Bot.update_response_tracking (bot w_verified) now (in_message m) c
                    "message")).
    assert (Hm : contains_curator_mention w1 m = contains_curator_mention w m).
    { unfold contains_curator_mention, get_server_by_guild_id, w1.
      cbn [bot with_bot]. rewrite update_response_tracking_unchanged.
      now rewrite Hb. }
    rewrite Hm.
    destruct (contains_help_keywords lower (msg_content (in_message m))
              || contains_curator_mention w m);
      unfold w1; cbn [bot with_bot]; now rewrite Hb.
  - cbn [is_none andb].
    destruct (contains_help_keywords lower (msg_content (in_message m))
              || contains_curator_mention w m).
    + match goal with
      | |- bot (if ?c then _ else _) = _ => destruct c
      end; [|reflexivity].
      match goal with
      | |- bot (process_task_report _ _ ?w0 _ _ _) = _ =>
          now destruct (process_task_report_frame w0 now m server) as (-> & _)
      end.
    + match goal with
      | |- bot (if ?c then _ else _) = _ => destruct c
      end; [|reflexivity].
      now destruct (process_task_report_frame w now m server) as (-> & _).
Qed.

Lemma on_reaction_add_bot w now m user_id user_bot :
  bot (on_reaction_add w now m user_id user_bot) =
  if user_bot then bot w
  else
    match get_server_by_guild_id w (msg_guild_id (in_message m)) with
    | None => bot w
    | Some server =>
        match get_curator_by_discord_id w user_id with
        | None => bot w
        | Some curator =>
            Bot.update_response_tracking (bot w) now (in_message m) curator
              "reaction"
        end
    end.
Proof.
  unfold on_reaction_add.
  destruct user_bot; [reflexivity|].
  destruct (get_server_by_guild_id w _); [|reflexivity].
  destruct (get_curator_by_discord_id w user_id); reflexivity.
Qed.

Lemma handle_bot_events w input :
  exists events,
    bot (handle lower search_task_count search_number w input) =
    Bot.run (bot w) events.
Proof.
  destruct input as [now m|now m user_id user_bot|now i ch]; cbn [handle].
  - rewrite on_message_bot.
    destruct (in_author_bot m); [now exists []|].
    destruct (get_server_by_guild_id w _) as [server|]; [|now exists []].
    destruct (get_curator_by_discord_id w _) as [c|];
      destruct (contains_help_keywords lower _ || contains_curator_mention w m).
    + now exists [ Bot.CuratorAction now (in_message m) c "message";
                   Bot.HelpRequest now (in_message m) server ].
    + now exists [ Bot.CuratorAction now (in_message m) c "message" ].
    + now exists [ Bot.HelpRequest now (in_message m) server ].
    + now exists [].
  - rewrite on_reaction_add_bot.
    destruct user_bot; [now exists []|].
    destruct (get_server_by_guild_id w _) as [server|]; [|now exists []].
    destruct (get_curator_by_discord_id w user_id) as [c|]; [|now exists []].
    now exists [ Bot.CuratorAction now (in_message m) c "reaction" ].
  - now exists [ Bot.TimerWake now i ch ].
Qed.

Lemma handle_all_bot_events inputs w :
  exists events,
    bot (handle_all lower search_task_count search_number w inputs) =
    Bot.run (bot w) events.
Proof.
  revert w. induction inputs as [|input inputs IH]; intro w;
    cbn [handle_all fold_left].
  - now exists [].
  - destruct (handle_bot_events w input) as [e1 H1].
    destruct (IH (handle lower search_task_count search_number w input)) as [e2 H2].
    exists (e1 ++ e2). unfold handle_all in H2. rewrite H2, H1.
    unfold Bot.run. now rewrite fold_left_app.
Qed.

End HandlerFacts.

(** X20.  Whatever messages, reactions and wake-ups the handlers process
    from empty tracker tables, the tracker side of the result is the result
    of a sequence of tracker events (help request, curator action, wake-up).
    So no two tracking rows share a message id, no row has two
    notifications, and every row is either open without response columns or
    resolved with all of them. *)
Theorem handlers_drive_the_tracker :
  forall (lower : string -> string)
         (search_task_count search_number : string -> option Z)
         (w : Handlers.World) (inputs : list Handlers.Input)
         (srvs : list DiscordServers) (timeout : option Z),
    Handlers.bot w = Bot.initial srvs timeout ->
    let b := Handlers.bot
               (Handlers.handle_all lower search_task_count search_number w inputs) in
    (exists events, b = Bot.run (Bot.initial srvs timeout) events) /\
    NoDup (map mention_message_id (Bot.trackings b)) /\
    NoDup (map Bot.ntf_tracking_id (Bot.notifications b)) /\
    Forall response_consistent (Bot.trackings b).
Proof.
  intros lower search_task_count search_number w inputs srvs timeout Hw b.
  destruct (handle_all_bot_events lower search_task_count search_number inputs w)
    as [events He].
  fold b in He. rewrite Hw in He.
  split; [now exists events|]. rewrite He.
  split; [apply run_mentions; constructor|].
  split; [|apply run_consistent; constructor].
  destruct (run_checks events (Bot.initial srvs timeout)) as [Hn _].
  { split; constructor. }
  unfold checked_ids in Hn. now apply NoDup_app_remove_l in Hn.
Qed.

Lemma handlers_drive_the_tracker_witness :
  let b := Handlers.bot
             (Handlers.handle_all HandlerScenario.plain_lower
                HandlerScenario.no_number HandlerScenario.no_number
                HandlerScenario.world HandlerScenario.inputs) in
  NoDup (map mention_message_id (Bot.trackings b)) /\
  NoDup (map Bot.ntf_tracking_id (Bot.notifications b)).
Proof.
  destruct (handlers_drive_the_tracker HandlerScenario.plain_lower
              HandlerScenario.no_number HandlerScenario.no_number
              HandlerScenario.world HandlerScenario.inputs [Scenario.lspd] None
              eq_refl) as (_ & H1 & H2 & _).
  split; [exact H1 | exact H2].
Defined.

Example handler_scenario_result :
  let w := Handlers.handle_all HandlerScenario.plain_lower
             HandlerScenario.no_number HandlerScenario.no_number
             HandlerScenario.world HandlerScenario.inputs in
  map (fun t => (mention_message_id t, is_resolved t, response_time_seconds t))
    (Bot.trackings (Handlers.bot w)) = [(100, false, None)] /\
  map Bot.ntf_tracking_id (Bot.notifications (Handlers.bot w)) = [1] /\
  map act_type (Handlers.activity_rows w) = ["message"].
Proof. cbv zeta. split; [|split]; reflexivity. Qed.

(** ** discord_bot.py: who resolves, what is tracked *)

(** X21.  Only curators resolve: a message whose author is not an active
    curator, and a reaction of a user who is not one, leave every existing
    tracking row as it is; such a message adds at most one row, an open
    one for the message itself. *)
Theorem only_curators_resolve :
  forall (lower : string -> string)
         (search_task_count search_number : string -> option Z)
         (w : Handlers.World) (now : Z) (m : Handlers.Incoming)
         (user_id : Z) (user_bot : bool),
    (Handlers.get_curator_by_discord_id w (msg_author_id (Handlers.in_message m))
       = None ->
     exists added,
       Bot.trackings
         (Handlers.bot
            (Handlers.on_message lower search_task_count search_number w now m)) =
       Bot.trackings (Handlers.bot w) ++ added /\
       (List.length added <= 1)%nat /\
       Forall (fun t => mention_message_id t = msg_id (Handlers.in_message m) /\
                        is_resolved t = false) added) /\
    (Handlers.get_curator_by_discord_id w user_id = None ->
     Handlers.bot (Handlers.on_reaction_add w now m user_id user_bot) =
     Handlers.bot w).
Proof.
  intros lower search_task_count search_number w now m user_id user_bot. split.
  - intro Hc. rewrite on_message_bot, Hc.
    assert (Hnil : exists added : list ResponseTracking,
               Bot.trackings (Handlers.bot w) =
               Bot.trackings (Handlers.bot w) ++ added /\
               (List.length added <= 1)%nat /\
               Forall (fun t => mention_message_id t = msg_id (Handlers.in_message m) /\
                                is_resolved t = false) added).
    { exists []. rewrite app_nil_r. repeat split; [cbn; lia | constructor]. }
    destruct (Handlers.in_author_bot m); [exact Hnil|].
    destruct (Handlers.get_server_by_guild_id w _) as [server|]; [|exact Hnil].
    cbv zeta.
    destruct (Handlers.contains_help_keywords lower _
              || Handlers.contains_curator_mention w m); [|exact Hnil].
    unfold Bot.create_response_tracking.
    destruct (find _ (Bot.trackings (Handlers.bot w))); [exact Hnil|].
    eexists. split; [reflexivity|]. split; [cbn; lia|].
    constructor; [|constructor]. split; reflexivity.
  - intro Hc. rewrite on_reaction_add_bot, Hc.
    destruct user_bot; [reflexivity|].
    destruct (Handlers.get_server_by_guild_id w _); reflexivity.
Qed.

Lemma only_curators_resolve_witness :
  exists added,
    Bot.trackings
      (Handlers.bot
         (Handlers.on_message HandlerScenario.plain_lower HandlerScenario.no_number
            HandlerScenario.no_number HandlerScenario.world (seconds 1000)
            (HandlerScenario.incoming Scenario.help_msg))) =
    Bot.trackings (Handlers.bot HandlerScenario.world) ++ added /\
    (List.length added <= 1)%nat.
Proof.
  destruct (only_curators_resolve HandlerScenario.plain_lower
              HandlerScenario.no_number HandlerScenario.no_number
              HandlerScenario.world (seconds 1000)
              (HandlerScenario.incoming Scenario.help_msg) 0 false) as [H _].
  destruct (H eq_refl) as (added & H1 & H2 & _).
  exists added. split; [exact H1 | exact H2].
Defined.

(** X22.  A help request that is not tracked yet, from a user who is not a
    bot, in a guild with an active server row, is tracked by [on_message] as
    the last row of the table: open, with the message's id, time and author,
    and with a check sleeping for it.  This holds also when the author is a
    curator, whose message is first taken as a response to older requests. *)
Theorem help_request_is_tracked_open :
  forall (lower : string -> string)
         (search_task_count search_number : string -> option Z)
         (w : Handlers.World) (now : Z) (m : Handlers.Incoming)
         (server : DiscordServers),
    Handlers.in_author_bot m = false ->
    Handlers.get_server_by_guild_id w (msg_guild_id (Handlers.in_message m))
      = Some server ->
    Handlers.contains_help_keywords lower (msg_content (Handlers.in_message m))
    || Handlers.contains_curator_mention w m = true ->
    ~ In (msg_id (Handlers.in_message m))
         (map mention_message_id (Bot.trackings (Handlers.bot w))) ->
    let b := Handlers.bot
               (Handlers.on_message lower search_task_count search_number w now m) in
    exists older t,
      Bot.trackings b = older ++ [t] /\
      List.length older = List.length (Bot.trackings (Handlers.bot w)) /\
      mention_message_id t = msg_id (Handlers.in_message m) /\
      mention_timestamp t = msg_created_at (Handlers.in_message m) /\
      mention_author_id t = Some (msg_author_id (Handlers.in_message m)) /\
      server_id t = srv_id server /\
      is_resolved t = false /\
      In (rt_id t) (map fst (Bot.pending_checks b)).
Proof.
  intros lower search_task_count search_number w now m server Hbot Hsrv Hhelp Hnew b.
  unfold b. rewrite on_message_bot, Hbot, Hsrv. cbv zeta. rewrite Hhelp.
  set (b1 := match Handlers.get_curator_by_discord_id w _ with
             | Some c => _
             | None => _
             end).
  assert (Hids : map mention_message_id (Bot.trackings b1) =
                 map mention_message_id (Bot.trackings (Handlers.bot w))).
  { unfold b1. destruct (Handlers.get_curator_by_discord_id w _);
      [apply update_response_tracking_mentions | reflexivity]. }
  assert (Hfind : find (fun t => mention_message_id t =? msg_id (Handlers.in_message m))
                    (Bot.trackings b1) = None).
  { destruct (find _ (Bot.trackings b1)) as [t|] eqn:E; [|reflexivity].
    apply find_some in E. destruct E as [Hin Heq]. apply Z.eqb_eq in Heq.
    exfalso. apply Hnew. rewrite <- Hids, <- Heq. now apply in_map. }
  unfold Bot.create_response_tracking. rewrite Hfind.
  cbn [Bot.schedule_notification_check Bot.trackings Bot.pending_checks].
  eexists. eexists. split; [reflexivity|].
  split; [now rewrite <- (length_map mention_message_id), Hids, length_map|].
  repeat (split; [reflexivity|]).
  rewrite map_app, in_app_iff. right. now left.
Qed.

Lemma help_request_is_tracked_open_witness :
  let b := Handlers.bot
             (Handlers.on_message HandlerScenario.plain_lower
                HandlerScenario.no_number HandlerScenario.no_number
                HandlerScenario.world (seconds 1000)
                (HandlerScenario.incoming Scenario.alice_help_msg)) in
  exists older t,
    Bot.trackings b = older ++ [t] /\
    List.length older = 0%nat /\
    mention_message_id t = 101 /\
    mention_timestamp t = seconds 1000 /\
    mention_author_id t = Some 42 /\
    server_id t = 1 /\
    is_resolved t = false /\
    In (rt_id t) (map fst (Bot.pending_checks b)).
Proof.
  apply (help_request_is_tracked_open HandlerScenario.plain_lower
           HandlerScenario.no_number HandlerScenario.no_number
           HandlerScenario.world (seconds 1000)
           (HandlerScenario.incoming Scenario.alice_help_msg) Scenario.lspd).
  - reflexivity.
  - reflexivity.
  - reflexivity.
  - intros [].
Defined.

(** ** discord_bot.py: what the handlers log, and the score *)

Section LoggingFacts.

Import Handlers.
Variable lower : string -> string.
Variable search_task_count : string -> option Z.
Variable search_number : string -> option Z.

Lemma base_score_app (config : GlobalRatingConfig) (acts extra : list Activities)
    (trackings : list ResponseTracking) (now curator days : Z) :
  RatingSystem.base_score
    (RatingSystem.calculate_curator_score config (acts ++ extra) trackings now
       curator days) =
  RatingSystem.base_score
    (RatingSystem.calculate_curator_score config acts trackings now curator days)
  + fold_right (fun a s => type_points config (act_type a) + s) 0
      (RatingSystem.activities_in_period extra now curator days).
Proof.
  rewrite !base_score_sum. unfold RatingSystem.activities_in_period.
  destruct (period_start now days); [|reflexivity].
  now rewrite filter_app, fold_right_points_app.
Qed.

Lemma score_app_outside (config : GlobalRatingConfig) (acts extra : list Activities)
    (trackings : list ResponseTracking) (now curator days : Z) :
  RatingSystem.activities_in_period extra now curator days = [] ->
  RatingSystem.calculate_curator_score config (acts ++ extra) trackings now
    curator days =
  RatingSystem.calculate_curator_score config acts trackings now curator days.
Proof.
  intro H. unfold RatingSystem.calculate_curator_score.
  assert (E : RatingSystem.activities_in_period (acts ++ extra) now curator days =
              RatingSystem.activities_in_period acts now curator days).
  { unfold RatingSystem.activities_in_period in *.
    destruct (period_start now days); [|reflexivity].
    now rewrite filter_app, H, app_nil_r. }
  now rewrite E.
Qed.

Lemma own_rows_in_period (now curator days : Z) (rows : list Activities) :
  Forall (fun a => act_curator_id a = curator /\
                   in_period now days (act_timestamp a)) rows ->
  RatingSystem.activities_in_period rows now curator days = rows.
Proof.
  unfold RatingSystem.activities_in_period, in_period.
  destruct (period_start now days) as [start|].
  - induction 1 as [|a rows [Hc Hp] Hrows IH]; [reflexivity|].
    cbn [filter]. rewrite IH.
    replace (act_curator_id a =? curator) with true by (symmetry; now apply Z.eqb_eq).
    replace (start <=? act_timestamp a) with true
      by (symmetry; apply Z.leb_le; lia).
    replace (act_timestamp a <=? now) with true by (symmetry; apply Z.leb_le; lia).
    reflexivity.
  - intro H. destruct H as [|a rows [_ []] _]. reflexivity.
Qed.

Lemma row_outside_period (now curator days : Z) (a : Activities) :
  ~ in_period now days (act_timestamp a) ->
  RatingSystem.activities_in_period [a] now curator days = [].
Proof.
  unfold RatingSystem.activities_in_period, in_period. intro H.
  destruct (period_start now days) as [start|]; [|reflexivity].
  cbn [filter].
  destruct (start <=? act_timestamp a) eqn:E1; [|now rewrite andb_false_r].
  destruct (act_timestamp a <=? now) eqn:E2; [|now rewrite andb_false_r].
  apply Z.leb_le in E1, E2. exfalso. apply H. lia.
Qed.

Lemma on_message_activities w now m server c :
  in_author_bot m = false ->
  get_server_by_guild_id w (msg_guild_id (in_message m)) = Some server ->
  get_curator_by_discord_id w (msg_author_id (in_message m)) = Some c ->
  activity_rows (on_message lower search_task_count search_number w now m) =
  activity_rows w ++
  mkActivities (cur_id c) (srv_id server) "message" (msg_created_at (in_message m))
  :: (if is_substring "completed-tasks" (lower (in_channel_name m)) &&
         negb (is_none (find (pending_report server (msg_channel_id (in_message m))
                                (now - timedelta_hours 24)) (task_reports w)))
      then [mkActivities (cur_id c) (srv_id server) "task_verification"
              (msg_created_at (in_message m))]
      else []).
Proof.
  intros Hbot Hsrv Hcur. unfold on_message. rewrite Hbot, Hsrv, Hcur.
  cbn [is_none andb]. rewrite orb_false_r.
  match goal with
  | |- activity_rows (if ?h then _ else _) = _ => destruct h
  end; cbn [with_bot activity_rows bot];
    (destruct (is_substring "completed-tasks" (lower (in_channel_name m)));
     cbn [andb];
     [ unfold verify_task_report; cbn [log_activity task_reports];
       destruct (find _ (task_reports w));
       cbn [is_none negb log_activity with_task_reports activity_rows];
       rewrite <- ?app_assoc; reflexivity
     | reflexivity ]).
Qed.

Lemma on_message_silent w now m :
  in_author_bot m = true \/
  get_server_by_guild_id w (msg_guild_id (in_message m)) = None \/
  get_curator_by_discord_id w (msg_author_id (in_message m)) = None ->
  activity_rows (on_message lower search_task_count search_number w now m) =
  activity_rows w.
Proof.
  intro H. unfold on_message.
  destruct (in_author_bot m); [reflexivity|].
  destruct (get_server_by_guild_id w _) as [server|]; [|reflexivity].
  destruct (get_curator_by_discord_id w _) as [c|] eqn:Ec.
  { destruct H as [H|[H|H]]; discriminate H. }
  cbn [is_none andb].
  match goal with
  | |- activity_rows (if ?c then process_task_report _ _ ?w0 _ _ _ else _) = _ =>
      destruct c;
      [destruct (process_task_report_frame lower search_task_count w0 now m server)
         as (_ & -> & _)|]
  end;
    match goal with
    | |- activity_rows (if ?h then _ else _) = _ => destruct h; reflexivity
    end.
Qed.

End LoggingFacts.

(** X23.  A reaction of an active curator in a monitored guild is logged as
    one activity of type "reaction" that carries the creation time of the
    message reacted to.  It therefore raises the curator's base score by the
    reaction points for a period that contains that creation time and whose
    start can be represented, and leaves the whole score as it was for
    every other period. *)
Theorem reaction_counts_at_message_time :
  forall (w : Handlers.World) (now : Z) (m : Handlers.Incoming) (user_id : Z)
         (server : DiscordServers) (c : Curators) (config : GlobalRatingConfig)
         (trackings : list ResponseTracking) (at_time days : Z),
    Handlers.get_server_by_guild_id w (msg_guild_id (Handlers.in_message m))
      = Some server ->
    Handlers.get_curator_by_discord_id w user_id = Some c ->
    let w' := Handlers.on_reaction_add w now m user_id false in
    let score rows :=
      RatingSystem.calculate_curator_score config rows trackings at_time
        (cur_id c) days in
    Handlers.activity_rows w' =
      Handlers.activity_rows w ++
      [mkActivities (cur_id c) (srv_id server) "reaction"
         (msg_created_at (Handlers.in_message m))] /\
    (in_period at_time days (msg_created_at (Handlers.in_message m)) ->
     RatingSystem.base_score (score (Handlers.activity_rows w')) =
     RatingSystem.base_score (score (Handlers.activity_rows w))
     + activity_points_reaction config) /\
    (~ in_period at_time days (msg_created_at (Handlers.in_message m)) ->
     score (Handlers.activity_rows w') = score (Handlers.activity_rows w)).
Proof.
  intros w now m user_id server c config trackings at_time days Hsrv Hcur w' score.
  assert (Hrows : Handlers.activity_rows w' =
                  Handlers.activity_rows w ++
                  [mkActivities (cur_id c) (srv_id server) "reaction"
                     (msg_created_at (Handlers.in_message m))]).
  { unfold w', Handlers.on_reaction_add. now rewrite Hsrv, Hcur. }
  split; [exact Hrows|]. rewrite Hrows. unfold score. split.
  - intro Hp. rewrite base_score_app, own_rows_in_period.
    + cbn [fold_right act_type]. unfold type_points. cbn. lia.
    + constructor; [|constructor]. now split.
  - intro Hp. apply score_app_outside. now apply row_outside_period.
Qed.

Lemma reaction_counts_at_message_time_witness :
  let w' := Handlers.on_reaction_add HandlerScenario.world (seconds 5000)
              (HandlerScenario.incoming Scenario.old_msg) 42 false in
  RatingSystem.base_score
    (RatingSystem.calculate_curator_score RatingSystem.default_rating_config
       (Handlers.activity_rows w') [] (seconds 2000) 1 30) =
  RatingSystem.base_score
    (RatingSystem.calculate_curator_score RatingSystem.default_rating_config
       (Handlers.activity_rows HandlerScenario.world) [] (seconds 2000) 1 30)
  + 1 /\
  RatingSystem.calculate_curator_score RatingSystem.default_rating_config
    (Handlers.activity_rows w') [] (seconds 90000) 1 1 =
  RatingSystem.calculate_curator_score RatingSystem.default_rating_config
    (Handlers.activity_rows HandlerScenario.world) [] (seconds 90000) 1 1 /\
  RatingSystem.calculate_curator_score RatingSystem.default_rating_config
    (Handlers.activity_rows w') [] (seconds 2000) 1 800000 =
  RatingSystem.calculate_curator_score RatingSystem.default_rating_config
    (Handlers.activity_rows HandlerScenario.world) [] (seconds 2000) 1 800000.
Proof.
  split; [|split].
  - destruct (reaction_counts_at_message_time HandlerScenario.world (seconds 5000)
                (HandlerScenario.incoming Scenario.old_msg) 42 Scenario.lspd
                Scenario.alice RatingSystem.default_rating_config []
                (seconds 2000) 30 eq_refl eq_refl) as (_ & H & _).
    apply H. cbv. split; discriminate.
  - destruct (reaction_counts_at_message_time HandlerScenario.world (seconds 5000)
                (HandlerScenario.incoming Scenario.old_msg) 42 Scenario.lspd
                Scenario.alice RatingSystem.default_rating_config []
                (seconds 90000) 1 eq_refl eq_refl) as (_ & _ & H).
    apply H. cbv. intros [H1 _]. now apply H1.
  - destruct (reaction_counts_at_message_time HandlerScenario.world (seconds 5000)
                (HandlerScenario.incoming Scenario.old_msg) 42 Scenario.lspd
                Scenario.alice RatingSystem.default_rating_config []
                (seconds 2000) 800000 eq_refl eq_refl) as (_ & _ & H).
    apply H. cbv. intros [].
Defined.

(** X24.  A message of an active curator in a monitored guild is logged as
    one activity of type "message", followed by one of type
    "task_verification" exactly when the channel name contains
    "completed-tasks" and a pending report of that server and channel,
    submitted within the last 24 hours, exists.  For a period that contains
    the creation time of the message and whose start can be represented,
    the curator's base score rises by the points of what was logged; for a
    period whose start cannot be represented it stays 0.  Messages of bots,
    of unmonitored guilds and of other authors log nothing. *)
Theorem message_logging :
  forall (lower : string -> string)
         (search_task_count search_number : string -> option Z)
         (w : Handlers.World) (now : Z) (m : Handlers.Incoming),
    let w' := Handlers.on_message lower search_task_count search_number w now m in
    let message := Handlers.in_message m in
    (Handlers.in_author_bot m = true \/
     Handlers.get_server_by_guild_id w (msg_guild_id message) = None \/
     Handlers.get_curator_by_discord_id w (msg_author_id message) = None ->
     Handlers.activity_rows w' = Handlers.activity_rows w) /\
    (forall (server : DiscordServers) (c : Curators),
        Handlers.in_author_bot m = false ->
        Handlers.get_server_by_guild_id w (msg_guild_id message) = Some server ->
        Handlers.get_curator_by_discord_id w (msg_author_id message) = Some c ->
        let verifies :=
          is_substring "completed-tasks" (lower (Handlers.in_channel_name m)) &&
          negb (is_none
                  (find (Handlers.pending_report server (msg_channel_id message)
                           (now - timedelta_hours 24)) (Handlers.task_reports w))) in
        Handlers.activity_rows w' =
          Handlers.activity_rows w ++
          mkActivities (cur_id c) (srv_id server) "message" (msg_created_at message)
          :: (if verifies
              then [mkActivities (cur_id c) (srv_id server) "task_verification"
                      (msg_created_at message)]
              else []) /\
        forall (config : GlobalRatingConfig) (trackings : list ResponseTracking)
               (at_time days : Z),
          (in_period at_time days (msg_created_at message) ->
           RatingSystem.base_score
             (RatingSystem.calculate_curator_score config (Handlers.activity_rows w')
                trackings at_time (cur_id c) days) =
           RatingSystem.base_score
             (RatingSystem.calculate_curator_score config (Handlers.activity_rows w)
                trackings at_time (cur_id c) days)
           + activity_points_message config
           + (if verifies then activity_points_task_verification config else 0)) /\
          (period_start at_time days = None ->
           RatingSystem.base_score
             (RatingSystem.calculate_curator_score config (Handlers.activity_rows w')
                trackings at_time (cur_id c) days) = 0)).
Proof.
  intros lower search_task_count search_number w now m w' message. split.
  - apply on_message_silent.
  - intros server c Hbot Hsrv Hcur verifies.
    pose proof (on_message_activities lower search_task_count search_number
                  w now m server c Hbot Hsrv Hcur) as Hrows.
    fold message verifies w' in Hrows.
    split; [exact Hrows|].
    intros config trackings at_time days. split.
    + intro Hp. rewrite Hrows.
      rewrite base_score_app, own_rows_in_period.
      * destruct verifies; cbn [fold_right act_type]; unfold type_points; cbn; lia.
      * destruct verifies; repeat constructor; cbn [act_curator_id act_timestamp];
          try reflexivity; apply Hp.
    + intro Ep. unfold RatingSystem.calculate_curator_score. now rewrite Ep.
Qed.

Lemma message_logging_witness :
  let w' :=
    Handlers.on_message HandlerScenario.plain_lower HandlerScenario.no_number
      HandlerScenario.no_number HandlerScenario.world (seconds 1030)
      (HandlerScenario.incoming Scenario.alice_msg) in
  Handlers.activity_rows w' =
    Handlers.activity_rows HandlerScenario.world ++
    [mkActivities 1 1 "message" (seconds 1030)] /\
  RatingSystem.base_score
    (RatingSystem.calculate_curator_score RatingSystem.default_rating_config
       (Handlers.activity_rows w') [] (seconds 2000) 1 30) = 0 + 3 + 0 /\
  RatingSystem.base_score
    (RatingSystem.calculate_curator_score RatingSystem.default_rating_config
       (Handlers.activity_rows w') [] (seconds 2000) 1 800000) = 0.
Proof.
  destruct (message_logging HandlerScenario.plain_lower HandlerScenario.no_number
              HandlerScenario.no_number HandlerScenario.world (seconds 1030)
              (HandlerScenario.incoming Scenario.alice_msg)) as [_ H].
  destruct (H Scenario.lspd Scenario.alice eq_refl eq_refl eq_refl) as [Hrows Hscore].
  split; [exact Hrows|]. split.
  - apply (Hscore RatingSystem.default_rating_config [] (seconds 2000) 30).
    cbv. split; discriminate.
  - apply (Hscore RatingSystem.default_rating_config [] (seconds 2000) 800000).
    reflexivity.
Defined.

(** ** discord_bot.py: task reports *)

Section ReportFacts.

Import Handlers.
Variable lower : string -> string.
Variable search_task_count : string -> option Z.
Variable search_number : string -> option Z.

Lemma verify_task_report_reports w now m curator server :
  let reports' :=
    task_reports (verify_task_report search_number w now m curator server) in
  reports' = task_reports w \/
  exists wanted verified,
    reports' = update_first wanted verified (task_reports w) /\
    (forall r, wanted r = true -> tr_status r = "pending") /\
    (forall r, tr_message_id (verified r) = tr_message_id r).
Proof.
  unfold verify_task_report.
  destruct (find _ (task_reports w)); [|now left].
  right. cbn [log_activity with_task_reports task_reports].
  eexists. eexists. split; [reflexivity|]. split.
  - intros r Hr. unfold pending_report in Hr.
    apply andb_true_iff in Hr. destruct Hr as [_ Hr]. now apply String.eqb_eq.
  - reflexivity.
Qed.

Lemma process_task_report_reports w now m server :
  let reports' :=
    task_reports (process_task_report lower search_task_count w now m server) in
  reports' = task_reports w \/
  exists r,
    reports' = task_reports w ++ [r] /\
    ~ In (tr_message_id r) (map tr_message_id (task_reports w)) /\
    tr_status r = "pending".
Proof.
  unfold process_task_report.
  destruct (search_task_count _); [|now left].
  destruct (find _ (task_reports w)) eqn:E; [now left|].
  right. eexists. split; [reflexivity|]. split; [|reflexivity].
  cbn [tr_message_id]. rewrite in_map_iff. intros (r & Hr & Hin).
  pose proof (find_none _ _ E r Hin) as Hf. cbn beta in Hf.
  rewrite Hr, Z.eqb_refl in Hf. discriminate Hf.
Qed.

Lemma on_message_reports w now m :
  let reports' :=
    task_reports (on_message lower search_task_count search_number w now m) in
  reports' = task_reports w \/
  (exists wanted verified,
     reports' = update_first wanted verified (task_reports w) /\
     (forall r, wanted r = true -> tr_status r = "pending") /\
     (forall r, tr_message_id (verified r) = tr_message_id r)) \/
  (exists r,
     reports' = task_reports w ++ [r] /\
     ~ In (tr_message_id r) (map tr_message_id (task_reports w)) /\
     tr_status r = "pending").
Proof.
  unfold on_message.
  destruct (in_author_bot m); [now left|].
  destruct (get_server_by_guild_id w _) as [server|]; [|now left].
  destruct (get_curator_by_discord_id w _) as [c|].
  - cbn [is_none andb].
    match goal with
    | |- context [if ?h then with_bot ?w1 _ else _] =>
        assert (E : task_reports (if h then with_bot w1
                                             (Bot.create_response_tracking (bot w1) now
                                                (in_message m) server)
                                  else w1) = task_reports w1)
          by (destruct h; reflexivity)
    end.
    cbv zeta. rewrite E. cbn [with_bot task_reports].
    destruct (is_substring _ _ || false); [|now left].
    destruct (verify_task_report_reports
                (log_activity w c server "message" (in_message m)) now m c server)
      as [H|H]; [left | right; left]; exact H.
  - cbn [is_none andb]. cbv zeta.
    match goal with
    | |- context [if ?h then with_bot w ?b else w] =>
        set (w2 := if h then with_bot w b else w);
        assert (E : task_reports w2 = task_reports w)
          by (unfold w2; destruct h; reflexivity)
    end.
    match goal with
    | |- task_reports (if ?c then _ else _) = _ \/ _ => destruct c
    end; [|left; exact E].
    destruct (process_task_report_reports w2 now m server) as [H|H];
      rewrite E in H; [left | right; right]; exact H.
Qed.

Lemma handle_reports w input :
  let reports' :=
    task_reports (handle lower search_task_count search_number w input) in
  reports' = task_reports w \/
  (exists wanted verified,
     reports' = update_first wanted verified (task_reports w) /\
     (forall r, wanted r = true -> tr_status r = "pending") /\
     (forall r, tr_message_id (verified r) = tr_message_id r)) \/
  (exists r,
     reports' = task_reports w ++ [r] /\
     ~ In (tr_message_id r) (map tr_message_id (task_reports w)) /\
     tr_status r = "pending").
Proof.
  destruct input as [now m|now m user_id user_bot|now i ch]; cbn [handle].
  - apply on_message_reports.
  - left. unfold on_reaction_add.
    destruct user_bot; [reflexivity|].
    destruct (get_server_by_guild_id w _); [|reflexivity].
    destruct (get_curator_by_discord_id w user_id); reflexivity.
  - now left.
Qed.

Lemma NoDup_snoc {A : Type} (l : list A) (x : A) :
  NoDup l -> ~ In x l -> NoDup (l ++ [x]).
Proof.
  intros Hl Hx. apply NoDup_rev in Hl.
  rewrite <- (rev_involutive (l ++ [x])). apply NoDup_rev.
  rewrite rev_app_distr. cbn [rev app]. constructor; [|exact Hl].
  now rewrite <- in_rev.
Qed.

End ReportFacts.

(** X25.  Task reports are kept one per message: if no two reports share a
    message id, this is still so after any messages, reactions and wake-ups
    have been handled. *)
Theorem one_report_per_message :
  forall (lower : string -> string)
         (search_task_count search_number : string -> option Z)
         (inputs : list Handlers.Input) (w : Handlers.World),
    NoDup (map Handlers.tr_message_id (Handlers.task_reports w)) ->
    NoDup (map Handlers.tr_message_id
             (Handlers.task_reports
                (Handlers.handle_all lower search_task_count search_number w inputs))).
Proof.
  intros lower search_task_count search_number inputs.
  induction inputs as [|input inputs IH]; intros w H;
    cbn [Handlers.handle_all fold_left]; [exact H|].
  apply IH.
  destruct (handle_reports lower search_task_count search_number w input)
    as [->|[(wanted & verified & -> & _ & Hid)|(r & -> & Hnew & _)]].
  - exact H.
  - now rewrite (update_first_map wanted verified Handlers.tr_message_id _ Hid).
  - rewrite map_app. cbn [map]. now apply NoDup_snoc.
Qed.

Lemma one_report_per_message_witness :
  NoDup (map Handlers.tr_message_id
           (Handlers.task_reports
              (Handlers.handle_all HandlerScenario.plain_lower
                 (fun _ => Some 3) HandlerScenario.no_number HandlerScenario.world
                 [ Handlers.MessageIn (seconds 1000)
                     (Handlers.mkIncoming Scenario.help_msg false
                        "completed-tasks" []);
                   Handlers.MessageIn (seconds 1001)
                     (Handlers.mkIncoming Scenario.help_msg false
                        "completed-tasks" []) ]))).
Proof.
  apply one_report_per_message. constructor.
Defined.

(** X26.  A task report that is no longer pending is never changed again:
    whatever is handled afterwards, the report stays in the table exactly as
    it is. *)
Theorem verified_report_is_final :
  forall (lower : string -> string)
         (search_task_count search_number : string -> option Z)
         (inputs : list Handlers.Input) (w : Handlers.World)
         (r : Handlers.TaskReports),
    In r (Handlers.task_reports w) ->
    Handlers.tr_status r <> "pending" ->
    In r (Handlers.task_reports
            (Handlers.handle_all lower search_task_count search_number w inputs)).
Proof.
  intros lower search_task_count search_number inputs.
  induction inputs as [|input inputs IH]; intros w r Hin Hst;
    cbn [Handlers.handle_all fold_left]; [exact Hin|].
  apply IH; [|exact Hst].
  destruct (handle_reports lower search_task_count search_number w input)
    as [->|[(wanted & verified & -> & Hp & _)|(r' & -> & _)]].
  - exact Hin.
  - apply update_first_keeps; [exact Hin|].
    destruct (wanted r) eqn:E; [|reflexivity].
    exfalso. apply Hst. now apply Hp.
  - apply in_or_app. now left.
Qed.

Lemma verified_report_is_final_witness :
  In HandlerScenario.verified_report
     (Handlers.task_reports
        (Handlers.handle_all HandlerScenario.plain_lower
           HandlerScenario.no_number (fun _ => Some 2)
           HandlerScenario.world_with_report
           [ Handlers.MessageIn (seconds 1000)
               (Handlers.mkIncoming Scenario.alice_msg false "completed-tasks" []) ])).
Proof.
  apply verified_report_is_final.
  - left. reflexivity.
  - discriminate.
Defined.

(** ** discord_bot.py and utils.py: the two keyword lists *)

(** X27.  Every text that the keyword test of the live bot accepts is
    accepted by the keyword test of the legacy bot as well, for any
    lower-casing that maps the empty text to itself. *)
Theorem live_keywords_are_legacy_keywords :
  forall (lower : string -> string) (content : string),
    lower "" = "" ->
    Handlers.contains_help_keywords lower content = true ->
    Utils.detect_mention_keywords lower content = true.
Proof.
  intros lower content Hlower Hlive.
  unfold Utils.detect_mention_keywords.
  destruct (String.eqb content "") eqn:E.
  - apply String.eqb_eq in E. subst content.
    unfold Handlers.contains_help_keywords in Hlive. rewrite Hlower in Hlive.
    cbv in Hlive. discriminate Hlive.
  - unfold Handlers.contains_help_keywords in Hlive.
    apply existsb_exists in Hlive. destruct Hlive as (k & Hk & Hsub).
    apply existsb_exists. exists k. split; [|exact Hsub].
    unfold Handlers.HELP_KEYWORDS in Hk. unfold Utils.keywords.
    repeat (destruct Hk as [<-|Hk]; [cbn [In]; auto 20|]).
    destruct Hk.
Qed.

Lemma live_keywords_are_legacy_keywords_witness :
  Utils.detect_mention_keywords HandlerScenario.ascii_lower "Need HELP please" = true.
Proof.
  apply live_keywords_are_legacy_keywords; reflexivity.
Defined.

(** The legacy list is larger: "admin" is a keyword there only. *)
Example legacy_only_keyword :
  Utils.detect_mention_keywords HandlerScenario.ascii_lower "Admin?" = true /\
  Handlers.contains_help_keywords HandlerScenario.ascii_lower "Admin?" = false.
Proof. split; reflexivity. Qed.
